(** * ai-board: threaded comments, post filter/listing, notifications, favorites

    A shallow embedding of the core of the ai-board web application
    (app_core.py, views_posts.py, views_api.py, views_admin.py,
    views_notify.py): the database tables are
    lists of rows, every handler is a function from the database (and the
    request) to a response and a new database, and the SQL statements the
    handlers send are evaluated by a small executor that follows
    PostgreSQL/psycopg2 where the handlers depend on it (positional
    parameters, NULL, foreign keys, serial ids). *)

From Stdlib Require Import List String Ascii ZArith Bool Lia Permutation Sorted.
Import ListNotations.
Local Open Scope Z_scope.

(* ================================================================== *)
(** * Part I: the program *)
(* ================================================================== *)

(** ** Python values and string formatting *)
Module Py.

(** Truthiness of [str | None]: [None] and [""] are falsy. *)
Definition truthy_str (s : option string) : bool :=
  match s with
  | Some s => negb (String.eqb s "")
  | None => false
  end.

(** Truthiness of [int | None]: [None] and [0] are falsy. *)
Definition truthy_int (n : option Z) : bool :=
  match n with
  | Some n => negb (n =? 0)
  | None => false
  end.

(** [a or b] on [str | None]. *)
Definition or_str (a b : option string) : option string :=
  if truthy_str a then a else b.

(** [a or 0] on [int | None]. *)
Definition or_zero (a : option Z) : Z :=
  match a with
  | Some n => n
  | None => 0
  end.

Definition digit_char (d : Z) : ascii := ascii_of_N (48 + Z.to_N d).

(** Decimal digits of a non-negative integer, most significant first. *)
Fixpoint decimal_digits (fuel : nat) (n : Z) (acc : string) : string :=
  match fuel with
  | O => acc
  | S fuel' =>
      let acc' := String (digit_char (n mod 10)) acc in
      if n / 10 =? 0 then acc' else decimal_digits fuel' (n / 10) acc'
  end.

(** [str(n)] for [n >= 0]; a number has at most [log2 n + 1] digits. *)
Definition str_of_nat (n : Z) : string :=
  decimal_digits (S (Z.to_nat (Z.log2 n))) n EmptyString.

Fixpoint zeros (k : nat) : string :=
  match k with
  | O => EmptyString
  | S k' => String "0"%char (zeros k')
  end.

Definition zfill (width : nat) (s : string) : string :=
  (zeros (width - String.length s) ++ s)%string.

(** The format [f"{n:06d}"]: sign-aware zero padding to a minimum width
    of six characters; longer numbers are not truncated. *)
Definition fmt06d (n : Z) : string :=
  if n <? 0 then String "-"%char (zfill 5 (str_of_nat (- n)))
  else zfill 6 (str_of_nat n).

(** [sep.join(parts)]. *)
Fixpoint join (sep : string) (parts : list string) : string :=
  match parts with
  | [] => EmptyString
  | [s] => s
  | s :: rest => (s ++ sep ++ join sep rest)%string
  end.

(** [s.startswith(p)]. *)
Definition startswith (s p : string) : bool := String.prefix p s.

(** [s.replace(old, new)] for a non-empty [old]: every non-overlapping
    occurrence, scanning from the left.  [skip] counts the characters of
    an occurrence already replaced that are still to be dropped. *)
Fixpoint replace_from (skip : nat) (old new s : string) : string :=
  match s with
  | EmptyString => EmptyString
  | String c rest =>
      match skip with
      | S k => replace_from k old new rest
      | O =>
          if String.prefix old s
          then (new ++ replace_from (String.length old - 1) old new rest)%string
          else String c (replace_from O old new rest)
      end
  end.

Definition replace (s old new : string) : string := replace_from O old new s.

End Py.

(** ** Stable sort used for every ORDER BY *)
Section Sorting.
Context {A : Type} (leb : A -> A -> bool).

Fixpoint insert_sorted (x : A) (l : list A) : list A :=
  match l with
  | [] => [x]
  | y :: l' => if leb x y then x :: l else y :: insert_sorted x l'
  end.

(** Rows are taken in table order; equal keys keep that order.  The
    server leaves the order of rows with equal keys open, so a statement
    that depends on it assumes that the keys differ. *)
Definition order_by (l : list A) : list A :=
  fold_right insert_sorted [] l.
End Sorting.

(** ** Tables (ensure_schema, ensure_notify_schema in app_core.py) *)

Record user := mkUser {
  u_id : Z;
  u_username : string;
  u_role : option string;
}.

Record post := mkPost {
  p_id : Z;
  p_genre : option string;
  p_title : string;
  p_content : string;
  p_ai_name : option string;
  p_author : string;
  p_image_url : option string;
  p_image_orig_url : option string;
  p_image_thumb_url : option string;
  p_created_at : Z;
  p_updated_at : option Z;
  p_status : option string;
}.

Record favorite := mkFavorite {
  f_id : Z;
  f_user_id : Z;
  f_post_id : Z;
  f_created_at : Z;
}.

Record comment := mkComment {
  c_id : Z;
  c_post_id : Z;
  c_comment : string;
  c_author : string;
  c_created_at : Z;
  c_parent_id : option Z;
  c_depth : option Z;
  c_path : option string;
  c_status : option string;
}.

Record user_reads_row := mkUserReads {
  ur_user_id : Z;
  ur_comments_on_my_posts : option Z;
  ur_replies_to_me : option Z;
  ur_favorites_on_my_posts : option Z;
}.

(** The database: one list of rows per table, in insertion order, and the
    two SERIAL sequences the handlers draw ids from.  [post_tags] holds
    (post_id, tag_id) pairs. *)
Record db := mkDb {
  users : list user;
  posts : list post;
  post_tags : list (Z * Z);
  favorites : list favorite;
  favorites_id_seq : Z;
  comments : list comment;
  comments_id_seq : Z;
  user_reads : list user_reads_row;
}.

Definition set_comments (d : db) (cs : list comment) (seq : Z) : db :=
  mkDb (users d) (posts d) (post_tags d) (favorites d) (favorites_id_seq d)
       cs seq (user_reads d).

Definition set_favorites (d : db) (fs : list favorite) (seq : Z) : db :=
  mkDb (users d) (posts d) (post_tags d) fs seq
       (comments d) (comments_id_seq d) (user_reads d).

(** What a handler answers. *)
Inductive response : Type :=
| Redirect (flash : string)
| ServerError.

Definition is_public (s : option string) : bool :=
  match s with
  | Some s => String.eqb s "public"
  | None => false
  end.

(** ** Values the driver and the server refuse *)
Module Limits.

(** The values of the column type INTEGER.  A literal outside is
    rejected when the statement is planned, before a row is built and
    before a sequence is touched. *)
Definition fits_integer (n : Z) : bool := (-2147483648 <=? n) && (n <=? 2147483647).

(** The largest value of the type bigint, which LIMIT and OFFSET take. *)
Definition bigint_max : Z := 9223372036854775807.

(** The string has a NUL character; psycopg2 raises ValueError for such
    an argument. *)
Fixpoint has_nul (s : string) : bool :=
  match s with
  | EmptyString => false
  | String c rest => (c =? "000")%char || has_nul rest
  end.

End Limits.

(** ** Threaded comments (views_posts.py: add_comment, post_detail) *)
Module Comments.

(** [SELECT id, path, depth FROM comments WHERE id=%s AND post_id=%s]. *)
Definition select_parent (d : db) (parent_id post_id : Z) : option comment :=
  find (fun c => (c_id c =? parent_id) && (c_post_id c =? post_id)) (comments d).

(** The foreign keys of [comments]: [post_id REFERENCES posts(id)] and
    [parent_id REFERENCES comments(id)]. *)
Definition foreign_keys_hold (d : db) (post_id : Z) (parent_id : option Z) : bool :=
  existsb (fun p => p_id p =? post_id) (posts d)
  && match parent_id with
     | Some pid => existsb (fun c => c_id c =? pid) (comments d)
     | None => true
     end.

(** The integer columns [post_id] and [parent_id] can hold the values. *)
Definition values_fit (post_id : Z) (parent_id : option Z) : bool :=
  Limits.fits_integer post_id
  && match parent_id with
     | Some pid => Limits.fits_integer pid
     | None => true
     end.

(** [INSERT INTO comments (...) VALUES (...,NOW(),...,'public') RETURNING id].
    A value that is no INTEGER is refused before the sequence is touched.
    Otherwise the id is drawn from the sequence before the constraints
    are checked, so an insert that a foreign key rejects still consumes
    it. *)
Definition insert_comment (d : db) (post_id : Z) (text author : string) (now : Z)
           (parent_id : option Z) (depth : Z) (path : option string)
  : option Z * db :=
  let cid := comments_id_seq d in
  if negb (values_fit post_id parent_id) then (None, d)
  else if foreign_keys_hold d post_id parent_id then
    let row := mkComment cid post_id text author now parent_id
                         (Some depth) path (Some "public"%string) in
    (Some cid, set_comments d (comments d ++ [row]) (cid + 1))
  else (None, set_comments d (comments d) (cid + 1)).

(** [UPDATE comments SET path=%s WHERE id=%s]. *)
Definition update_path (d : db) (cid : Z) (new_path : string) : db :=
  set_comments d
    (map (fun c =>
            if c_id c =? cid
            then mkComment (c_id c) (c_post_id c) (c_comment c) (c_author c)
                           (c_created_at c) (c_parent_id c) (c_depth c)
                           (Some new_path) (c_status c)
            else c)
         (comments d))
    (comments_id_seq d).

(** The depth and the path prefix computed before the insert. *)
Definition depth_and_prefix (d : db) (post_id : Z) (parent_id : option Z)
  : Z * option string :=
  if Py.truthy_int parent_id then
    match select_parent d (Py.or_zero parent_id) post_id with
    | Some pr =>
        let parent_path :=
          if Py.truthy_str (c_path pr)
          then match c_path pr with Some s => s | None => EmptyString end
          else Py.fmt06d (c_id pr) in
        (Py.or_zero (c_depth pr) + 1, Some (parent_path ++ "/")%string)
    | None => (0, None)
    end
  else (0, None).

(** [add_comment(post_id)]: [text] is the sanitized form field,
    [parent_id] the optional integer form field, [now] the value of
    [NOW()].  A failed insert aborts the transaction (nothing but the
    sequence moves) and the request ends in an error. *)
Definition add_comment (d : db) (author : string) (post_id : Z) (text : string)
           (parent_id : option Z) (now : Z) : response * db :=
  if String.eqb text "" then (Redirect "Comment cannot be empty.", d)
  else
    let '(depth, path) := depth_and_prefix d post_id parent_id in
    match insert_comment d post_id text author now parent_id depth path with
    | (Some cid, d1) =>
        let new_path :=
          match path with
          | None => Py.fmt06d cid
          | Some prefix => (prefix ++ Py.fmt06d cid)%string
          end in
        (Redirect "Comment posted.", update_path d1 cid new_path)
    | (None, d1) => (ServerError, d1)
    end.

(** [COALESCE(path,'')]. *)
Definition coalesce_path (c : comment) : string :=
  match c_path c with
  | Some s => s
  | None => EmptyString
  end.

(** [ORDER BY COALESCE(path,''), created_at ASC]. *)
Definition comment_leb (a b : comment) : bool :=
  match String.compare (coalesce_path a) (coalesce_path b) with
  | Lt => true
  | Eq => c_created_at a <=? c_created_at b
  | Gt => false
  end.

(** The comment query of [post_detail]: staff see every comment of the
    post, everybody else the public ones. *)
Definition post_detail_comments (d : db) (post_id : Z) (is_mod : bool)
  : list comment :=
  order_by comment_leb
    (filter (fun c => (c_post_id c =? post_id)
                      && (is_mod || is_public (c_status c)))
            (comments d)).

(** *** The comment tree of a post and its pre-order traversal

    These definitions are the reference the listing order is compared
    with.  [cs] are the comments of one post in creation order. *)

Definition thread (d : db) (post_id : Z) : list comment :=
  filter (fun c => c_post_id c =? post_id) (comments d).

Definition is_reply_to (p c : comment) : bool :=
  match c_parent_id c with
  | Some pid => pid =? c_id p
  | None => false
  end.

Definition children (cs : list comment) (p : comment) : list comment :=
  filter (is_reply_to p) cs.

Definition is_root (cs : list comment) (c : comment) : bool :=
  negb (existsb (fun p => is_reply_to p c) cs).

Definition roots (cs : list comment) : list comment :=
  filter (is_root cs) cs.

(** A node, then the subtrees of its children in creation order. *)
Fixpoint subtree (fuel : nat) (cs : list comment) (c : comment) : list comment :=
  match fuel with
  | O => []
  | S fuel' => c :: flat_map (subtree fuel' cs) (children cs c)
  end.

(** No branch of the tree is longer than the number of comments. *)
Definition preorder (cs : list comment) : list comment :=
  flat_map (subtree (List.length cs) cs) (roots cs).

(** A request to [add_comment] and the handler run over a sequence of
    requests. *)
Record comment_request := mkRequest {
  rq_author : string;
  rq_post_id : Z;
  rq_text : string;
  rq_parent_id : option Z;
  rq_now : Z;
}.

Definition handle (d : db) (r : comment_request) : db :=
  snd (add_comment d (rq_author r) (rq_post_id r) (rq_text r)
                   (rq_parent_id r) (rq_now r)).

Definition run (d : db) (rs : list comment_request) : db :=
  fold_left handle rs d.

End Comments.

(** ** SQL statements with positional parameters (psycopg2) *)
Module Sql.

(** A Python value passed as a query parameter. *)
Inductive param : Type :=
| PText (s : string)
| PInt (n : Z)
| PIntList (l : list Z).

(** The number of [%s] placeholders of a statement text. *)
Fixpoint count_placeholders (s : string) : nat :=
  match s with
  | EmptyString => O
  | String c rest =>
      match rest with
      | EmptyString => O
      | String c' rest' =>
          if ((c =? "%")%char && (c' =? "s")%char)%bool
          then S (count_placeholders rest')
          else count_placeholders rest
      end
  end.

(** [cursor.execute(sql, args)] merges the arguments into the text:
    a text without placeholders is sent as it is, otherwise every
    placeholder takes the next argument; a missing argument raises
    IndexError and a spare one TypeError. *)
Definition merge_args (sql : string) (args : list param) : option (list param) :=
  let n := count_placeholders sql in
  if (n =? 0)%nat then Some []
  else if (n =? List.length args)%nat then Some args
  else None.

End Sql.

(** The full-text search of PostgreSQL is a collaborator:
    [fts_match q p] is [p.search_vec @@ websearch_to_tsquery('simple', q)]
    and [fts_rank q p] is [ts_rank(p.search_vec, websearch_to_tsquery('simple', q))],
    a real number of which only the order matters here. *)
Record fts_engine := mkFts {
  fts_match : string -> post -> bool;
  fts_rank : string -> post -> Z;
}.

(** ** The post filter (app_core.py: build_posts_filter_sql) *)
Module Filter.
Import Sql.

(** The conjuncts the builder can append to [where]. *)
Inductive conjunct : Type :=
| StatusPublic
| GenreEq
| SearchMatch
| TagsAll.

Definition conjunct_sql (c : conjunct) : string :=
  match c with
  | StatusPublic => "p.status='public'"
  | GenreEq => "p.genre=%s"
  | SearchMatch => "p.search_vec @@ websearch_to_tsquery('simple', %s)"
  | TagsAll => "
            p.id IN (
            SELECT pt.post_id
                FROM post_tags pt
            WHERE pt.tag_id = ANY(%s)
            GROUP BY pt.post_id
            HAVING COUNT(DISTINCT pt.tag_id) = %s
            )
            "
  end.

Definition rank_expression : string :=
  "ts_rank(p.search_vec, websearch_to_tsquery('simple', %s)) AS rank".

(** The builder's result before [where] is joined into text. *)
Record posts_filter := mkFilter {
  where_ : list conjunct;
  params : list param;
  rank_sql : option string;
}.

Definition build_posts_filter_sql (keyword : string) (selected_genre : option string)
           (selected_tag_ids : list Z) (include_non_public : bool) : posts_filter :=
  let where0 := if negb include_non_public then [StatusPublic] else [] in
  let '(where1, params1) :=
    if Py.truthy_str selected_genre
    then (where0 ++ [GenreEq],
          [PText (match selected_genre with Some g => g | None => EmptyString end)])
    else (where0, []) in
  let '(where2, params2, rank) :=
    if negb (String.eqb keyword "")
    then (where1 ++ [SearchMatch], params1 ++ [PText keyword], Some rank_expression)
    else (where1, params1, None) in
  let '(where3, params3) :=
    match selected_tag_ids with
    | [] => (where2, params2)
    | _ :: _ =>
        (where2 ++ [TagsAll],
         params2 ++ [PIntList selected_tag_ids;
                     PInt (Z.of_nat (List.length selected_tag_ids))])
    end in
  mkFilter where3 params3 rank.

(** [("WHERE " + " AND ".join(where)) if where else ""]. *)
Definition where_sql (f : posts_filter) : string :=
  match where_ f with
  | [] => EmptyString
  | _ :: _ => ("WHERE " ++ Py.join " AND " (map conjunct_sql (where_ f)))%string
  end.

(** *** What the conjuncts mean on the tables *)

Definition mem (x : Z) (l : list Z) : bool := existsb (Z.eqb x) l.

(** [SELECT DISTINCT] on integers. *)
Fixpoint distinct (l : list Z) : list Z :=
  match l with
  | [] => []
  | x :: l' => if mem x l' then distinct l' else x :: distinct l'
  end.

(** [SELECT pt.post_id FROM post_tags pt WHERE pt.tag_id = ANY(ids)
     GROUP BY pt.post_id HAVING COUNT(DISTINCT pt.tag_id) = n]. *)
Definition tagged_with_all (d : db) (ids : list Z) (n : Z) : list Z :=
  let matching := filter (fun pt => mem (snd pt) ids) (post_tags d) in
  filter (fun pid =>
            Z.of_nat (List.length
                        (distinct (map snd (filter (fun pt => fst pt =? pid) matching))))
            =? n)
         (distinct (map fst matching)).

(** A conjunct with its arguments in place. *)
Inductive bound : Type :=
| BStatusPublic
| BGenre (g : string)
| BSearch (q : string)
| BTags (ids : list Z) (n : Z).

(** Arguments are taken from the left, one per placeholder; an argument
    of a type the operator does not accept is an error of the server. *)
Fixpoint bind_where (cs : list conjunct) (args : list param)
  : option (list bound * list param) :=
  match cs with
  | [] => Some ([], args)
  | StatusPublic :: cs' =>
      match bind_where cs' args with
      | Some (bs, rest) => Some (BStatusPublic :: bs, rest)
      | None => None
      end
  | GenreEq :: cs' =>
      match args with
      | PText g :: args' =>
          match bind_where cs' args' with
          | Some (bs, rest) => Some (BGenre g :: bs, rest)
          | None => None
          end
      | _ => None
      end
  | SearchMatch :: cs' =>
      match args with
      | PText q :: args' =>
          match bind_where cs' args' with
          | Some (bs, rest) => Some (BSearch q :: bs, rest)
          | None => None
          end
      | _ => None
      end
  | TagsAll :: cs' =>
      match args with
      | PIntList ids :: PInt n :: args' =>
          match bind_where cs' args' with
          | Some (bs, rest) => Some (BTags ids n :: bs, rest)
          | None => None
          end
      | _ => None
      end
  end.

(** A NULL column makes a comparison unknown, which rejects the row. *)
Definition holds (E : fts_engine) (d : db) (b : bound) (p : post) : bool :=
  match b with
  | BStatusPublic => is_public (p_status p)
  | BGenre g =>
      match p_genre p with
      | Some g' => String.eqb g' g
      | None => false
      end
  | BSearch q => fts_match E q p
  | BTags ids n => mem (p_id p) (tagged_with_all d ids n)
  end.

Definition satisfies (E : fts_engine) (d : db) (bs : list bound) (p : post) : bool :=
  forallb (fun b => holds E d b p) bs.

End Filter.

(** ** Configuration, users and the CDN rewrite (app_core.py) *)

(** [app.config] and the environment variables the handlers read. *)
Record config := mkConfig {
  PER_PAGE : Z;
  ADMIN_USERNAMES : list string;
  CDN_DOMAIN : option string;
  S3_BUCKET_NAME : option string;
  S3_REGION : option string;
}.

Module Auth.

(** [self.role = role or "user"]. *)
Definition role (u : user) : string :=
  match Py.or_str (u_role u) (Some "user"%string) with
  | Some r => r
  | None => "user"%string
  end.

Definition is_admin (cfg : config) (u : user) : bool :=
  String.eqb (role u) "admin"
  || existsb (String.eqb (u_username u)) (ADMIN_USERNAMES cfg).

Definition is_moderator (cfg : config) (u : user) : bool :=
  is_admin cfg u || String.eqb (role u) "moderator".

Definition is_staff (cfg : config) (u : user) : bool := is_moderator cfg u.

(** [current_user.is_authenticated and current_user.is_staff]; the
    anonymous user is [None]. *)
Definition is_mod (cfg : config) (current_user : option user) : bool :=
  match current_user with
  | Some u => is_staff cfg u
  | None => false
  end.

End Auth.

Definition unwrap (s : option string) : string :=
  match s with
  | Some s => s
  | None => EmptyString
  end.

Definition cdnize (cfg : config) (url : option string) : option string :=
  if negb (Py.truthy_str url) then url
  else if negb (Py.truthy_str (CDN_DOMAIN cfg) && Py.truthy_str (S3_BUCKET_NAME cfg)
                && Py.truthy_str (S3_REGION cfg)) then url
  else
    let s3_prefix :=
      ("https://" ++ unwrap (S3_BUCKET_NAME cfg) ++ ".s3." ++ unwrap (S3_REGION cfg)
                  ++ ".amazonaws.com/")%string in
    if Py.startswith (unwrap url) s3_prefix
    then Some (Py.replace (unwrap url) s3_prefix
                          ("https://" ++ unwrap (CDN_DOMAIN cfg) ++ "/")%string)
    else url.

(** ** The listing and the exports (views_posts.py, views_api.py) *)
Module Listing.
Import Sql Filter.

(** A fetched row: the post columns, [COALESCE(fc.cnt, 0) AS favorite_count]
    and the rank column when the select list has one. *)
Record row := mkRow {
  r_post : post;
  r_favorite_count : Z;
  r_rank : option Z;
}.

(** The values of the [order_by] dictionary. *)
Inductive ordering : Type :=
| OrdNew
| OrdUpdated
| OrdOld
| OrdLikes
| OrdAi
| OrdRelevance.

Definition ordering_sql (o : ordering) : string :=
  match o with
  | OrdNew => "p.created_at DESC"
  | OrdUpdated => "p.updated_at DESC NULLS LAST, p.created_at DESC"
  | OrdOld => "p.created_at ASC"
  | OrdLikes => "favorite_count DESC NULLS LAST, p.created_at DESC"
  | OrdAi => "p.ai_name ASC, p.created_at DESC"
  | OrdRelevance => "rank DESC NULLS LAST, p.created_at DESC"
  end.

(** [{...}.get(sort, "p.created_at DESC")]. *)
Definition order_by_of (sort : string) : ordering :=
  if String.eqb sort "new" then OrdNew
  else if String.eqb sort "updated" then OrdUpdated
  else if String.eqb sort "old" then OrdOld
  else if String.eqb sort "likes" then OrdLikes
  else if String.eqb sort "ai" then OrdAi
  else if String.eqb sort "relevance" then OrdRelevance
  else OrdNew.

Inductive column : Type :=
| ColCreatedAt
| ColUpdatedAt
| ColFavoriteCount
| ColAiName
| ColRank.

(** The sort keys of an ordering: a column and whether it is descending. *)
Definition order_terms (o : ordering) : list (column * bool) :=
  match o with
  | OrdNew => [(ColCreatedAt, true)]
  | OrdUpdated => [(ColUpdatedAt, true); (ColCreatedAt, true)]
  | OrdOld => [(ColCreatedAt, false)]
  | OrdLikes => [(ColFavoriteCount, true); (ColCreatedAt, true)]
  | OrdAi => [(ColAiName, false); (ColCreatedAt, true)]
  | OrdRelevance => [(ColRank, true); (ColCreatedAt, true)]
  end.

(** NULLs sort last in every ordering of the dictionary. *)
Definition compare_nulls_last {A : Type} (cmp : A -> A -> comparison) (desc : bool)
           (a b : option A) : comparison :=
  match a, b with
  | Some x, Some y => if desc then cmp y x else cmp x y
  | Some _, None => Lt
  | None, Some _ => Gt
  | None, None => Eq
  end.

Definition compare_column (c : column) (desc : bool) (a b : row) : comparison :=
  match c with
  | ColCreatedAt =>
      compare_nulls_last Z.compare desc
        (Some (p_created_at (r_post a))) (Some (p_created_at (r_post b)))
  | ColUpdatedAt =>
      compare_nulls_last Z.compare desc
        (p_updated_at (r_post a)) (p_updated_at (r_post b))
  | ColFavoriteCount =>
      compare_nulls_last Z.compare desc
        (Some (r_favorite_count a)) (Some (r_favorite_count b))
  | ColAiName =>
      compare_nulls_last String.compare desc
        (p_ai_name (r_post a)) (p_ai_name (r_post b))
  | ColRank => compare_nulls_last Z.compare desc (r_rank a) (r_rank b)
  end.

Fixpoint compare_rows (terms : list (column * bool)) (a b : row) : comparison :=
  match terms with
  | [] => Eq
  | (c, desc) :: terms' =>
      match compare_column c desc a b with
      | Eq => compare_rows terms' a b
      | r => r
      end
  end.

Definition row_leb (terms : list (column * bool)) (a b : row) : bool :=
  match compare_rows terms a b with
  | Gt => false
  | _ => true
  end.

(** A SELECT over [posts p LEFT JOIN fav fc]: the text sent to the
    server and what it consists of. *)
Record select_posts := mkSelect {
  s_sql : string;
  s_rank : bool;
  s_where : list conjunct;
  s_order : ordering;
  s_paged : bool;
}.

Definition favorite_count (d : db) (p : post) : Z :=
  Z.of_nat (List.length (filter (fun f => f_post_id f =? p_id p) (favorites d))).

Definition make_row (E : fts_engine) (d : db) (rank_query : option string) (p : post) : row :=
  mkRow p (favorite_count d p)
        (match rank_query with
         | Some q => Some (fts_rank E q p)
         | None => None
         end).

Definition uses_rank (o : ordering) : bool :=
  existsb (fun t => match fst t with ColRank => true | _ => false end) (order_terms o).

(** [cur.execute(sql, args); cur.fetchall()].  [None] is an exception of
    the driver or an error of the server: arguments that do not fit the
    placeholders, an argument of the wrong type, a LIMIT or OFFSET that
    is negative or no bigint, or ORDER BY naming a column [rank] the
    select list does not have.  The strings among the arguments are
    taken to be free of the character NUL, which the driver refuses; a
    statement that a request with a free string runs assumes it. *)
Definition execute (E : fts_engine) (d : db) (s : select_posts) (args : list param)
  : option (list row) :=
  match merge_args (s_sql s) args with
  | None => None
  | Some args0 =>
      match (if s_rank s
             then match args0 with
                  | PText q :: rest => Some (Some q, rest)
                  | _ => None
                  end
             else Some (None, args0)) with
      | None => None
      | Some (rank_query, args1) =>
          match bind_where (s_where s) args1 with
          | None => None
          | Some (bs, args2) =>
              match (if s_paged s
                     then match args2 with
                          | [PInt l; PInt o] =>
                              if (0 <=? l) && (0 <=? o)
                                 && (l <=? Limits.bigint_max) && (o <=? Limits.bigint_max)
                              then Some (Some (l, o)) else None
                          | _ => None
                          end
                     else match args2 with
                          | [] => Some None
                          | _ :: _ => None
                          end) with
              | None => None
              | Some window =>
                  if uses_rank (s_order s) && negb (s_rank s) then None
                  else
                    let rows := map (make_row E d rank_query)
                                    (filter (satisfies E d bs) (posts d)) in
                    let sorted := order_by (row_leb (order_terms (s_order s))) rows in
                    Some (match window with
                          | Some (l, o) => firstn (Z.to_nat l) (skipn (Z.to_nat o) sorted)
                          | None => sorted
                          end)
              end
          end
      end
  end.

(** The count query of the listing: every post the filter accepts. *)
Definition execute_count (E : fts_engine) (d : db) (f : posts_filter) : option Z :=
  match merge_args ("SELECT COUNT(*) FROM posts p " ++ where_sql f)%string (params f) with
  | None => None
  | Some args0 =>
      match bind_where (where_ f) args0 with
      | Some (bs, []) =>
          Some (Z.of_nat (List.length (filter (satisfies E d bs) (posts d))))
      | _ => None
      end
  end.

(** *** show_posts *)

Definition listing_select_cols : string := "
            p.id, p.genre, p.title, p.content, p.tools, p.chatlog, p.ai_name, p.author,
            p.image_url, p.image_orig_url, p.image_thumb_url,
            p.created_at, p.updated_at, p.status,
            COALESCE(fc.cnt, 0) AS favorite_count
        ".

Definition listing_sql (select_cols where_sql order_by : string) : string :=
  ("
            WITH fav AS (
                SELECT post_id, COUNT(*) AS cnt
                  FROM favorites
                 GROUP BY post_id
            )
            SELECT " ++ select_cols ++ "
              FROM posts p
              LEFT JOIN fav fc ON fc.post_id = p.id
              " ++ where_sql ++ "
             ORDER BY " ++ order_by ++ "
             LIMIT %s OFFSET %s
            ")%string.

(** The image of a card: [thumb or image_url or orig], through the CDN
    rewrite. *)
Definition card_image_url (cfg : config) (p : post) : option string :=
  let raw := Py.or_str (Py.or_str (p_image_thumb_url p) (p_image_url p))
                       (p_image_orig_url p) in
  if Py.truthy_str raw then cdnize cfg raw else None.

Record card := mkCard {
  cd_row : row;
  cd_image_url : option string;
}.

(** What the template receives of the listing. *)
Record page_view := mkPage {
  pv_posts : list card;
  pv_total : Z;
  pv_page : Z;
  pv_has_prev : bool;
  pv_has_next : bool;
}.

(** [show_posts]: [keyword] and [selected_genre] are the stripped query
    arguments, [selected_tag_ids] the tag ids the handler has parsed
    from the argument [tags] or, when that is empty, from [tag],
    [page_arg] the integer [page] argument.  [None] is a request that
    ends in an exception.  The parsing of the tag arguments and the
    queries for the genre and tag side bars do not touch the posts of
    the page and are left out. *)
Definition show_posts (E : fts_engine) (cfg : config) (d : db)
           (current_user : option user) (sort keyword : string)
           (selected_genre : option string) (selected_tag_ids : list Z)
           (page_arg : Z) : option page_view :=
  let page := Z.max 1 page_arg in
  let per_page := PER_PAGE cfg in
  let offset := (page - 1) * per_page in
  let is_mod := Auth.is_mod cfg current_user in
  let f := build_posts_filter_sql keyword selected_genre selected_tag_ids is_mod in
  match execute_count E d f with
  | None => None
  | Some total =>
      let has_prev := 1 <? page in
      let has_next := offset + per_page <? total in
      let order_by := order_by_of sort in
      let select_cols :=
        if Py.truthy_str (rank_sql f)
        then (listing_select_cols ++ ", " ++ unwrap (rank_sql f))%string
        else listing_select_cols in
      let final_params := params f ++ [PInt per_page; PInt offset] in
      match execute E d
              (mkSelect (listing_sql select_cols (where_sql f) (ordering_sql order_by))
                        (Py.truthy_str (rank_sql f)) (where_ f) order_by true)
              final_params with
      | None => None
      | Some rows =>
          Some (mkPage (map (fun r => mkCard r (card_image_url cfg (r_post r))) rows)
                       total page has_prev has_next)
      end
  end.

(** *** export_posts_csv and export_posts_json *)

Definition export_sql (select_cols where_sql order_by : string) : string :=
  ("
        WITH fav AS (SELECT post_id, COUNT(*) AS cnt FROM favorites GROUP BY post_id)
        SELECT " ++ select_cols ++ "
          FROM posts p
          LEFT JOIN fav fc ON fc.post_id=p.id
          " ++ where_sql ++ "
         ORDER BY " ++ order_by ++ "
        ")%string.

(** The rows the CSV writer receives; [selected_tag_ids] are the tag ids
    parsed from the argument [tags], the only one the exports read. *)
Definition export_posts_csv (E : fts_engine) (cfg : config) (d : db)
           (current_user : option user) (sort keyword : string)
           (selected_genre : option string) (selected_tag_ids : list Z)
  : option (list row) :=
  let is_mod := Auth.is_mod cfg current_user in
  let f := build_posts_filter_sql keyword selected_genre selected_tag_ids is_mod in
  let order_by := order_by_of sort in
  let select_cols := "p.*, COALESCE(fc.cnt,0) AS favorite_count"%string in
  let '(select_cols, final_params) :=
    if Py.truthy_str (rank_sql f)
    then ((select_cols ++ ", " ++ unwrap (rank_sql f))%string, [PText keyword])
    else (select_cols, []) in
  let final_params := final_params ++ params f in
  execute E d
    (mkSelect (export_sql select_cols (where_sql f) (ordering_sql order_by))
              (Py.truthy_str (rank_sql f)) (where_ f) order_by false)
    final_params.

(** The rows the JSON records are made of. *)
Definition export_posts_json (E : fts_engine) (cfg : config) (d : db)
           (current_user : option user) (sort keyword : string)
           (selected_genre : option string) (selected_tag_ids : list Z)
  : option (list row) :=
  let is_mod := Auth.is_mod cfg current_user in
  let f := build_posts_filter_sql keyword selected_genre selected_tag_ids is_mod in
  let order_by := order_by_of sort in
  let select_cols := "p.*, COALESCE(fc.cnt,0) AS favorite_count"%string in
  let '(select_cols, final_params) :=
    if Py.truthy_str (rank_sql f)
    then ((select_cols ++ ", " ++ unwrap (rank_sql f))%string, [PText keyword])
    else (select_cols, []) in
  let final_params := final_params ++ params f in
  execute E d
    (mkSelect (export_sql select_cols (where_sql f) (ordering_sql order_by))
              (Py.truthy_str (rank_sql f)) (where_ f) order_by false)
    final_params.

End Listing.

(** ** Notification counters (app_core.py: get_notify_counts_for_user) *)
Module Notify.

(** The parameters of the counter queries: user names and timestamps. *)
Inductive param : Type :=
| PName (s : string)
| PTime (t : Z).

Record last_reads := mkLastReads {
  lr_comments_on_my_posts : option Z;
  lr_replies_to_me : option Z;
  lr_favorites_on_my_posts : option Z;
}.

Definition get_notify_last_reads (d : db) (user_id : Z) : last_reads :=
  match find (fun r => ur_user_id r =? user_id) (user_reads d) with
  | Some r => mkLastReads (ur_comments_on_my_posts r) (ur_replies_to_me r)
                          (ur_favorites_on_my_posts r)
  | None => mkLastReads None None None
  end.

(** Truthiness of [datetime | None]: every datetime is truthy. *)
Definition truthy_time (t : option Z) : bool :=
  match t with
  | Some _ => true
  | None => false
  end.

(** The two forms of each WHERE clause: with [where_time] empty the
    statement takes two arguments, with [AND x.created_at > %s] three. *)
Definition bind_counter (where_time : bool) (args : list param)
  : option (string * string * option Z) :=
  match where_time, args with
  | false, [PName a; PName b] => Some (a, b, None)
  | true, [PName a; PName b; PTime t] => Some (a, b, Some t)
  | _, _ => None
  end.

Definition newer (since : option Z) (created_at : Z) : bool :=
  match since with
  | Some t => t <? created_at
  | None => true
  end.

(** [SELECT COUNT( * ) FROM comments c JOIN posts p ON p.id=c.post_id
     WHERE p.author=%s AND c.author<>%s {where_time}]. *)
Definition count_comments_on_posts (d : db) (where_time : bool) (args : list param)
  : option Z :=
  match bind_counter where_time args with
  | None => None
  | Some (a, b, since) =>
      let joined :=
        flat_map (fun c => map (fun p => (c, p))
                               (filter (fun p => p_id p =? c_post_id c) (posts d)))
                 (comments d) in
      Some (Z.of_nat (List.length
        (filter (fun cp => String.eqb (p_author (snd cp)) a
                           && negb (String.eqb (c_author (fst cp)) b)
                           && newer since (c_created_at (fst cp)))
                joined)))
  end.

(** [SELECT COUNT( * ) FROM comments c
     WHERE c.parent_id IN (SELECT id FROM comments WHERE author=%s)
     AND c.author<>%s {where_time}]. *)
Definition count_replies (d : db) (where_time : bool) (args : list param) : option Z :=
  match bind_counter where_time args with
  | None => None
  | Some (a, b, since) =>
      let mine := map c_id (filter (fun c => String.eqb (c_author c) a) (comments d)) in
      Some (Z.of_nat (List.length
        (filter (fun c => match c_parent_id c with
                          | Some pid => existsb (Z.eqb pid) mine
                          | None => false
                          end
                          && negb (String.eqb (c_author c) b)
                          && newer since (c_created_at c))
                (comments d))))
  end.

(** [SELECT COUNT( * ) FROM favorites f JOIN posts p ON p.id=f.post_id
     JOIN users u ON u.id=f.user_id
     WHERE p.author=%s AND u.username<>%s {where_time}]. *)
Definition count_favorites_on_posts (d : db) (where_time : bool) (args : list param)
  : option Z :=
  match bind_counter where_time args with
  | None => None
  | Some (a, b, since) =>
      let joined :=
        flat_map (fun f =>
                    flat_map (fun p =>
                                map (fun u => (f, p, u))
                                    (filter (fun u => u_id u =? f_user_id f) (users d)))
                             (filter (fun p => p_id p =? f_post_id f) (posts d)))
                 (favorites d) in
      Some (Z.of_nat (List.length
        (filter (fun fpu => let '(f, p, u) := fpu in
                            String.eqb (p_author p) a
                            && negb (String.eqb (u_username u) b)
                            && newer since (f_created_at f))
                joined)))
  end.

Record counts := mkCounts {
  comments_on_my_posts : Z;
  replies_to_me : Z;
  favorites_on_my_posts : Z;
}.

(** The parameter list of one counter: [[username, username]] and the
    watermark appended when there is one. *)
Definition counter_params (username : string) (last : option Z) : list param :=
  [PName username; PName username]
    ++ (if truthy_time last
        then match last with Some t => [PTime t] | None => [] end
        else []).

Definition get_notify_counts_for_user (d : db) (user_id : Z) (username : string)
  : option counts :=
  let last := get_notify_last_reads d user_id in
  match count_comments_on_posts d (truthy_time (lr_comments_on_my_posts last))
          (counter_params username (lr_comments_on_my_posts last)) with
  | None => None
  | Some cnt_comments =>
      match count_replies d (truthy_time (lr_replies_to_me last))
              (counter_params username (lr_replies_to_me last)) with
      | None => None
      | Some cnt_replies =>
          match count_favorites_on_posts d
                  (truthy_time (lr_favorites_on_my_posts last))
                  (counter_params username (lr_favorites_on_my_posts last)) with
          | None => None
          | Some cnt_favs => Some (mkCounts cnt_comments cnt_replies cnt_favs)
          end
      end
  end.

End Notify.

(** ** Favorites (views_posts.py: toggle_favorite) *)
Module Favorites.

Definition is_favorite_of (user_id post_id : Z) (f : favorite) : bool :=
  (f_user_id f =? user_id) && (f_post_id f =? post_id).

(** [SELECT status FROM posts WHERE id=%s]. *)
Definition select_status (d : db) (post_id : Z) : option (option string) :=
  match find (fun p => p_id p =? post_id) (posts d) with
  | Some p => Some (p_status p)
  | None => None
  end.

(** [toggle_favorite(post_id)] for the logged-in [current_user]; [now]
    is the default of [favorites.created_at].  The INSERT of a post id
    that is no INTEGER raises, and nothing is stored. *)
Definition toggle_favorite (cfg : config) (d : db) (current_user : user)
           (post_id : Z) (now : Z) : response * db :=
  let uid := u_id current_user in
  if existsb (is_favorite_of uid post_id) (favorites d) then
    (Redirect "Removed from favorites.",
     set_favorites d (filter (fun f => negb (is_favorite_of uid post_id f)) (favorites d))
                   (favorites_id_seq d))
  else
    let refused :=
      if negb (Auth.is_staff cfg current_user) then
        match select_status d post_id with
        | None => true
        | Some st => negb (is_public st)
        end
      else false in
    if refused then (Redirect "You cannot favorite this post right now.", d)
    else if negb (Limits.fits_integer post_id) then (ServerError, d)
    else
      (Redirect "Added to favorites.",
       set_favorites d
         (favorites d ++ [mkFavorite (favorites_id_seq d) uid post_id now])
         (favorites_id_seq d + 1)).

End Favorites.

(** ** Handlers that refuse (views_posts.py, views_admin.py) *)

(** What a handler that changes the tables answers: a flash message and
    a redirect, a redirect alone, the page errors/403.html, the page
    errors/404.html, or an exception that leaves the transaction
    uncommitted. *)
Inductive outcome : Type :=
| Flash (message : string)
| Redirected
| Forbidden
| NotFound
| Crash.

(** A Python dict with integer keys, as the list of its items. *)
Module Dict.

Definition store {V : Type} (k : Z) (v : V) (items : list (Z * V)) : list (Z * V) :=
  (k, v) :: filter (fun kv => negb (fst kv =? k)) items.

(** [{row[0]: row[1] for row in rows}]: a later row replaces an earlier
    one with the same key. *)
Definition of_rows {V : Type} (rows : list (Z * V)) : list (Z * V) :=
  fold_left (fun items row => store (fst row) (snd row) items) rows [].

(** [items.get(k)]. *)
Definition get {V : Type} (k : Z) (items : list (Z * V)) : option V :=
  match find (fun kv => fst kv =? k) items with
  | Some kv => Some (snd kv)
  | None => None
  end.

(** [items.get(k, default)]. *)
Definition get_default {V : Type} (k : Z) (default : V) (items : list (Z * V)) : V :=
  match get k items with
  | Some v => v
  | None => default
  end.

End Dict.

(** [get_favorite_counts] (app_core.py):
    [SELECT post_id, COUNT( * ) FROM favorites GROUP BY post_id] as a
    dict from post id to count. *)
Definition get_favorite_counts (d : db) : list (Z * Z) :=
  Dict.of_rows
    (map (fun post_id =>
            (post_id,
             Z.of_nat (List.length
                         (filter (fun f => f_post_id f =? post_id) (favorites d)))))
         (Filter.distinct (map f_post_id (favorites d)))).

(** ** Deleting rows of [comments]: ON DELETE CASCADE on [parent_id] *)
Module Cascade.

(** The row refers to a deleted comment through [parent_id]. *)
Definition refers_to (doomed : list Z) (c : comment) : bool :=
  match c_parent_id c with
  | Some q => Filter.mem q doomed
  | None => false
  end.

(** The ids deleted with [doomed]: the rows referring to a deleted row
    are deleted too, round after round, until no row refers to one. *)
Fixpoint cascade (fuel : nat) (rows : list comment) (doomed : list Z) : list Z :=
  match fuel with
  | O => doomed
  | S fuel' =>
      match map c_id (filter (fun c => negb (Filter.mem (c_id c) doomed)
                                       && refers_to doomed c) rows) with
      | [] => doomed
      | next => cascade fuel' rows (doomed ++ next)
      end
  end.

(** The ids that go when the rows selected by [sel] are deleted.  Every
    round but the last deletes a row, so [length rows] rounds suffice. *)
Definition deleted_ids (sel : comment -> bool) (rows : list comment) : list Z :=
  cascade (List.length rows) rows (map c_id (filter sel rows)).

(** [DELETE FROM comments WHERE sel] and what the foreign key
    [parent_id REFERENCES comments(id) ON DELETE CASCADE] deletes with it. *)
Definition delete_where (sel : comment -> bool) (rows : list comment) : list comment :=
  filter (fun c => negb (Filter.mem (c_id c) (deleted_ids sel rows))) rows.

End Cascade.

(** [ORDER BY created_at DESC]. *)
Definition newest_first (a b : post) : bool := p_created_at b <=? p_created_at a.

(** ** The post page, the favorites page, the profile, deletions (views_posts.py) *)
Module Posts.

(** What the template detail.html receives.  The tag names of the post
    come from the table [tags], which the tables above leave out. *)
Record detail_view := mkDetail {
  dv_post : post;
  dv_comments : list comment;
  dv_favorite_count : Z;
  dv_is_favorited : bool;
  dv_author_username : string;
  dv_can_edit : bool;
}.

(** [post_detail(post_id)]; [None] is the page errors/404.html.  The
    three SELECTs of the post, its status and its author read the same
    row. *)
Definition post_detail (cfg : config) (d : db) (current_user : option user)
           (post_id : Z) : option detail_view :=
  match find (fun p => p_id p =? post_id) (posts d) with
  | None => None
  | Some post =>
      let is_mod := Auth.is_mod cfg current_user in
      if negb is_mod && negb (is_public (p_status post)) then None
      else
        let author_username := p_author post in
        let can_edit :=
          match current_user with
          | Some u => String.eqb (u_username u) author_username || Auth.is_admin cfg u
          | None => false
          end in
        let comment_rows := Comments.post_detail_comments d post_id is_mod in
        let fav_count :=
          Z.of_nat (List.length (filter (fun f => f_post_id f =? post_id) (favorites d))) in
        let is_favorited :=
          match current_user with
          | Some u => existsb (Favorites.is_favorite_of (u_id u) post_id) (favorites d)
          | None => false
          end in
        Some (mkDetail post comment_rows fav_count is_favorited author_username can_edit)
  end.

(** [ORDER BY f.created_at DESC] on the joined rows. *)
Definition latest_favorite_first (a b : favorite * post) : bool :=
  f_created_at (fst b) <=? f_created_at (fst a).

Record favorites_view := mkFavoritesView {
  fv_posts : list post;
  fv_fav_counts : list (Z * Z);
  fv_user_favs : list (Z * bool);
}.

(** [my_favorites()] for the logged-in [current_user]:
    [SELECT p.* FROM favorites f JOIN posts p ON p.id=f.post_id
     WHERE f.user_id=%s (AND p.status='public') ORDER BY f.created_at DESC]. *)
Definition my_favorites (cfg : config) (d : db) (current_user : user) : favorites_view :=
  let joined :=
    flat_map (fun f => map (fun p => (f, p))
                           (filter (fun p => p_id p =? f_post_id f) (posts d)))
             (favorites d) in
  let selected :=
    filter (fun fp => (f_user_id (fst fp) =? u_id current_user)
                      && (Auth.is_staff cfg current_user
                          || is_public (p_status (snd fp))))
           joined in
  let rows := map snd (order_by latest_favorite_first selected) in
  mkFavoritesView rows (get_favorite_counts d)
                  (Dict.of_rows (map (fun p => (p_id p, true)) rows)).

(** [export_post_pdf(post_id)]: the row the PDF is drawn from; [None] is
    the page errors/404.html. *)
Definition export_post_pdf (cfg : config) (d : db) (current_user : option user)
           (post_id : Z) : option post :=
  if Auth.is_mod cfg current_user
  then find (fun p => p_id p =? post_id) (posts d)
  else find (fun p => (p_id p =? post_id) && is_public (p_status p)) (posts d).

(** [user_profile(username)]:
    [SELECT * FROM posts WHERE author=%s (AND status='public')
     ORDER BY created_at DESC]. *)
Definition user_profile (cfg : config) (d : db) (current_user : option user)
           (username : string) : list post :=
  order_by newest_first
    (filter (fun p => String.eqb (p_author p) username
                      && (Auth.is_mod cfg current_user || is_public (p_status p)))
            (posts d)).

(** [delete_post(post_id)] for the logged-in [current_user].  The
    foreign keys of [post_tags] and [comments] on [posts(id)] are
    ON DELETE CASCADE; [favorites] has no foreign key. *)
Definition delete_post (cfg : config) (d : db) (current_user : user) (post_id : Z)
  : outcome * db :=
  match find (fun p => p_id p =? post_id) (posts d) with
  | None => (NotFound, d)
  | Some row =>
      if negb (String.eqb (p_author row) (u_username current_user))
         && negb (Auth.is_admin cfg current_user)
      then (Forbidden, d)
      else
        (Flash "Post deleted.",
         mkDb (users d)
              (filter (fun p => negb (p_id p =? post_id)) (posts d))
              (filter (fun pt => negb (fst pt =? post_id)) (post_tags d))
              (favorites d) (favorites_id_seq d)
              (Cascade.delete_where (fun c => c_post_id c =? post_id) (comments d))
              (comments_id_seq d) (user_reads d))
  end.

(** [delete_comment(comment_id)] for the logged-in [current_user];
    [post_id_arg] is the integer query argument [post_id].  The author
    is looked up on the post the request names, and on the comment's own
    post only when it names none; [pr[0]] raises when that post does not
    exist. *)
Definition delete_comment (cfg : config) (d : db) (current_user : user)
           (comment_id : Z) (post_id_arg : option Z) : outcome * db :=
  match find (fun c => c_id c =? comment_id) (comments d) with
  | None => (NotFound, d)
  | Some row =>
      let post_id :=
        if Py.truthy_int post_id_arg then Py.or_zero post_id_arg else c_post_id row in
      match find (fun p => p_id p =? post_id) (posts d) with
      | None => (Crash, d)
      | Some pr =>
          let allowed :=
            String.eqb (u_username current_user) (c_author row)
            || String.eqb (u_username current_user) (p_author pr)
            || Auth.is_admin cfg current_user in
          if negb allowed then (Forbidden, d)
          else
            (Flash "Comment deleted.",
             set_comments d
               (Cascade.delete_where (fun c => c_id c =? comment_id) (comments d))
               (comments_id_seq d))
      end
  end.

End Posts.

(** ** The JSON API (views_api.py: api_posts, api_post_detail) *)
Module Api.

(** A record of the answer: the selected columns of the row, with the
    thumbnail through the CDN rewrite. *)
Record api_post := mkApiPost {
  ap_post : post;
  ap_image_thumb_url : option string;
}.

Definition record_of (cfg : config) (p : post) : api_post :=
  mkApiPost p (cdnize cfg (p_image_thumb_url p)).

(** The largest value of the type bigint, which LIMIT and OFFSET take. *)
Definition bigint_max : Z := Limits.bigint_max.

(** [api_posts()]: [limit_arg] and [offset_arg] are the query arguments
    [limit] and [offset] ([None] when missing or not an integer), [q]
    the stripped argument [q].  [None] is an error of the server: the
    driver refuses a search string that contains the character NUL, the
    server an offset that is no bigint. *)
Definition api_posts (E : fts_engine) (cfg : config) (d : db)
           (limit_arg offset_arg : option Z) (q : string) : option (list api_post) :=
  let limit := Z.max 1 (Z.min 100 (match limit_arg with Some n => n | None => 20 end)) in
  let offset := Z.max 0 (match offset_arg with Some n => n | None => 0 end) in
  let selected :=
    if negb (String.eqb q "")
    then filter (fun p => is_public (p_status p) && fts_match E q p) (posts d)
    else filter (fun p => is_public (p_status p)) (posts d) in
  if bigint_max <? offset then None
  else if negb (String.eqb q "") && Limits.has_nul q then None
  else
    Some (map (record_of cfg)
              (firstn (Z.to_nat limit)
                      (skipn (Z.to_nat offset) (order_by newest_first selected)))).

(** [api_post_detail(post_id)]; [None] is the answer 404. *)
Definition api_post_detail (cfg : config) (d : db) (post_id : Z) : option api_post :=
  match find (fun p => p_id p =? post_id) (posts d) with
  | Some r => if is_public (p_status r) then Some (record_of cfg r) else None
  | None => None
  end.

End Api.

(** ** Moderation and reports (views_admin.py) *)
Module Admin.

Record report := mkReport {
  rp_id : Z;
  rp_target_type : string;
  rp_target_id : Z;
  rp_reporter_id : Z;
  rp_reason : string;
  rp_status : string;
  rp_created_at : Z;
}.

Record moderation_action := mkAction {
  ma_id : Z;
  ma_moderator_id : Z;
  ma_action : string;
  ma_target_type : string;
  ma_target_id : Z;
  ma_created_at : Z;
}.

(** The tables [reports] and [moderation_actions] with their sequences. *)
Record admin_tables := mkAdmin {
  reports : list report;
  reports_id_seq : Z;
  moderation_actions : list moderation_action;
  moderation_actions_id_seq : Z;
}.

(** The values of the type integer. *)
Definition fits_integer (n : Z) : bool := Limits.fits_integer n.

(** [INSERT INTO moderation_actions (...) VALUES (%s,%s,target_type,%s,NULL,NOW())]
    with [moderator_id REFERENCES users(id)] and [target_id INTEGER].
    The answer tells whether the row was stored; an insert that the
    foreign key rejects has drawn its id from the sequence. *)
Definition log_action (d : db) (a : admin_tables) (moderator_id : Z)
           (action target_type : string) (target_id now : Z) : bool * admin_tables :=
  let id := moderation_actions_id_seq a in
  if negb (fits_integer target_id) then (false, a)
  else if existsb (fun u => u_id u =? moderator_id) (users d) then
    (true,
     mkAdmin (reports a) (reports_id_seq a)
             (moderation_actions a
              ++ [mkAction id moderator_id action target_type target_id now])
             (id + 1))
  else (false, mkAdmin (reports a) (reports_id_seq a) (moderation_actions a) (id + 1)).

(** The status an action stands for. *)
Definition new_status (action : string) : option string :=
  if String.eqb action "hide" then Some "hidden"%string
  else if String.eqb action "unhide" then Some "public"%string
  else if String.eqb action "delete" then Some "deleted"%string
  else None.

(** [UPDATE posts SET status=%s, updated_at=NOW() WHERE id=%s]. *)
Definition update_post_status (d : db) (post_id : Z) (status : string) (now : Z) : db :=
  mkDb (users d)
       (map (fun p =>
               if p_id p =? post_id
               then mkPost (p_id p) (p_genre p) (p_title p) (p_content p) (p_ai_name p)
                           (p_author p) (p_image_url p) (p_image_orig_url p)
                           (p_image_thumb_url p) (p_created_at p) (Some now)
                           (Some status)
               else p)
            (posts d))
       (post_tags d) (favorites d) (favorites_id_seq d)
       (comments d) (comments_id_seq d) (user_reads d).

(** [UPDATE comments SET status=%s WHERE id=%s]. *)
Definition update_comment_status (d : db) (comment_id : Z) (status : string) : db :=
  set_comments d
    (map (fun c =>
            if c_id c =? comment_id
            then mkComment (c_id c) (c_post_id c) (c_comment c) (c_author c)
                           (c_created_at c) (c_parent_id c) (c_depth c) (c_path c)
                           (Some status)
            else c)
         (comments d))
    (comments_id_seq d).

(** [moderate_post(post_id, action)] behind [staff_required], for the
    logged-in [current_user]. *)
Definition moderate_post (cfg : config) (d : db) (a : admin_tables) (current_user : user)
           (post_id : Z) (action : string) (now : Z) : outcome * db * admin_tables :=
  if negb (Auth.is_staff cfg current_user) then (Forbidden, d, a)
  else
    match new_status action with
    | Some status =>
        match log_action d a (u_id current_user) action "post" post_id now with
        | (true, a') =>
            (Flash "Post moderation applied.",
             update_post_status d post_id status now, a')
        | (false, a') => (Crash, d, a')
        end
    | None => (Redirected, d, a)
    end.

(** [moderate_comment(comment_id, action)] behind [staff_required], for
    the logged-in [current_user]. *)
Definition moderate_comment (cfg : config) (d : db) (a : admin_tables)
           (current_user : user) (comment_id : Z) (action : string) (now : Z)
  : outcome * db * admin_tables :=
  if negb (Auth.is_staff cfg current_user) then (Forbidden, d, a)
  else if String.eqb action "delete" then
    match log_action d a (u_id current_user) action "comment" comment_id now with
    | (true, a') =>
        (Flash "Comment removed.",
         set_comments d
           (Cascade.delete_where (fun c => c_id c =? comment_id) (comments d))
           (comments_id_seq d),
         a')
    | (false, a') => (Crash, d, a')
    end
  else
    match (if String.eqb action "hide" then Some "hidden"%string
           else if String.eqb action "unhide" then Some "public"%string
           else None) with
    | Some status =>
        match log_action d a (u_id current_user) action "comment" comment_id now with
        | (true, a') =>
            (Flash "Comment moderation applied.",
             update_comment_status d comment_id status, a')
        | (false, a') => (Crash, d, a')
        end
    | None => (Redirected, d, a)
    end.

(** [create_report()] for the logged-in [current_user]: [target_type]
    and [target_id] are the form fields, [reason] the sanitized reason.
    The insert draws an id from the sequence also when the row is
    already there; a target id that is no integer of the server or a
    reporter that is not in [users] makes the insert fail, and the
    handler rolls back. *)
Definition create_report (d : db) (a : admin_tables) (current_user : user)
           (target_type : option string) (target_id : option Z) (reason : string)
           (now : Z) : outcome * admin_tables :=
  let known_type :=
    match target_type with
    | Some t => String.eqb t "post" || String.eqb t "comment"
    | None => false
    end in
  if negb known_type || negb (Py.truthy_int target_id) then (Flash "Invalid report.", a)
  else
    let t := unwrap target_type in
    let id := Py.or_zero target_id in
    let rid := reports_id_seq a in
    if negb (fits_integer id) then (Flash "Failed to submit report.", a)
    else if existsb (fun r => String.eqb (rp_target_type r) t
                         && (rp_target_id r =? id)
                         && (rp_reporter_id r =? u_id current_user))
               (reports a)
    then (Flash "Reported. Thank you.",
          mkAdmin (reports a) (rid + 1) (moderation_actions a)
                  (moderation_actions_id_seq a))
    else if existsb (fun u => u_id u =? u_id current_user) (users d)
    then (Flash "Reported. Thank you.",
          mkAdmin (reports a ++ [mkReport rid t id (u_id current_user) reason "open" now])
                  (rid + 1) (moderation_actions a) (moderation_actions_id_seq a))
    else (Flash "Failed to submit report.",
          mkAdmin (reports a) (rid + 1) (moderation_actions a)
                  (moderation_actions_id_seq a)).

End Admin.

(** ** Marking notifications read (views_notify.py: notify_mark_read) *)
Module NotifyRead.

Definition set_user_reads (d : db) (rows : list user_reads_row) : db :=
  mkDb (users d) (posts d) (post_tags d) (favorites d) (favorites_id_seq d)
       (comments d) (comments_id_seq d) rows.

(** [INSERT INTO user_reads (user_id) VALUES (%s)
     ON CONFLICT (user_id) DO NOTHING]. *)
Definition ensure_row (rows : list user_reads_row) (user_id : Z) : list user_reads_row :=
  if existsb (fun r => ur_user_id r =? user_id) rows then rows
  else rows ++ [mkUserReads user_id None None None].

(** The UPDATE of the request on one row of the user. *)
Definition mark (typ : option string) (now : Z) (r : user_reads_row) : user_reads_row :=
  match typ with
  | Some t =>
      if String.eqb t "all" then mkUserReads (ur_user_id r) (Some now) (Some now) (Some now)
      else if String.eqb t "comments_on_my_posts" then
        mkUserReads (ur_user_id r) (Some now) (ur_replies_to_me r)
                    (ur_favorites_on_my_posts r)
      else if String.eqb t "replies_to_me" then
        mkUserReads (ur_user_id r) (ur_comments_on_my_posts r) (Some now)
                    (ur_favorites_on_my_posts r)
      else if String.eqb t "favorites_on_my_posts" then
        mkUserReads (ur_user_id r) (ur_comments_on_my_posts r) (ur_replies_to_me r)
                    (Some now)
      else r
  | None => r
  end.

(** [notify_mark_read()] for the user [user_id]: [typ] is the form
    field [type], [now] the value of [datetime.utcnow()]. *)
Definition notify_mark_read (d : db) (user_id : Z) (typ : option string) (now : Z) : db :=
  set_user_reads d
    (map (fun r => if ur_user_id r =? user_id then mark typ now r else r)
         (ensure_row (user_reads d) user_id)).

End NotifyRead.

(** ** Reference definitions used by the statements *)

(** The first truthy value of a priority list. *)
Fixpoint first_non_empty (candidates : list (option string)) : option string :=
  match candidates with
  | [] => None
  | x :: rest => if Py.truthy_str x then x else first_non_empty rest
  end.

(** The card image with the priority order thumbnail, original upload,
    legacy image-url field. *)
Definition card_image_thumb_orig_legacy (cfg : config) (p : post) : option string :=
  match first_non_empty [p_image_thumb_url p; p_image_orig_url p; p_image_url p] with
  | Some raw => cdnize cfg (Some raw)
  | None => None
  end.

(** The stored depth of a comment, 0 when none is stored. *)
Definition depth_or_zero (c : comment) : Z :=
  match c_depth c with
  | Some n => n
  | None => 0
  end.

(** The stored path of a comment, and its id in the format 06d when no
    path (or an empty one) is stored. *)
Definition path_or_padded_id (c : comment) : string :=
  match c_path c with
  | Some s => if String.eqb s "" then Py.fmt06d (c_id c) else s
  | None => Py.fmt06d (c_id c)
  end.

(** [ORDER BY] on text: character by character, a prefix first. *)
Definition str_lt (s1 s2 : string) : Prop := String.compare s1 s2 = Lt.

(** Exactly [k] decimal digits, the low ones of [n]. *)
Fixpoint fixed_digits (k : nat) (n : Z) (acc : string) : string :=
  match k with
  | O => acc
  | S k' => fixed_digits k' (n / 10) (String (Py.digit_char (n mod 10)) acc)
  end.

(** Tag [t] is attached to post [p]. *)
Definition attached (d : db) (p : post) (t : Z) : bool :=
  existsb (fun pt => (fst pt =? p_id p) && (snd pt =? t)) (post_tags d).

(** The number of distinct requested tags that are attached to [p]. *)
Definition requested_tags_attached (d : db) (requested : list Z) (p : post) : nat :=
  List.length (filter (attached d p) (Filter.distinct requested)).

(** The event was caused by somebody other than [username]. *)
Definition by_someone_else (username actor : string) : bool :=
  negb (String.eqb actor username).

(** The event is later than the watermark, when there is one. *)
Definition unread (watermark : option Z) (created_at : Z) : bool :=
  match watermark with
  | Some w => w <? created_at
  | None => true
  end.

(** The post [post_id] exists and [username] wrote it. *)
Definition is_post_of (d : db) (username : string) (post_id : Z) : bool :=
  existsb (fun p => (p_id p =? post_id) && String.eqb (p_author p) username) (posts d).

(** The comment [parent_id] exists and [username] wrote it. *)
Definition is_comment_of (d : db) (username : string) (parent_id : option Z) : bool :=
  match parent_id with
  | Some pid =>
      existsb (fun c => (c_id c =? pid) && String.eqb (c_author c) username) (comments d)
  | None => false
  end.

(** The user [user_id] exists and is not [username]. *)
Definition is_other_user (d : db) (username : string) (user_id : Z) : bool :=
  existsb (fun u => (u_id u =? user_id) && by_someone_else username (u_username u))
          (users d).

(** The primary key and the sequence of [comments]: ids are pairwise
    different, positive and below the next value of the sequence. *)
Definition comments_keyed (d : db) : Prop :=
  NoDup (map c_id (comments d))
  /\ forall c, In c (comments d) -> 1 <= c_id c < comments_id_seq d.

(** How the path of a comment relates to the rows [cs] of the table:
    either its parent is a comment of the same post and the path extends
    the parent's, or no comment of its post is its parent and the path is
    its own id. *)
Definition linked (cs : list comment) (c : comment) : Prop :=
  (exists p,
      In p cs /\ c_parent_id c = Some (c_id p) /\ c_post_id p = c_post_id c
      /\ c_path c
         = Some (Comments.coalesce_path p ++ "/" ++ Py.fmt06d (c_id c))%string)
  \/ ((forall p, In p cs -> c_post_id p = c_post_id c -> c_parent_id c <> Some (c_id p))
      /\ c_path c = Some (Py.fmt06d (c_id c))).

Record comments_inv (d : db) : Prop := mkCommentsInv {
  inv_seq : 1 <= comments_id_seq d;
  inv_sorted : StronglySorted (fun a b => c_id a < c_id b) (comments d);
  inv_ids : forall c, In c (comments d) -> 1 <= c_id c < comments_id_seq d;
  inv_public : forall c, In c (comments d) -> c_status c = Some "public"%string;
  inv_parent : forall c q, In c (comments d) -> c_parent_id c = Some q -> q < c_id c;
  inv_linked : forall c, In c (comments d) -> linked (comments d) c;
}.

(** The order of the comment query on rows with different paths. *)
Definition path_lt (a b : comment) : Prop :=
  str_lt (Comments.coalesce_path a) (Comments.coalesce_path b).

(** The comments of one post, in creation order, with ids of at most six
    digits, every one linked to its parent in the thread or a root. *)
Record thread_ok (cs : list comment) : Prop := mkThreadOk {
  th_sorted : StronglySorted (fun a b => c_id a < c_id b) cs;
  th_ids : forall c, In c cs -> 0 <= c_id c < 1000000;
  th_linked :
    forall c, In c cs ->
      (exists p,
          In p cs /\ Comments.is_reply_to p c = true /\ c_id p < c_id c
          /\ Comments.coalesce_path c
             = (Comments.coalesce_path p ++ "/" ++ Py.fmt06d (c_id c))%string)
      \/ (Comments.is_root cs c = true
          /\ Comments.coalesce_path c = Py.fmt06d (c_id c));
}.

(** The number of comments of the thread created before [c]. *)
Definition earlier (cs : list comment) (c : comment) : nat :=
  List.length (filter (fun x => c_id x <? c_id c) cs).

(** ** Example data *)

(** A full-text engine for the examples: a post matches when the query
    occurs in its content, and ranks by its id. *)
Fixpoint occurs_in (q s : string) : bool :=
  match s with
  | EmptyString => String.prefix q s
  | String _ rest => String.prefix q s || occurs_in q rest
  end.

Definition sample_fts : fts_engine :=
  mkFts (fun q p => occurs_in q (p_content p)) (fun q p => p_id p).

Definition sample_config : config := mkConfig 20 [] None None None.

Definition sample_post (id : Z) (status content : string) : post :=
  mkPost id None "title" content None "alice" None None None id None (Some status).

Definition legacy_and_orig_post : post :=
  mkPost 1 None "title" "content" None "alice"
         (Some "https://img.example/legacy.png"%string)
         (Some "https://img.example/orig.jpg"%string)
         None 0 None (Some "public"%string).

Definition listing_db : db :=
  mkDb [] [sample_post 1 "public" "a robot"; sample_post 2 "hidden" "hidden robot";
           sample_post 3 "public" "something else"]
       [] [] 1 [] 1 [].

Definition tagged_posts_db : db :=
  mkDb [] [sample_post 1 "public" "a robot"; sample_post 2 "public" "another robot"]
       [(1, 2); (1, 5); (2, 2)] [] 1 [] 1 [].

Definition notify_db : db :=
  mkDb [mkUser 1 "alice" None; mkUser 2 "bob" None]
       [sample_post 7 "public" "a post of alice"]
       []
       [mkFavorite 1 2 7 5; mkFavorite 2 1 7 15; mkFavorite 3 2 7 15] 4
       [mkComment 1 7 "first" "bob" 5 None (Some 0) (Some "000001"%string)
                  (Some "public"%string);
        mkComment 2 7 "mine" "alice" 12 None (Some 0) (Some "000002"%string)
                  (Some "public"%string);
        mkComment 3 7 "second" "bob" 15 (Some 2) (Some 1)
                  (Some "000002/000003"%string) (Some "public"%string)] 4
       [mkUserReads 1 (Some 10) None (Some 10)].

Definition favorites_db : db :=
  mkDb [mkUser 1 "alice" None; mkUser 2 "mod" (Some "moderator"%string)]
       [sample_post 7 "hidden" "a hidden post"; sample_post 8 "public" "a public post"]
       [] [mkFavorite 1 1 8 5] 2 [] 1 [].

Definition post_seven : post := sample_post 7 "public" "a post with a thread".

Definition root_42 : comment :=
  mkComment 42 7 "first" "alice" 1 None (Some 0) (Some "000042"%string)
            (Some "public"%string).

Definition reply_43 : comment :=
  mkComment 43 7 "second" "bob" 2 (Some 42) (Some 1) (Some "000042/000043"%string)
            (Some "public"%string).

Definition thread_db (rows : list comment) (next_id : Z) : db :=
  mkDb [] [post_seven] [] [] 1 rows next_id [].

(** A comment written before the column [path] was added: the column is
    NULL, the column [depth] has its default. *)
Definition legacy_parent : comment :=
  mkComment 1 7 "an old comment" "alice" 1 None (Some 0) None (Some "public"%string).

Definition legacy_parent_db : db := thread_db [legacy_parent] 2.

Definition two_posts_db : db :=
  mkDb [] [sample_post 1 "public" "first post"; sample_post 2 "public" "second post"]
       [] [] 1
       [mkComment 1 1 "on the first post" "alice" 10 None (Some 0)
                  (Some "000001"%string) (Some "public"%string)]
       2 [].

Definition thread_requests : list Comments.comment_request :=
  [Comments.mkRequest "alice" 7 "first" None 1;
   Comments.mkRequest "bob" 7 "a reply" (Some 42) 2;
   Comments.mkRequest "carol" 7 "a later reply" (Some 42) 3;
   Comments.mkRequest "dave" 7 "a reply to the reply" (Some 43) 4;
   Comments.mkRequest "erin" 7 "another root" None 5].

(** Post 7 receives its first two comments when the id sequence, which
    all posts share, stands at 999999. *)
Definition seven_digit_db : db :=
  Comments.run (thread_db [] 999999)
    [Comments.mkRequest "alice" 7 "first" None 1;
     Comments.mkRequest "bob" 7 "second" None 2].

(** ** Reference definitions for deletions and runs of requests *)

(** The primary key of [posts]. *)
Definition posts_keyed (d : db) : Prop := NoDup (map p_id (posts d)).

(** The requests that add or delete rows of [comments]. *)
Inductive comment_event : Type :=
| AddComment (r : Comments.comment_request)
| DeleteComment (current_user : user) (comment_id : Z) (post_id_arg : option Z)
| DeletePost (current_user : user) (post_id : Z)
| ModerateComment (current_user : user) (comment_id : Z) (now : Z).

(** One request on the tables; [ModerateComment] is the action delete. *)
Definition apply_event (cfg : config) (s : db * Admin.admin_tables) (e : comment_event)
  : db * Admin.admin_tables :=
  match e with
  | AddComment r => (Comments.handle (fst s) r, snd s)
  | DeleteComment u comment_id post_id_arg =>
      (snd (Posts.delete_comment cfg (fst s) u comment_id post_id_arg), snd s)
  | DeletePost u post_id => (snd (Posts.delete_post cfg (fst s) u post_id), snd s)
  | ModerateComment u comment_id now =>
      let '(_, d, a) := Admin.moderate_comment cfg (fst s) (snd s) u comment_id "delete" now in
      (d, a)
  end.

Definition run_events (cfg : config) (s : db * Admin.admin_tables)
           (es : list comment_event) : db * Admin.admin_tables :=
  fold_left (apply_event cfg) es s.

Definition empty_admin_tables : Admin.admin_tables := Admin.mkAdmin [] 1 [] 1.

Definition carol : user := mkUser 3 "carol" None.

(** The thread of [thread_requests], then bob deletes his reply 43 and
    erin adds a root. *)
Definition thread_events : list comment_event :=
  map AddComment (firstn 4 thread_requests)
  ++ [DeleteComment (mkUser 2 "bob" None) 43 None;
      AddComment (Comments.mkRequest "erin" 7 "another root" None 5)].

Definition moderator_mod : user := mkUser 2 "mod" (Some "moderator"%string).

(** Post 8 of favorites_db with two comments, the second a reply to the
    first. *)
Definition moderation_db : db :=
  mkDb (users favorites_db) (posts favorites_db) [] (favorites favorites_db) 2
       [mkComment 1 8 "first" "alice" 1 None (Some 0) (Some "000001"%string)
                  (Some "public"%string);
        mkComment 2 8 "a reply" "bob" 2 (Some 1) (Some 1) (Some "000001/000002"%string)
                  (Some "public"%string)]
       3 [].

(** The constraint UNIQUE (user_id, post_id) of [favorites]. *)
Definition favorites_unique (d : db) : Prop :=
  NoDup (map (fun f => (f_user_id f, f_post_id f)) (favorites d)).

(** The test of [toggle_favorite] before it inserts: a user who is not
    staff is refused unless the post exists and is public. *)
Definition refused_favorite (cfg : config) (d : db) (u : user) (post_id : Z) : bool :=
  if negb (Auth.is_staff cfg u) then
    match Favorites.select_status d post_id with
    | None => true
    | Some st => negb (is_public st)
    end
  else false.

(** The rows a statement without rank column returns before its window:
    the posts the bound conjuncts accept, in the order of the statement. *)
Definition sorted_rows (E : fts_engine) (d : db) (bs : list Filter.bound)
           (o : Listing.ordering) : list Listing.row :=
  order_by (Listing.row_leb (Listing.order_terms o))
           (map (Listing.make_row E d None) (filter (Filter.satisfies E d bs) (posts d))).

(** The number of slashes of a path: the number of segments less one. *)
Fixpoint count_slashes (s : string) : Z :=
  match s with
  | EmptyString => 0
  | String c rest => (if (c =? "/")%char then 1 else 0) + count_slashes rest
  end.

(** The constraint UNIQUE (target_type, target_id, reporter_id) of
    [reports]. *)
Definition reports_unique (a : Admin.admin_tables) : Prop :=
  NoDup (map (fun r => (Admin.rp_target_type r, Admin.rp_target_id r,
                        Admin.rp_reporter_id r))
             (Admin.reports a)).

Definition cdn_config : config :=
  mkConfig 20 [] (Some "cdn.example"%string) (Some "bucket"%string) (Some "eu"%string).

(** The column [depth] of every comment is the number of slashes of its
    path. *)
Definition depth_counts_segments (d : db) : Prop :=
  forall c, In c (comments d) ->
            c_depth c = Some (count_slashes (Comments.coalesce_path c)).

(** The user [uid] has a report on the target in the table. *)
Definition reported (a : Admin.admin_tables) (t : string) (id uid : Z) : bool :=
  existsb (fun r => String.eqb (Admin.rp_target_type r) t
                    && (Admin.rp_target_id r =? id)
                    && (Admin.rp_reporter_id r =? uid))
          (Admin.reports a).

(** The request is one that adds a row to [reports]: a target of a known
    type with a non-zero integer id, not yet reported by the user, who
    is a row of [users]. *)
Definition report_is_stored (d : db) (a : Admin.admin_tables) (u : user)
           (target_type : option string) (target_id : option Z) : bool :=
  match target_type, target_id with
  | Some t, Some id =>
      (String.eqb t "post" || String.eqb t "comment")
      && negb (id =? 0)
      && Admin.fits_integer id
      && negb (reported a t id (u_id u))
      && existsb (fun x => u_id x =? u_id u) (users d)
  | _, _ => false
  end.

(* ================================================================== *)
(** * Part II: properties *)
(* ================================================================== *)

(** Closes [NoDup] of a list of literals. *)
Ltac nodup_literals :=
  repeat (constructor; [simpl; intuition discriminate|]); constructor.

(** ** The embedding on small inputs *)

Example fmt06d_pads_to_six :
  Py.fmt06d 42 = "000042"%string /\ Py.fmt06d 999999 = "999999"%string
  /\ Py.fmt06d 1000000 = "1000000"%string /\ Py.fmt06d 0 = "000000"%string.
Proof. repeat split; reflexivity. Qed.

Example replace_every_occurrence : Py.replace "abcabcab" "ab" "X" = "XcXcX"%string.
Proof. reflexivity. Qed.

Example cdnize_rewrites_bucket_url :
  cdnize (mkConfig 20 [] (Some "cdn.example"%string) (Some "bucket"%string)
                   (Some "eu"%string))
         (Some "https://bucket.s3.eu.amazonaws.com/orig_1.jpg"%string)
  = Some "https://cdn.example/orig_1.jpg"%string.
Proof. reflexivity. Qed.

Example where_sql_of_keyword_and_genre :
  Filter.where_sql (Filter.build_posts_filter_sql "robot" (Some "art"%string) [] false)
  = "WHERE p.status='public' AND p.genre=%s AND p.search_vec @@ websearch_to_tsquery('simple', %s)"%string
  /\ Filter.params (Filter.build_posts_filter_sql "robot" (Some "art"%string) [] false)
     = [Sql.PText "art"; Sql.PText "robot"].
Proof. split; reflexivity. Qed.

(** The export for the keyword robot and the tags 2 and 5, by relevance:
    of the two posts that match robot only post 1 carries both tags. *)
Example export_keyword_and_tags :
  option_map (map (fun r => p_id (Listing.r_post r)))
             (Listing.export_posts_csv sample_fts sample_config tagged_posts_db None
                                       "relevance" "robot" None [2; 5])
  = Some [1].
Proof. reflexivity. Qed.

(** The same request on the listing page fails, and so does the sort key
    relevance without a keyword. *)
Example listing_keyword_and_tags :
  Listing.show_posts sample_fts sample_config tagged_posts_db None
                     "relevance" "robot" None [2; 5] 1 = None
  /\ Listing.show_posts sample_fts sample_config tagged_posts_db None
                        "relevance" "" None [] 1 = None.
Proof. split; reflexivity. Qed.

(** ** Sorting *)
Section SortingFacts.
Context {A : Type} (leb : A -> A -> bool).

Lemma insert_sorted_perm (x : A) (l : list A) :
  Permutation (insert_sorted leb x l) (x :: l).
Proof.
  induction l as [|y l IH]; simpl.
  - apply Permutation_refl.
  - destruct (leb x y).
    + apply Permutation_refl.
    + apply Permutation_trans with (y :: x :: l).
      * now apply perm_skip.
      * apply perm_swap.
Qed.

Lemma order_by_perm (l : list A) : Permutation (order_by leb l) l.
Proof.
  induction l as [|x l IH]; simpl.
  - apply perm_nil.
  - eapply Permutation_trans; [apply insert_sorted_perm|].
    now apply perm_skip.
Qed.

Lemma order_by_in (l : list A) (x : A) : In x (order_by leb l) <-> In x l.
Proof.
  split; apply Permutation_in;
    [apply order_by_perm | apply Permutation_sym, order_by_perm].
Qed.

Hypothesis leb_total : forall a b, leb a b = false -> leb b a = true.
Hypothesis leb_trans :
  forall a b c, leb a b = true -> leb b c = true -> leb a c = true.

Let le (a b : A) : Prop := leb a b = true.

Lemma insert_sorted_sorted (x : A) (l : list A) :
  StronglySorted le l -> StronglySorted le (insert_sorted leb x l).
Proof.
  induction l as [|y l IH]; intros Hs; simpl.
  - constructor; constructor.
  - inversion Hs as [|? ? Hl Hy]; subst.
    destruct (leb x y) eqn:Hxy.
    + constructor; [assumption|].
      constructor; [exact Hxy|].
      rewrite Forall_forall in *.
      intros z Hz. eapply leb_trans; [exact Hxy | now apply Hy].
    + constructor; [now apply IH|].
      rewrite Forall_forall in *.
      intros z Hz.
      apply (Permutation_in _ (insert_sorted_perm x l)) in Hz.
      destruct Hz as [<-|Hz]; [now apply leb_total | now apply Hy].
Qed.

Lemma order_by_sorted (l : list A) : StronglySorted le (order_by leb l).
Proof.
  induction l as [|x l IH]; simpl.
  - constructor.
  - now apply insert_sorted_sorted.
Qed.
End SortingFacts.

Lemma firstn_in {A : Type} (n : nat) (l : list A) (x : A) :
  In x (firstn n l) -> In x l.
Proof.
  revert l; induction n as [|n IH]; intros [|y l]; simpl; try tauto.
  intros [H|H]; [now left | right; now apply IH].
Qed.

Lemma skipn_in {A : Type} (n : nat) (l : list A) (x : A) :
  In x (skipn n l) -> In x l.
Proof.
  revert l; induction n as [|n IH]; intros [|y l]; simpl; try tauto.
  intros H. right. now apply IH.
Qed.

(** ** The post filter and the listing *)
Section FilterFacts.
Import Sql Filter Listing.
Variable E : fts_engine.
Variable d : db.

Lemma bind_where_status (cs : list conjunct) :
  forall args bs rest,
    bind_where cs args = Some (bs, rest) ->
    In StatusPublic cs -> In BStatusPublic bs.
Proof.
  induction cs as [|c cs IH]; intros args bs rest Hb Hin; [contradiction|].
  destruct c; simpl in Hb.
  - destruct (bind_where cs args) as [[bs' rest']|]; [|discriminate].
    injection Hb as <- <-. now left.
  - destruct args as [|[g| |] args]; try discriminate.
    destruct (bind_where cs args) as [[bs' rest']|] eqn:Hb'; [|discriminate].
    injection Hb as <- <-. right.
    destruct Hin as [Hc|Hin]; [discriminate|]. eapply IH; eauto.
  - destruct args as [|[q| |] args]; try discriminate.
    destruct (bind_where cs args) as [[bs' rest']|] eqn:Hb'; [|discriminate].
    injection Hb as <- <-. right.
    destruct Hin as [Hc|Hin]; [discriminate|]. eapply IH; eauto.
  - destruct args as [|[| |ids] [|[|n|] args]]; try discriminate.
    destruct (bind_where cs args) as [[bs' rest']|] eqn:Hb'; [|discriminate].
    injection Hb as <- <-. right.
    destruct Hin as [Hc|Hin]; [discriminate|]. eapply IH; eauto.
Qed.

Lemma is_public_eq (s : option string) :
  is_public s = true <-> s = Some "public"%string.
Proof.
  destruct s as [s|]; simpl.
  - rewrite String.eqb_eq. split; congruence.
  - split; discriminate.
Qed.

Lemma satisfies_status (bs : list bound) (p : post) :
  In BStatusPublic bs -> satisfies E d bs p = true ->
  p_status p = Some "public"%string.
Proof.
  unfold satisfies. rewrite forallb_forall.
  intros Hin Hall. apply is_public_eq. exact (Hall _ Hin).
Qed.

(** Every fetched row is a post of the table that every bound conjunct
    of the statement accepts. *)
Lemma execute_sound (s : select_posts) (args : list param) (rows : list row) :
  execute E d s args = Some rows ->
  exists args1 bs rest,
    bind_where (s_where s) args1 = Some (bs, rest)
    /\ forall r, In r rows ->
                 In (r_post r) (posts d) /\ satisfies E d bs (r_post r) = true.
Proof.
  unfold execute.
  destruct (merge_args (s_sql s) args) as [args0|]; [|discriminate].
  destruct (if s_rank s then _ else _) as [[rank_query args1]|]; [|discriminate].
  destruct (bind_where (s_where s) args1) as [[bs args2]|] eqn:Hb; [|discriminate].
  destruct (if s_paged s then _ else _) as [window|]; [|discriminate].
  destruct (uses_rank (s_order s) && negb (s_rank s)); [discriminate|].
  intros [= <-]. exists args1, bs, args2. split; [exact Hb|].
  intros r Hr.
  assert (Hs : In r (map (make_row E d rank_query)
                         (filter (satisfies E d bs) (posts d)))).
  { destruct window as [[l o]|].
    - apply firstn_in, skipn_in in Hr. now apply order_by_in in Hr.
    - now apply order_by_in in Hr. }
  apply in_map_iff in Hs. destruct Hs as [p [<- Hp]].
  apply filter_In in Hp. exact Hp.
Qed.

Lemma build_where_public (keyword : string) (genre : option string) (tags : list Z) :
  In StatusPublic (where_ (build_posts_filter_sql keyword genre tags false)).
Proof.
  unfold build_posts_filter_sql.
  destruct (Py.truthy_str genre), (String.eqb keyword ""), tags;
    simpl; auto.
Qed.

Lemma build_where_sql_public (keyword : string) (genre : option string) (tags : list Z) :
  exists rest,
    where_sql (build_posts_filter_sql keyword genre tags false)
    = ("WHERE p.status='public'" ++ rest)%string.
Proof.
  unfold build_posts_filter_sql, where_sql.
  destruct (Py.truthy_str genre), (String.eqb keyword ""), tags;
    cbn; eexists; reflexivity.
Qed.
Lemma bind_where_app (cs1 cs2 : list conjunct) :
  forall args1 args2 bs1,
    bind_where cs1 args1 = Some (bs1, []) ->
    bind_where (cs1 ++ cs2) (args1 ++ args2)
    = match bind_where cs2 args2 with
      | Some (bs2, rest) => Some (bs1 ++ bs2, rest)
      | None => None
      end.
Proof.
  induction cs1 as [|c cs1 IH]; intros args1 args2 bs1 Hb.
  - simpl in Hb. injection Hb as <- ->. simpl.
    destruct (bind_where cs2 args2) as [[bs2 rest]|]; reflexivity.
  - destruct c; simpl in Hb |- *.
    + destruct (bind_where cs1 args1) as [[bs' rest']|] eqn:Hb'; [|discriminate].
      injection Hb as <- Hr. subst rest'. rewrite (IH _ args2 _ Hb').
      destruct (bind_where cs2 args2) as [[bs2 rest]|]; reflexivity.
    + destruct args1 as [|[g| |] args1]; try discriminate. simpl.
      destruct (bind_where cs1 args1) as [[bs' rest']|] eqn:Hb'; [|discriminate].
      injection Hb as <- Hr. subst rest'. rewrite (IH _ args2 _ Hb').
      destruct (bind_where cs2 args2) as [[bs2 rest]|]; reflexivity.
    + destruct args1 as [|[q| |] args1]; try discriminate. simpl.
      destruct (bind_where cs1 args1) as [[bs' rest']|] eqn:Hb'; [|discriminate].
      injection Hb as <- Hr. subst rest'. rewrite (IH _ args2 _ Hb').
      destruct (bind_where cs2 args2) as [[bs2 rest]|]; reflexivity.
    + destruct args1 as [|[| |ids] [|[|n|] args1]]; try discriminate. simpl.
      destruct (bind_where cs1 args1) as [[bs' rest']|] eqn:Hb'; [|discriminate].
      injection Hb as <- Hr. subst rest'. rewrite (IH _ args2 _ Hb').
      destruct (bind_where cs2 args2) as [[bs2 rest]|]; reflexivity.
Qed.

(** The filter without tags always binds its own parameters. *)
Lemma build_without_tags_binds (keyword : string) (genre : option string) (inp : bool) :
  exists bs0,
    bind_where (where_ (build_posts_filter_sql keyword genre [] inp))
               (params (build_posts_filter_sql keyword genre [] inp))
    = Some (bs0, []).
Proof.
  unfold build_posts_filter_sql.
  destruct inp, (Py.truthy_str genre), (String.eqb keyword "");
    simpl; eexists; reflexivity.
Qed.

Lemma build_with_tags (keyword : string) (genre : option string) (t : Z) (ts : list Z)
      (inp : bool) :
  let f0 := build_posts_filter_sql keyword genre [] inp in
  let f := build_posts_filter_sql keyword genre (t :: ts) inp in
  where_ f = where_ f0 ++ [TagsAll]
  /\ params f = params f0 ++ [PIntList (t :: ts);
                               PInt (Z.of_nat (List.length (t :: ts)))].
Proof.
  unfold build_posts_filter_sql.
  destruct inp, (Py.truthy_str genre), (String.eqb keyword ""); simpl; split; reflexivity.
Qed.

(** The builder's parameters fit the placeholders of its conjuncts. *)
Lemma build_binds (keyword : string) (genre : option string) (tags : list Z)
      (inp : bool) :
  exists bs,
    bind_where (where_ (build_posts_filter_sql keyword genre tags inp))
               (params (build_posts_filter_sql keyword genre tags inp))
    = Some (bs, []).
Proof.
  destruct tags as [|t ts]; [apply build_without_tags_binds|].
  destruct (build_without_tags_binds keyword genre inp) as [bs0 Hb0].
  destruct (build_with_tags keyword genre t ts inp) as [-> ->].
  rewrite (bind_where_app _ _ _ _ _ Hb0). eexists. reflexivity.
Qed.
End FilterFacts.

(** The count query of the listing runs with the builder's own parameters
    and counts the posts the bound conjuncts accept. *)
Lemma execute_count_bound (E : fts_engine) (d : db) (keyword : string)
      (genre : option string) (tag_ids : list Z) (inp : bool) (bs : list Filter.bound) :
  let f := Filter.build_posts_filter_sql keyword genre tag_ids inp in
  Filter.bind_where (Filter.where_ f) (Filter.params f) = Some (bs, []) ->
  Listing.execute_count E d f
  = Some (Z.of_nat (List.length (filter (Filter.satisfies E d bs) (posts d)))).
Proof.
  intros f Hb. unfold Listing.execute_count.
  assert (Hm : Sql.merge_args ("SELECT COUNT(*) FROM posts p " ++ Filter.where_sql f)
                 (Filter.params f) = Some (Filter.params f)).
  { unfold f, Filter.build_posts_filter_sql.
    destruct inp, (Py.truthy_str genre), (negb (String.eqb keyword "")), tag_ids;
      vm_compute; reflexivity. }
  rewrite Hm, Hb. reflexivity.
Qed.

(** C1.  With [include_non_public = false] the filter builder always
    returns the conjunct [p.status='public'] (it is the first conjunct of
    the WHERE text), whatever the keyword, the genre and the tag ids are.
    Its parameters fit its placeholders, the count query of the listing
    runs with them, and every post a statement with that predicate accepts
    is public; so is every row of the listing and of both exports for a
    caller who is not staff. *)
Theorem C1_non_staff_sees_public_only :
  forall (E : fts_engine) (cfg : config) (d : db)
         (keyword : string) (genre : option string) (tag_ids : list Z),
    let f := Filter.build_posts_filter_sql keyword genre tag_ids false in
    In Filter.StatusPublic (Filter.where_ f)
    /\ (exists rest, Filter.where_sql f = ("WHERE p.status='public'" ++ rest)%string)
    /\ (exists bs,
           Filter.bind_where (Filter.where_ f) (Filter.params f) = Some (bs, [])
           /\ Listing.execute_count E d f
              = Some (Z.of_nat (List.length (filter (Filter.satisfies E d bs) (posts d)))))
    /\ (forall args bs rest p,
           Filter.bind_where (Filter.where_ f) args = Some (bs, rest) ->
           Filter.satisfies E d bs p = true ->
           p_status p = Some "public"%string)
    /\ (forall user sort page view c,
           Auth.is_mod cfg user = false ->
           Listing.show_posts E cfg d user sort keyword genre tag_ids page = Some view ->
           In c (Listing.pv_posts view) ->
           p_status (Listing.r_post (Listing.cd_row c)) = Some "public"%string)
    /\ (forall user sort rows r,
           Auth.is_mod cfg user = false ->
           Listing.export_posts_csv E cfg d user sort keyword genre tag_ids = Some rows
           \/ Listing.export_posts_json E cfg d user sort keyword genre tag_ids = Some rows ->
           In r rows ->
           p_status (Listing.r_post r) = Some "public"%string).
Proof.
  intros E cfg d keyword genre tag_ids f.
  assert (Hsem : forall args bs rest p,
             Filter.bind_where (Filter.where_ f) args = Some (bs, rest) ->
             Filter.satisfies E d bs p = true ->
             p_status p = Some "public"%string).
  { intros args bs rest p Hb Hs.
    eapply satisfies_status; [|exact Hs].
    eapply bind_where_status; [exact Hb|apply build_where_public]. }
  split; [apply build_where_public|].
  split; [apply build_where_sql_public|].
  split.
  { destruct (build_binds keyword genre tag_ids false) as [bs Hb]. fold f in Hb.
    exists bs. split; [exact Hb|]. now apply execute_count_bound. }
  split; [exact Hsem|].
  split.
  - intros user sort page view c Hmod Hshow Hc.
    unfold Listing.show_posts in Hshow. rewrite Hmod in Hshow. fold f in Hshow.
    destruct (Listing.execute_count E d f) as [total|]; [|discriminate].
    destruct (Listing.execute _ _ _ _) as [rows|] eqn:Hex; [|discriminate].
    injection Hshow as <-. simpl in Hc.
    apply in_map_iff in Hc. destruct Hc as [r [<- Hr]]. simpl.
    apply execute_sound in Hex. destruct Hex as [args1 [bs [rest [Hb Hrows]]]].
    simpl in Hb. eapply Hsem; [exact Hb|]. now apply Hrows.
  - intros user sort rows r Hmod Hex Hr.
    assert (Hex' : exists s args,
               Listing.s_where s = Filter.where_ f
               /\ Listing.execute E d s args = Some rows).
    { destruct Hex as [Hex|Hex];
        [unfold Listing.export_posts_csv in Hex
        |unfold Listing.export_posts_json in Hex];
        rewrite Hmod in Hex; fold f in Hex;
        destruct (Py.truthy_str (Filter.rank_sql f));
        (eexists; eexists; split; [|exact Hex]; reflexivity). }
    destruct Hex' as [s [args [Hw Hex']]].
    apply execute_sound in Hex'. destruct Hex' as [args1 [bs [rest [Hb Hrows]]]].
    rewrite Hw in Hb. eapply Hsem; [exact Hb|]. now apply Hrows.
Qed.

(** The listing of [listing_db] for an anonymous visitor: the hidden post 2
    is left out. *)
Lemma C1_witness :
  option_map (fun v => map (fun c => p_id (Listing.r_post (Listing.cd_row c)))
                           (Listing.pv_posts v))
             (Listing.show_posts sample_fts sample_config listing_db None "new" ""
                                 None [] 1)
  = Some [3; 1]
  /\ Forall (fun c => p_status (Listing.r_post (Listing.cd_row c)) = Some "public"%string)
            (match Listing.show_posts sample_fts sample_config listing_db None "new" ""
                                      None [] 1 with
             | Some v => Listing.pv_posts v
             | None => []
             end).
Proof.
  split; [reflexivity|].
  destruct (Listing.show_posts sample_fts sample_config listing_db None "new" "" None [] 1)
    as [v|] eqn:Hshow; [|constructor].
  apply Forall_forall. intros c Hc.
  pose proof (C1_non_staff_sees_public_only sample_fts sample_config listing_db
                "" None []) as H.
  cbv zeta in H. destruct H as [_ [_ [_ [_ [H _]]]]].
  apply (H None "new"%string 1 v c); [reflexivity|exact Hshow|exact Hc].
Defined.

Section ListingFacts.
Import Sql Filter Listing.
Variable E : fts_engine.
Variable cfg : config.
Variable d : db.

Lemma merge_args_missing (sql : string) (args : list param) :
  count_placeholders sql = S (List.length args) -> merge_args sql args = None.
Proof.
  unfold merge_args. intros ->.
  change (S (List.length args) =? 0)%nat with false. cbv iota.
  destruct (Nat.eqb_spec (S (List.length args)) (List.length args)); [lia|reflexivity].
Qed.

(** With a keyword the listing statement has one placeholder more than
    the builder has parameters and the page window has arguments. *)
Lemma listing_sql_placeholders (c : ascii) (kw : string) (genre : option string)
      (tags : list Z) (is_mod : bool) (o : ordering) :
  let f := build_posts_filter_sql (String c kw) genre tags is_mod in
  count_placeholders
    (listing_sql (listing_select_cols ++ ", " ++ unwrap (rank_sql f))%string
                 (where_sql f) (ordering_sql o))
  = S (List.length (params f ++ [PInt 0; PInt 0])).
Proof.
  unfold build_posts_filter_sql.
  destruct is_mod, (Py.truthy_str genre), tags, o; vm_compute; reflexivity.
Qed.

Lemma show_posts_keyword_fails (user : option user) (sort : string) (c : ascii)
      (kw : string) (genre : option string) (tags : list Z) (page : Z) :
  show_posts E cfg d user sort (String c kw) genre tags page = None.
Proof.
  unfold show_posts.
  set (f := build_posts_filter_sql (String c kw) genre tags (Auth.is_mod cfg user)).
  destruct (execute_count E d f) as [total|]; [|reflexivity].
  assert (Hr : Py.truthy_str (rank_sql f) = true).
  { unfold f, build_posts_filter_sql.
    destruct (Auth.is_mod cfg user), (Py.truthy_str genre), tags; reflexivity. }
  rewrite Hr. unfold execute. cbn [s_sql].
  rewrite merge_args_missing; [reflexivity|].
  unfold f. rewrite listing_sql_placeholders.
  rewrite !length_app. reflexivity.
Qed.

Lemma export_posts_json_csv (user : option user) (sort keyword : string)
      (genre : option string) (tags : list Z) :
  export_posts_json E cfg d user sort keyword genre tags
  = export_posts_csv E cfg d user sort keyword genre tags.
Proof. reflexivity. Qed.

(** Evaluates [merge_args] on a statement whose text is closed. *)
Ltac merge_closed_sql :=
  match goal with
  | |- context [merge_args ?sql ?args] =>
      let H := fresh "Hmerge" in
      assert (H : merge_args sql args = Some args) by (vm_compute; reflexivity);
      rewrite H; clear H
  end.

Lemma export_posts_keyword_succeeds (user : option user) (sort : string) (c : ascii)
      (kw : string) (genre : option string) (tags : list Z) :
  exists rows,
    export_posts_csv E cfg d user sort (String c kw) genre tags = Some rows
    /\ export_posts_json E cfg d user sort (String c kw) genre tags = Some rows.
Proof.
  unfold export_posts_json, export_posts_csv, build_posts_filter_sql, execute.
  destruct (Auth.is_mod cfg user), (Py.truthy_str genre), tags, (order_by_of sort);
    cbn [negb String.eqb Ascii.eqb rank_sql params where_ Py.truthy_str
         rank_expression s_sql s_rank s_where s_order s_paged app];
    merge_closed_sql; eexists; split; reflexivity.
Qed.
End ListingFacts.

(** C5.  The CSV and the JSON export put the keyword in front of the
    filter parameters for the rank expression and run; the listing adds the
    rank expression to its select list but not the keyword to its
    parameters, so for every non-empty keyword its page query is refused
    and the three surfaces do not return the same posts. *)
Theorem C5_listing_omits_rank_parameter :
  forall (E : fts_engine) (cfg : config) (d : db) (user : option user)
         (sort : string) (c : ascii) (kw : string) (genre : option string)
         (tag_ids : list Z) (page : Z),
    Listing.show_posts E cfg d user sort (String c kw) genre tag_ids page = None
    /\ exists rows,
        Listing.export_posts_csv E cfg d user sort (String c kw) genre tag_ids = Some rows
        /\ Listing.export_posts_json E cfg d user sort (String c kw) genre tag_ids
           = Some rows.
Proof.
  intros. split.
  - apply show_posts_keyword_fails.
  - apply export_posts_keyword_succeeds.
Qed.

(** C7.  With the sort key [relevance] and an empty keyword the listing
    orders by a column [rank] that its select list does not have: the
    statement is refused and the request fails instead of falling back to
    the default ordering; both exports fail in the same way. *)
Theorem C7_relevance_without_keyword_fails :
  forall (E : fts_engine) (cfg : config) (d : db) (user : option user)
         (genre : option string) (tag_ids : list Z) (page : Z),
    Listing.show_posts E cfg d user "relevance" "" genre tag_ids page = None
    /\ Listing.export_posts_csv E cfg d user "relevance" "" genre tag_ids = None
    /\ Listing.export_posts_json E cfg d user "relevance" "" genre tag_ids = None.
Proof.
  intros E cfg d user genre tag_ids page.
  assert (Hr : Filter.rank_sql
                 (Filter.build_posts_filter_sql "" genre tag_ids (Auth.is_mod cfg user))
               = None).
  { unfold Filter.build_posts_filter_sql.
    destruct (Auth.is_mod cfg user), (Py.truthy_str genre), tag_ids; reflexivity. }
  assert (Hex : forall sql paged args,
             Listing.execute E d
               (Listing.mkSelect sql false
                  (Filter.where_
                     (Filter.build_posts_filter_sql "" genre tag_ids (Auth.is_mod cfg user)))
                  Listing.OrdRelevance paged) args = None).
  { intros sql paged args. unfold Listing.execute.
    cbn [Listing.s_sql Listing.s_rank Listing.s_where Listing.s_order Listing.s_paged].
    destruct (Sql.merge_args sql args) as [args0|]; [|reflexivity].
    destruct (Filter.bind_where _ args0) as [[bs args2]|]; [|reflexivity].
    destruct (if paged then _ else _); reflexivity. }
  repeat split.
  - unfold Listing.show_posts. rewrite Hr.
    destruct (Listing.execute_count E d _); [|reflexivity].
    cbn [Py.truthy_str]. change (Listing.order_by_of "relevance") with Listing.OrdRelevance.
    now rewrite Hex.
  - unfold Listing.export_posts_csv. rewrite Hr. cbn [Py.truthy_str].
    change (Listing.order_by_of "relevance") with Listing.OrdRelevance. apply Hex.
  - unfold Listing.export_posts_json. rewrite Hr. cbn [Py.truthy_str].
    change (Listing.order_by_of "relevance") with Listing.OrdRelevance. apply Hex.
Qed.

(** ** The card image *)

(** C6, as stated, fails: for a post without thumbnail that has both an
    original upload and a legacy image url, the card shows the legacy url,
    not the original upload. *)
Lemma C6_counterexample :
  Listing.card_image_url sample_config legacy_and_orig_post
  = Some "https://img.example/legacy.png"%string
  /\ card_image_thumb_orig_legacy sample_config legacy_and_orig_post
     = Some "https://img.example/orig.jpg"%string
  /\ Listing.card_image_url sample_config legacy_and_orig_post
     <> card_image_thumb_orig_legacy sample_config legacy_and_orig_post.
Proof.
  repeat split; try reflexivity. vm_compute. discriminate.
Qed.

(** C6, amended.  The card image is the first non-empty value in the
    order thumbnail url, legacy image-url field, original upload url,
    passed through the CDN rewrite, and none when all three are empty. *)
Theorem C6_card_image_priority :
  forall (cfg : config) (p : post),
    Listing.card_image_url cfg p
    = match first_non_empty [p_image_thumb_url p; p_image_url p; p_image_orig_url p] with
      | Some raw => cdnize cfg (Some raw)
      | None => None
      end.
Proof.
  intros cfg p. unfold Listing.card_image_url.
  destruct (p_image_thumb_url p) as [[|ct t]|], (p_image_url p) as [[|cl l]|],
           (p_image_orig_url p) as [[|co o]|];
    reflexivity.
Qed.

(** ** The tag filter *)

Section TagFacts.
Import Sql Filter.

Lemma mem_In (x : Z) (l : list Z) : mem x l = true <-> In x l.
Proof.
  unfold mem. rewrite existsb_exists. split.
  - intros [y [Hy Hxy]]. apply Z.eqb_eq in Hxy. now subst.
  - intros H. exists x. split; [assumption|apply Z.eqb_refl].
Qed.

Lemma distinct_In (x : Z) (l : list Z) : In x (distinct l) <-> In x l.
Proof.
  induction l as [|y l IH]; simpl; [tauto|].
  destruct (mem y l) eqn:Hm.
  - rewrite IH. apply mem_In in Hm. split; [tauto|]. intros [<-|H]; assumption.
  - simpl. rewrite IH. tauto.
Qed.

Lemma distinct_NoDup (l : list Z) : NoDup (distinct l).
Proof.
  induction l as [|y l IH]; simpl; [constructor|].
  destruct (mem y l) eqn:Hm; [assumption|].
  constructor; [|assumption].
  rewrite distinct_In, <- mem_In. congruence.
Qed.

Lemma distinct_of_NoDup (l : list Z) : NoDup l -> distinct l = l.
Proof.
  induction 1 as [|y l Hy Hl IH]; simpl; [reflexivity|].
  destruct (mem y l) eqn:Hm.
  - apply mem_In in Hm. contradiction.
  - now rewrite IH.
Qed.

Lemma distinct_length (l : list Z) : (List.length (distinct l) <= List.length l)%nat.
Proof.
  induction l as [|y l IH]; simpl; [lia|].
  destruct (mem y l); simpl; lia.
Qed.

Lemma filter_length_all {A : Type} (f : A -> bool) (l : list A) :
  List.length (filter f l) = List.length l <-> forall x, In x l -> f x = true.
Proof.
  induction l as [|y l IH]; simpl.
  - split; [intros _ x []|reflexivity].
  - pose proof (filter_length_le f l) as Hle.
    destruct (f y) eqn:Hy; simpl.
    + split.
      * intros H x [<-|Hx]; [assumption|]. apply IH; [lia|assumption].
      * intros H. f_equal. apply IH. intros x Hx. apply H. now right.
    + split; [lia|]. intros H. specialize (H y (or_introl eq_refl)). congruence.
Qed.

Lemma filter_length_some {A : Type} (f : A -> bool) (l : list A) (x : A) :
  In x l -> f x = false -> (List.length (filter f l) < List.length l)%nat.
Proof.
  intros Hx Hf.
  pose proof (filter_length_le f l) as Hle.
  destruct (Nat.eq_dec (List.length (filter f l)) (List.length l)) as [He|Hne]; [|lia].
  rewrite filter_length_all in He. rewrite (He x Hx) in Hf. discriminate.
Qed.

Variable d : db.

(** The tags a group of the subquery counts are the requested tags that
    are attached to the post. *)
Lemma group_count (ids : list Z) (p : post) :
  List.length
    (distinct (map snd (filter (fun pt => fst pt =? p_id p)
                               (filter (fun pt => mem (snd pt) ids) (post_tags d)))))
  = requested_tags_attached d ids p.
Proof.
  unfold requested_tags_attached.
  apply Permutation_length, NoDup_Permutation.
  - apply distinct_NoDup.
  - apply NoDup_filter, distinct_NoDup.
  - intros t. rewrite distinct_In, in_map_iff, filter_In, distinct_In.
    unfold attached. rewrite existsb_exists. split.
    + intros [[pid t'] [Ht Hin]]. simpl in Ht. subst t'.
      rewrite !filter_In in Hin. simpl in Hin.
      destruct Hin as [[Hpt Hmem] Hpid]. split; [now apply mem_In|].
      exists (pid, t). simpl. now rewrite Hpid, Z.eqb_refl.
    + intros [Hin [[pid t'] [Hpt Hb]]]. simpl in Hb.
      apply andb_true_iff in Hb. destruct Hb as [Hpid Ht]. apply Z.eqb_eq in Ht. subst t'.
      exists (pid, t). split; [reflexivity|].
      rewrite !filter_In. simpl. repeat split; try assumption. now apply mem_In.
Qed.

Lemma tagged_with_all_spec (ids : list Z) (p : post) :
  ids <> [] ->
  mem (p_id p) (tagged_with_all d ids (Z.of_nat (List.length ids)))
  = (requested_tags_attached d ids p =? List.length ids)%nat.
Proof.
  intros Hne. apply eq_true_iff_eq.
  rewrite mem_In. unfold tagged_with_all. rewrite filter_In, distinct_In.
  rewrite group_count, Z.eqb_eq, Nat2Z.inj_iff, Nat.eqb_eq.
  split; [tauto|]. intros Hc. split; [|assumption].
  assert (Hpos : (0 < requested_tags_attached d ids p)%nat).
  { rewrite Hc. destruct ids; [contradiction|simpl; lia]. }
  rewrite <- group_count in Hpos.
  destruct (distinct _) as [|t l] eqn:Hd in Hpos; [simpl in Hpos; lia|].
  assert (Ht : In t (distinct (map snd (filter (fun pt => fst pt =? p_id p)
                (filter (fun pt => mem (snd pt) ids) (post_tags d)))))).
  { rewrite Hd. now left. }
  rewrite distinct_In, in_map_iff in Ht. destruct Ht as [[pid t'] [_ Hin]].
  apply filter_In in Hin. destruct Hin as [Hin Hpid]. simpl in Hpid.
  apply Z.eqb_eq in Hpid. subst pid.
  apply in_map_iff. exists (p_id p, t'). split; [reflexivity|assumption].
Qed.

End TagFacts.

(** C2.  For a non-empty list of requested tag ids the filter accepts a
    post exactly when the filter without tags accepts it and the number of
    distinct requested tags attached to the post equals the number of
    requested ids; when the ids are pairwise different this is the post
    carrying every requested tag, and a post that lacks one of the
    requested tags is never accepted.  The count query of the listing
    counts exactly the accepted posts. *)
Theorem C2_tag_filter_requires_all_tags :
  forall (E : fts_engine) (d : db) (keyword : string) (genre : option string)
         (tag_ids : list Z) (include_non_public : bool),
    tag_ids <> [] ->
    let f0 := Filter.build_posts_filter_sql keyword genre [] include_non_public in
    let f := Filter.build_posts_filter_sql keyword genre tag_ids include_non_public in
    exists bs0 bs,
      Filter.bind_where (Filter.where_ f0) (Filter.params f0) = Some (bs0, [])
      /\ Filter.bind_where (Filter.where_ f) (Filter.params f) = Some (bs, [])
      /\ Listing.execute_count E d f
         = Some (Z.of_nat (List.length (filter (Filter.satisfies E d bs) (posts d))))
      /\ forall p,
          (Filter.satisfies E d bs p = true <->
           Filter.satisfies E d bs0 p = true
           /\ requested_tags_attached d tag_ids p = List.length tag_ids)
          /\ (NoDup tag_ids ->
              (requested_tags_attached d tag_ids p = List.length tag_ids <->
               forall t, In t tag_ids -> attached d p t = true))
          /\ ((exists t, In t tag_ids /\ attached d p t = false) ->
              Filter.satisfies E d bs p = false).
Proof.
  intros E d keyword genre tag_ids inp Hne f0 f.
  destruct (build_without_tags_binds keyword genre inp) as [bs0 Hb0]. fold f0 in Hb0.
  destruct tag_ids as [|t ts]; [contradiction|].
  destruct (build_with_tags keyword genre t ts inp) as [Hw Hp].
  fold f0 f in Hw, Hp.
  set (n := Z.of_nat (List.length (t :: ts))) in *.
  assert (Hb : Filter.bind_where (Filter.where_ f) (Filter.params f)
               = Some (bs0 ++ [Filter.BTags (t :: ts) n], [])).
  { rewrite Hw, Hp. rewrite (bind_where_app _ _ _ _ _ Hb0). reflexivity. }
  assert (Hsat : forall p,
             Filter.satisfies E d (bs0 ++ [Filter.BTags (t :: ts) n]) p
             = Filter.satisfies E d bs0 p
               && (requested_tags_attached d (t :: ts) p =? List.length (t :: ts))%nat).
  { intros p. unfold Filter.satisfies. rewrite forallb_app. f_equal.
    cbn [forallb Filter.holds]. rewrite andb_true_r.
    unfold n. apply tagged_with_all_spec. discriminate. }
  assert (Hsome : forall p,
             (exists u, In u (t :: ts) /\ attached d p u = false) ->
             (requested_tags_attached d (t :: ts) p < List.length (t :: ts))%nat).
  { intros p [u [Hu Ha]]. unfold requested_tags_attached.
    apply Nat.lt_le_trans with (List.length (Filter.distinct (t :: ts)));
      [|apply distinct_length].
    apply filter_length_some with u; [now apply distinct_In|assumption]. }
  exists bs0, (bs0 ++ [Filter.BTags (t :: ts) n]).
  split; [exact Hb0|]. split; [exact Hb|].
  split; [now apply execute_count_bound|].
  intros p. split; [|split].
  - rewrite Hsat, andb_true_iff, Nat.eqb_eq. reflexivity.
  - intros Hnd. unfold requested_tags_attached.
    rewrite (distinct_of_NoDup _ Hnd). apply filter_length_all.
  - intros Hex. rewrite Hsat. apply andb_false_iff. right.
    apply Nat.eqb_neq. specialize (Hsome p Hex). lia.
Qed.

(** Post 2 carries tag 2 but not tag 5, so a request for both rejects it. *)
Lemma C2_witness :
  Filter.satisfies sample_fts tagged_posts_db
    [Filter.BStatusPublic; Filter.BSearch "robot"; Filter.BTags [2; 5] 2]
    (sample_post 2 "public" "another robot") = false.
Proof.
  assert (Hne : [2; 5] <> []) by discriminate.
  destruct (C2_tag_filter_requires_all_tags sample_fts tagged_posts_db "robot" None
              [2; 5] false Hne) as [bs0 [bs [Hb0 [Hb [_ H]]]]].
  injection Hb as <-.
  apply (proj2 (proj2 (H (sample_post 2 "public" "another robot")))).
  exists 5. split; [simpl; auto|reflexivity].
Defined.

(** ** Notification counters *)

Section JoinFacts.
Context {A : Type} (key : A -> Z).

Lemma key_absent (ps : list A) (k : Z) (Q : A -> bool) :
  ~ In k (map key ps) ->
  filter (fun p => key p =? k) ps = []
  /\ existsb (fun p => (key p =? k) && Q p) ps = false.
Proof.
  induction ps as [|a ps IH]; simpl; intros Hn; [split; reflexivity|].
  destruct (Z.eqb_spec (key a) k) as [Hk|Hk]; [exfalso; apply Hn; now left|].
  simpl. apply IH. intros H. apply Hn. now right.
Qed.

(** A join on a primary key finds at most one row. *)
Lemma join_on_key (ps : list A) (k : Z) (Q : A -> bool) :
  NoDup (map key ps) ->
  List.length (filter Q (filter (fun p => key p =? k) ps))
  = if existsb (fun p => (key p =? k) && Q p) ps then 1%nat else 0%nat.
Proof.
  induction ps as [|a ps IH]; simpl; intros Hnd; [reflexivity|].
  inversion Hnd as [|? ? Hna Hnd']; subst.
  destruct (Z.eqb_spec (key a) k) as [Hk|Hk]; simpl.
  - subst k. destruct (key_absent ps (key a) Q Hna) as [-> ->].
    destruct (Q a); reflexivity.
  - now apply IH.
Qed.

Lemma filter_map_length {B : Type} (f : A -> B) (P : B -> bool) (l : list A) :
  List.length (filter P (map f l)) = List.length (filter (fun x => P (f x)) l).
Proof.
  induction l as [|a l IH]; simpl; [reflexivity|].
  destruct (P (f a)); simpl; now rewrite IH.
Qed.

Lemma existsb_andb_r (f : A -> bool) (b : bool) (l : list A) :
  existsb (fun x => f x && b) l = existsb f l && b.
Proof.
  induction l as [|a l IH]; simpl; [reflexivity|].
  rewrite IH. destruct (f a), b, (existsb f l); reflexivity.
Qed.

Lemma existsb_pointwise (f g : A -> bool) (l : list A) :
  (forall x, f x = g x) -> existsb f l = existsb g l.
Proof.
  intros H. induction l as [|a l IH]; simpl; [reflexivity|].
  now rewrite H, IH.
Qed.
End JoinFacts.

Lemma count_filter_cons {A : Type} (f : A -> bool) (a : A) (l : list A) :
  List.length (filter f (a :: l))
  = ((if f a then 1 else 0) + List.length (filter f l))%nat.
Proof. simpl. destruct (f a); reflexivity. Qed.

(** Reduces the equality of two one-or-zero counts to the pointwise
    equality of the two conditions. *)
Ltac same_condition :=
  match goal with
  | |- (if existsb ?f ?l then _ else _) = (if existsb ?g ?l then _ else _) =>
      rewrite (existsb_pointwise f g l); [reflexivity|]
  end.

Section NotifyFacts.
Import Notify.
Variable d : db.
Hypothesis posts_key : NoDup (map p_id (posts d)).
Hypothesis users_key : NoDup (map u_id (users d)).

Lemma counter_params_bind (username : string) (last : option Z) :
  bind_counter (truthy_time last) (counter_params username last)
  = Some (username, username, last).
Proof. destruct last; reflexivity. Qed.

Lemma count_comments_on_posts_spec (username : string) (last : option Z) :
  count_comments_on_posts d (truthy_time last) (counter_params username last)
  = Some (Z.of_nat (List.length
      (filter (fun c => is_post_of d username (c_post_id c)
                        && by_someone_else username (c_author c)
                        && unread last (c_created_at c))
              (comments d)))).
Proof.
  unfold count_comments_on_posts. rewrite counter_params_bind. do 2 f_equal.
  induction (comments d) as [|c cs IH]; [reflexivity|].
  cbn [flat_map]. rewrite filter_app, length_app, IH, count_filter_cons. f_equal.
  rewrite filter_map_length. cbn [fst snd].
  rewrite (join_on_key p_id _ _ _ posts_key).
  unfold is_post_of, by_someone_else.
  rewrite <- !existsb_andb_r.
  same_condition. intros p.
  now rewrite !andb_assoc.
Qed.

Lemma count_replies_spec (username : string) (last : option Z) :
  count_replies d (truthy_time last) (counter_params username last)
  = Some (Z.of_nat (List.length
      (filter (fun c => is_comment_of d username (c_parent_id c)
                        && by_someone_else username (c_author c)
                        && unread last (c_created_at c))
              (comments d)))).
Proof.
  unfold count_replies. rewrite counter_params_bind. do 3 f_equal.
  apply filter_ext. intros c. do 2 f_equal.
  unfold is_comment_of. destruct (c_parent_id c) as [pid|]; [|reflexivity].
  induction (comments d) as [|x xs IH]; [reflexivity|].
  simpl. destruct (String.eqb (c_author x) username); simpl.
  - rewrite IH, andb_true_r, Z.eqb_sym. reflexivity.
  - rewrite IH, andb_false_r. reflexivity.
Qed.

Lemma count_favorites_on_posts_spec (username : string) (last : option Z) :
  count_favorites_on_posts d (truthy_time last) (counter_params username last)
  = Some (Z.of_nat (List.length
      (filter (fun f => is_post_of d username (f_post_id f)
                        && is_other_user d username (f_user_id f)
                        && unread last (f_created_at f))
              (favorites d)))).
Proof.
  unfold count_favorites_on_posts. rewrite counter_params_bind. do 2 f_equal.
  induction (favorites d) as [|f fs IH]; [reflexivity|].
  cbn [flat_map]. rewrite filter_app, length_app, IH, count_filter_cons. f_equal.
  clear IH.
  set (P := fun fpu : favorite * post * user =>
              let '(f0, p, u) := fpu in
              String.eqb (p_author p) username
              && negb (String.eqb (u_username u) username)
              && newer last (f_created_at f0)).
  assert (Hinner : forall p,
             List.length (filter P (map (fun u => (f, p, u))
                                        (filter (fun u => u_id u =? f_user_id f) (users d))))
             = if String.eqb (p_author p) username
                  && is_other_user d username (f_user_id f)
                  && unread last (f_created_at f)
               then 1%nat else 0%nat).
  { intros p. rewrite filter_map_length. unfold P.
    rewrite (join_on_key u_id _ _ _ users_key).
    unfold is_other_user, by_someone_else.
    rewrite (andb_comm (String.eqb (p_author p) username)).
    rewrite <- !existsb_andb_r.
    same_condition. intros u.
    change (unread last (f_created_at f)) with (newer last (f_created_at f)).
    destruct (u_id u =? f_user_id f), (String.eqb (p_author p) username),
      (String.eqb (u_username u) username), (newer last (f_created_at f)); reflexivity. }
  assert (Houter : forall ps,
             List.length (filter P (flat_map
               (fun p => map (fun u => (f, p, u))
                             (filter (fun u => u_id u =? f_user_id f) (users d))) ps))
             = List.length (filter (fun p => String.eqb (p_author p) username
                                       && is_other_user d username (f_user_id f)
                                       && unread last (f_created_at f)) ps)).
  { induction ps as [|p ps IHps]; [reflexivity|].
    cbn [flat_map]. rewrite filter_app, length_app, IHps, Hinner, count_filter_cons.
    reflexivity. }
  rewrite Houter.
  rewrite (join_on_key p_id _ _ _ posts_key).
  unfold is_post_of.
  rewrite <- !existsb_andb_r. same_condition. intros p.
  now rewrite !andb_assoc.
Qed.
End NotifyFacts.

(** C9.  Each of the three counters is the number of events of its kind
    (comments on the user's posts, replies to the user's comments,
    favorites on the user's posts) that were caused by somebody else and,
    when the user has a watermark for that counter, were created strictly
    after it; without a watermark every such event counts. *)
Theorem C9_notify_counts :
  forall (d : db) (user_id : Z) (username : string),
    NoDup (map p_id (posts d)) ->
    NoDup (map u_id (users d)) ->
    let last := Notify.get_notify_last_reads d user_id in
    Notify.get_notify_counts_for_user d user_id username
    = Some (Notify.mkCounts
        (Z.of_nat (List.length
           (filter (fun c => is_post_of d username (c_post_id c)
                             && by_someone_else username (c_author c)
                             && unread (Notify.lr_comments_on_my_posts last)
                                       (c_created_at c))
                   (comments d))))
        (Z.of_nat (List.length
           (filter (fun c => is_comment_of d username (c_parent_id c)
                             && by_someone_else username (c_author c)
                             && unread (Notify.lr_replies_to_me last) (c_created_at c))
                   (comments d))))
        (Z.of_nat (List.length
           (filter (fun f => is_post_of d username (f_post_id f)
                             && is_other_user d username (f_user_id f)
                             && unread (Notify.lr_favorites_on_my_posts last)
                                       (f_created_at f))
                   (favorites d))))).
Proof.
  intros d user_id username Hp Hu last.
  unfold Notify.get_notify_counts_for_user. fold last.
  rewrite (count_comments_on_posts_spec d Hp),
    (count_replies_spec d), (count_favorites_on_posts_spec d Hp Hu).
  reflexivity.
Qed.

(** Alice has read her comments and favorites up to time 10 and never
    looked at her replies: one comment, one reply and one favorite by Bob
    count; her own comment and favorite and Bob's older ones do not. *)
Lemma C9_witness :
  Notify.get_notify_counts_for_user notify_db 1 "alice" = Some (Notify.mkCounts 1 1 1).
Proof.
  rewrite (C9_notify_counts notify_db 1 "alice");
    [reflexivity | simpl; nodup_literals | simpl; nodup_literals].
Defined.

(** ** Favorites *)
Section FavoriteFacts.
Import Favorites.

Lemma no_favorite_row (d : db) (uid post_id : Z) :
  (forall f, In f (favorites d) -> f_user_id f = uid -> f_post_id f <> post_id) ->
  existsb (is_favorite_of uid post_id) (favorites d) = false.
Proof.
  intros H. apply not_true_is_false. rewrite existsb_exists.
  intros [f [Hf Hb]]. unfold is_favorite_of in Hb.
  apply andb_true_iff in Hb. destruct Hb as [Hu Hp].
  apply Z.eqb_eq in Hu, Hp. exact (H f Hf Hu Hp).
Qed.

Lemma select_status_not_public (d : db) (post_id : Z) :
  (forall p, In p (posts d) -> p_id p = post_id -> p_status p <> Some "public"%string) ->
  match select_status d post_id with
  | None => true
  | Some st => negb (is_public st)
  end = true.
Proof.
  intros H. unfold select_status.
  destruct (find _ (posts d)) as [p|] eqn:Hf; [|reflexivity].
  apply find_some in Hf. destruct Hf as [Hin Hid]. apply Z.eqb_eq in Hid.
  apply negb_true_iff, not_true_is_false. rewrite is_public_eq. now apply H.
Qed.
End FavoriteFacts.

(** C10.  When the user has no favorite row for the post: a user who is
    not staff is refused for a post that is not public (or does not exist)
    and the database is left as it was, while a staff user gets the row
    appended whatever the post's status is, as long as the id in the URL
    is a value of the type INTEGER, as the id of every post is; for a
    larger id the statement fails and nothing is stored.  When the row
    exists it is removed, all other rows stay, and neither the user's
    role nor the post's status is looked at. *)
Theorem C10_toggle_favorite :
  forall (cfg : config) (d : db) (u : user) (post_id now : Z),
    ((forall f, In f (favorites d) -> f_user_id f = u_id u -> f_post_id f <> post_id) ->
     Auth.is_staff cfg u = false ->
     (forall p, In p (posts d) -> p_id p = post_id ->
                p_status p <> Some "public"%string) ->
     Favorites.toggle_favorite cfg d u post_id now
     = (Redirect "You cannot favorite this post right now.", d))
    /\ ((forall f, In f (favorites d) -> f_user_id f = u_id u -> f_post_id f <> post_id) ->
        Auth.is_staff cfg u = true ->
        (Limits.fits_integer post_id = true ->
         favorites (snd (Favorites.toggle_favorite cfg d u post_id now))
         = favorites d ++ [mkFavorite (favorites_id_seq d) (u_id u) post_id now])
        /\ (Limits.fits_integer post_id = false ->
            Favorites.toggle_favorite cfg d u post_id now = (ServerError, d)))
    /\ ((exists f, In f (favorites d) /\ f_user_id f = u_id u /\ f_post_id f = post_id) ->
        fst (Favorites.toggle_favorite cfg d u post_id now)
        = Redirect "Removed from favorites."
        /\ forall g,
            In g (favorites (snd (Favorites.toggle_favorite cfg d u post_id now)))
            <-> In g (favorites d)
                /\ ~ (f_user_id g = u_id u /\ f_post_id g = post_id)).
Proof.
  intros cfg d u post_id now. unfold Favorites.toggle_favorite.
  split; [|split].
  - intros Hno Hstaff Hst.
    rewrite (no_favorite_row _ _ _ Hno), Hstaff. cbn [negb].
    now rewrite (select_status_not_public _ _ Hst).
  - intros Hno Hstaff.
    rewrite (no_favorite_row _ _ _ Hno), Hstaff. cbn [negb andb].
    split; intros ->; reflexivity.
  - intros [f [Hf [Hu Hp]]].
    assert (He : existsb (Favorites.is_favorite_of (u_id u) post_id) (favorites d) = true).
    { apply existsb_exists. exists f. split; [assumption|].
      unfold Favorites.is_favorite_of. now rewrite Hu, Hp, !Z.eqb_refl. }
    rewrite He. split; [reflexivity|].
    intros g. cbn [snd set_favorites favorites]. rewrite filter_In.
    unfold Favorites.is_favorite_of.
    rewrite negb_true_iff, andb_false_iff, !Z.eqb_neq.
    split; (intros [Hin H]; split; [exact Hin|lia]).
Qed.

(** Alice may not favorite the hidden post 7, the moderator may, and Alice
    can drop her favorite of post 8. *)
Lemma C10_witness :
  Favorites.toggle_favorite sample_config favorites_db (mkUser 1 "alice" None) 7 9
  = (Redirect "You cannot favorite this post right now.", favorites_db)
  /\ favorites (snd (Favorites.toggle_favorite sample_config favorites_db
                       (mkUser 2 "mod" (Some "moderator"%string)) 7 9))
     = [mkFavorite 1 1 8 5; mkFavorite 2 2 7 9]
  /\ fst (Favorites.toggle_favorite sample_config favorites_db (mkUser 1 "alice" None) 8 9)
     = Redirect "Removed from favorites.".
Proof.
  split; [|split].
  - apply (proj1 (C10_toggle_favorite sample_config favorites_db
                    (mkUser 1 "alice" None) 7 9)).
    + simpl. intros f [<-|[]] _. discriminate.
    + reflexivity.
    + simpl. intros p [<-|[<-|[]]]; simpl; intros; discriminate.
  - apply (proj1 (proj2 (C10_toggle_favorite sample_config favorites_db
                           (mkUser 2 "mod" (Some "moderator"%string)) 7 9))).
    + simpl. intros f [<-|[]] _. discriminate.
    + reflexivity.
    + reflexivity.
  - apply (proj2 (proj2 (C10_toggle_favorite sample_config favorites_db
                           (mkUser 1 "alice" None) 8 9))).
    exists (mkFavorite 1 1 8 5). simpl. auto.
Defined.

(** ** The order of strings *)

Section StringFacts.

Lemma append_assoc (a b c : string) : ((a ++ b) ++ c = a ++ (b ++ c))%string.
Proof. induction a as [|x a IH]; simpl; [reflexivity|now rewrite IH]. Qed.

Lemma ascii_compare_refl (c : ascii) : Ascii.compare c c = Eq.
Proof. unfold Ascii.compare. apply N.compare_refl. Qed.

Lemma str_compare_refl (s : string) : String.compare s s = Eq.
Proof.
  induction s as [|c s IH]; simpl; [reflexivity|].
  now rewrite ascii_compare_refl.
Qed.

Lemma str_compare_eq (s1 s2 : string) : String.compare s1 s2 = Eq <-> s1 = s2.
Proof.
  split; [apply String.compare_eq_iff|intros ->; apply str_compare_refl].
Qed.

Lemma str_compare_flip (s1 s2 : string) :
  String.compare s2 s1 = CompOpp (String.compare s1 s2).
Proof. apply String.compare_antisym. Qed.

Lemma str_lt_irrefl (s : string) : ~ str_lt s s.
Proof. unfold str_lt. rewrite str_compare_refl. discriminate. Qed.

Lemma str_lt_trans (s1 s2 s3 : string) : str_lt s1 s2 -> str_lt s2 s3 -> str_lt s1 s3.
Proof.
  unfold str_lt. revert s2 s3.
  induction s1 as [|a s1 IH]; intros [|b s2] [|c s3]; simpl; try discriminate; auto.
  unfold Ascii.compare.
  destruct (N.compare_spec (N_of_ascii a) (N_of_ascii b)) as [Hab|Hab|Hab];
    try discriminate;
    destruct (N.compare_spec (N_of_ascii b) (N_of_ascii c)) as [Hbc|Hbc|Hbc];
    try discriminate; intros H1 H2.
  - rewrite Hab, Hbc, N.compare_refl. eapply IH; eassumption.
  - rewrite Hab. now apply N.compare_lt_iff in Hbc as ->.
  - rewrite <- Hbc. now apply N.compare_lt_iff in Hab as ->.
  - assert (Hac : (N_of_ascii a < N_of_ascii c)%N) by lia.
    now apply N.compare_lt_iff in Hac as ->.
Qed.

(** A common prefix does not count. *)
Lemma str_compare_app (s a b : string) :
  String.compare (s ++ a) (s ++ b) = String.compare a b.
Proof.
  induction s as [|c s IH]; simpl; [reflexivity|].
  now rewrite ascii_compare_refl.
Qed.

(** A string comes before each of its proper extensions. *)
Lemma str_lt_extension (s t : string) : t <> EmptyString -> str_lt s (s ++ t).
Proof.
  intros Ht. unfold str_lt.
  induction s as [|c s IH]; simpl.
  - destruct t; [contradiction|reflexivity].
  - now rewrite ascii_compare_refl.
Qed.

(** Two strings of one length decide the order of all their extensions. *)
Lemma str_lt_same_length (a b x y : string) :
  String.length a = String.length b -> str_lt a b -> str_lt (a ++ x) (b ++ y).
Proof.
  unfold str_lt. revert b.
  induction a as [|c a IH]; intros [|e b]; simpl; try discriminate.
  intros Hlen. injection Hlen as Hlen.
  destruct (Ascii.compare c e); try discriminate; auto.
Qed.
End StringFacts.

(** ** The format 06d *)
Section DigitFacts.
Import Py.

Lemma digit_char_compare (x y : Z) :
  0 <= x < 10 -> 0 <= y < 10 ->
  Ascii.compare (digit_char x) (digit_char y) = (x ?= y).
Proof.
  intros Hx Hy. unfold Ascii.compare, digit_char.
  rewrite !N_ascii_embedding by lia.
  destruct (N.compare_spec (48 + Z.to_N x) (48 + Z.to_N y));
    destruct (Z.compare_spec x y); try reflexivity; lia.
Qed.

Lemma fixed_digits_length (k : nat) :
  forall n acc, String.length (fixed_digits k n acc) = (k + String.length acc)%nat.
Proof.
  induction k as [|k IH]; intros n acc; simpl; [reflexivity|].
  rewrite IH. simpl. lia.
Qed.

(** On numbers of at most [k] digits the order of the digit strings is
    the order of the numbers. *)
Lemma fixed_digits_compare (k : nat) :
  forall a b acc acc',
    0 <= a < 10 ^ Z.of_nat k -> 0 <= b < 10 ^ Z.of_nat k ->
    String.compare (fixed_digits k a acc) (fixed_digits k b acc')
    = match a ?= b with
      | Eq => String.compare acc acc'
      | r => r
      end.
Proof.
  induction k as [|k IH]; intros a b acc acc' Ha Hb.
  - simpl in *. assert (a = 0) by lia. assert (b = 0) by lia. subst.
    reflexivity.
  - rewrite Nat2Z.inj_succ, Z.pow_succ_r in Ha, Hb by lia.
    cbn [fixed_digits]. rewrite IH by (Z.div_mod_to_equations; lia).
    cbn [String.compare].
    rewrite digit_char_compare by (apply Z.mod_pos_bound; lia).
    destruct (Z.compare_spec (a / 10) (b / 10)) as [Hq|Hq|Hq];
      destruct (Z.compare_spec (a mod 10) (b mod 10)) as [Hr|Hr|Hr];
      destruct (Z.compare_spec a b) as [He|He|He]; try reflexivity; exfalso;
      Z.div_mod_to_equations; lia.
Qed.

Lemma fixed_digits_zero (k : nat) (acc : string) :
  fixed_digits k 0 acc = (zeros k ++ acc)%string.
Proof.
  revert acc. induction k as [|k IH]; intros acc; [reflexivity|].
  cbn [fixed_digits]. change (0 / 10) with 0. change (0 mod 10) with 0.
  rewrite IH. clear IH.
  induction k as [|k IH]; [reflexivity|]. simpl in *. now rewrite IH.
Qed.

Lemma fixed_digits_step (k : nat) (n : Z) (acc : string) :
  fixed_digits (S k) n acc
  = fixed_digits k (n / 10) (String (digit_char (n mod 10)) acc).
Proof. reflexivity. Qed.

Lemma decimal_digits_step (fuel : nat) (n : Z) (acc : string) :
  decimal_digits (S fuel) n acc
  = if n / 10 =? 0 then String (digit_char (n mod 10)) acc
    else decimal_digits fuel (n / 10) (String (digit_char (n mod 10)) acc).
Proof. reflexivity. Qed.

(** The digits without leading zeros, padded, are the fixed digits. *)
Lemma fixed_digits_padding (k : nat) :
  forall n acc,
    0 <= n < 10 ^ Z.of_nat (S k) ->
    exists j,
      fixed_digits (S k) n acc = (zeros j ++ decimal_digits (S k) n acc)%string
      /\ (String.length (decimal_digits (S k) n acc) + j
          = S k + String.length acc)%nat.
Proof.
  induction k as [|k IH]; intros n acc Hn.
  - cbn [fixed_digits decimal_digits]. exists O.
    destruct (n / 10 =? 0); simpl; split; reflexivity || lia.
  - rewrite fixed_digits_step, decimal_digits_step.
    destruct (Z.eqb_spec (n / 10) 0) as [Hz|Hz].
    + rewrite Hz, fixed_digits_zero. exists (S k). split; [reflexivity|].
      simpl. lia.
    + rewrite Nat2Z.inj_succ, Z.pow_succ_r in Hn by lia.
      destruct (IH (n / 10) (String (digit_char (n mod 10)) acc)) as [j [He Hl]].
      { Z.div_mod_to_equations; lia. }
      exists j. split; [exact He|]. rewrite Hl. simpl. lia.
Qed.

(** Enough fuel is as good as more fuel. *)
Lemma decimal_digits_fuel (f1 : nat) :
  forall f2 n acc,
    0 <= n < 10 ^ Z.of_nat (S f1) -> n < 10 ^ Z.of_nat (S f2) ->
    decimal_digits (S f1) n acc = decimal_digits (S f2) n acc.
Proof.
  induction f1 as [|f1 IH]; intros f2 n acc Hn1 Hn2.
  - cbn [decimal_digits].
    assert (Hz : n / 10 = 0) by (apply Z.div_small; simpl in Hn1; lia).
    rewrite Hz. reflexivity.
  - cbn [decimal_digits]. destruct (Z.eqb_spec (n / 10) 0) as [Hz|Hz]; [reflexivity|].
    destruct f2 as [|f2].
    + exfalso. apply Hz. apply Z.div_small. simpl in Hn2. lia.
    + rewrite Nat2Z.inj_succ, Z.pow_succ_r in Hn1, Hn2 by lia.
      apply IH.
      * Z.div_mod_to_equations; lia.
      * Z.div_mod_to_equations; lia.
Qed.

Lemma below_power_of_ten (n : Z) : 0 <= n -> n < 10 ^ Z.of_nat (S (Z.to_nat (Z.log2 n))).
Proof.
  intros Hn. rewrite Nat2Z.inj_succ, Z2Nat.id by apply Z.log2_nonneg.
  destruct (Z.eq_dec n 0) as [->|Hne]; [reflexivity|].
  apply Z.lt_le_trans with (2 ^ Z.succ (Z.log2 n)).
  - apply Z.log2_spec. lia.
  - apply Z.pow_le_mono_l. split; [lia|lia].
Qed.

(** Below one million the format 06d is the six fixed digits. *)
Lemma fmt06d_fixed (n : Z) :
  0 <= n < 1000000 -> fmt06d n = fixed_digits 6 n EmptyString.
Proof.
  intros Hn. unfold fmt06d.
  destruct (Z.ltb_spec n 0) as [Hneg|_]; [lia|].
  unfold str_of_nat.
  assert (H6 : 10 ^ Z.of_nat 6 = 1000000) by reflexivity.
  pose proof (below_power_of_ten n (proj1 Hn)) as Hlog.
  rewrite (decimal_digits_fuel _ 5) by lia.
  destruct (fixed_digits_padding 5 n EmptyString) as [j [He Hl]]; [lia|].
  rewrite He. unfold zfill. f_equal. f_equal. cbn [String.length] in Hl. lia.
Qed.

Lemma fmt06d_length (n : Z) : 0 <= n < 1000000 -> String.length (fmt06d n) = 6%nat.
Proof. intros Hn. rewrite fmt06d_fixed by assumption. apply fixed_digits_length. Qed.

Lemma fmt06d_lt (a b : Z) :
  0 <= a -> a < b -> b < 1000000 -> str_lt (fmt06d a) (fmt06d b).
Proof.
  intros Ha Hab Hb. unfold str_lt.
  rewrite !fmt06d_fixed by lia.
  assert (H6 : 10 ^ Z.of_nat 6 = 1000000) by reflexivity.
  rewrite fixed_digits_compare by lia.
  now apply Z.compare_lt_iff in Hab as ->.
Qed.

Lemma decimal_digits_nonempty (fuel : nat) :
  forall n acc, acc <> EmptyString -> decimal_digits fuel n acc <> EmptyString.
Proof.
  induction fuel as [|fuel IH]; intros n acc Hacc; simpl; [assumption|].
  destruct (n / 10 =? 0); [discriminate|]. apply IH. discriminate.
Qed.

Lemma fmt06d_nonempty (n : Z) : fmt06d n <> EmptyString.
Proof.
  unfold fmt06d. destruct (n <? 0); [discriminate|].
  unfold zfill, str_of_nat. cbn [decimal_digits].
  set (s := if _ =? 0 then _ else _).
  assert (Hs : s <> EmptyString).
  { unfold s. destruct (n / 10 =? 0); [discriminate|].
    apply decimal_digits_nonempty. discriminate. }
  destruct (zeros _); simpl; [assumption|discriminate].
Qed.
End DigitFacts.

(** ** Threaded comments: one insertion *)

Section AddCommentFacts.
Import Comments.

Lemma select_parent_found (d : db) (pr : comment) (post_id : Z) :
  NoDup (map c_id (comments d)) ->
  In pr (comments d) -> c_post_id pr = post_id ->
  select_parent d (c_id pr) post_id = Some pr.
Proof.
  unfold select_parent. intros Hnd Hin Hpost.
  induction (comments d) as [|c cs IH]; [contradiction|].
  simpl in Hnd |- *. inversion Hnd as [|? ? Hc Hnd']; subst.
  destruct Hin as [->|Hin].
  - now rewrite !Z.eqb_refl.
  - destruct (Z.eqb_spec (c_id c) (c_id pr)) as [He|Hne]; simpl.
    + exfalso. apply Hc. rewrite He. now apply in_map.
    + now apply IH.
Qed.

Lemma update_path_other_rows (cs : list comment) (cid : Z) (new_path : string) :
  (forall c, In c cs -> c_id c <> cid) ->
  map (fun c => if c_id c =? cid
                then mkComment (c_id c) (c_post_id c) (c_comment c) (c_author c)
                               (c_created_at c) (c_parent_id c) (c_depth c)
                               (Some new_path) (c_status c)
                else c) cs
  = cs.
Proof.
  induction cs as [|c cs IH]; intros H; simpl; [reflexivity|].
  destruct (Z.eqb_spec (c_id c) cid) as [He|_].
  - exfalso. exact (H c (or_introl eq_refl) He).
  - f_equal. apply IH. intros x Hx. apply H. now right.
Qed.

(** What a successful [add_comment] stores: the old rows and one new row. *)
Lemma add_comment_stores (d : db) (author : string) (post_id : Z) (text : string)
      (parent_id : option Z) (now : Z) :
  comments_keyed d ->
  String.eqb text "" = false ->
  values_fit post_id parent_id = true ->
  foreign_keys_hold d post_id parent_id = true ->
  let cid := comments_id_seq d in
  let '(depth, path) := depth_and_prefix d post_id parent_id in
  add_comment d author post_id text parent_id now
  = (Redirect "Comment posted.",
     set_comments d
       (comments d ++
          [mkComment cid post_id text author now parent_id (Some depth)
                     (Some (match path with
                            | None => Py.fmt06d cid
                            | Some prefix => (prefix ++ Py.fmt06d cid)%string
                            end))
                     (Some "public"%string)])
       (cid + 1)).
Proof.
  intros [Hnd Hids] Htext Hfit Hfk cid.
  unfold add_comment. rewrite Htext.
  destruct (depth_and_prefix d post_id parent_id) as [depth path].
  unfold insert_comment. rewrite Hfit, Hfk. cbn [negb]. fold cid.
  unfold update_path, set_comments. cbn [comments comments_id_seq users posts post_tags
                                           favorites favorites_id_seq user_reads].
  rewrite map_app. rewrite update_path_other_rows.
  - cbn [map c_id]. rewrite Z.eqb_refl. reflexivity.
  - intros c Hc. specialize (Hids c Hc). unfold cid. lia.
Qed.

(** When [add_comment] answers that the comment is posted. *)
Lemma add_comment_posted (d : db) (author : string) (post_id : Z) (text : string)
      (parent_id : option Z) (now : Z) :
  fst (add_comment d author post_id text parent_id now) = Redirect "Comment posted."
  <-> String.eqb text "" = false
      /\ values_fit post_id parent_id = true
      /\ foreign_keys_hold d post_id parent_id = true.
Proof.
  unfold add_comment.
  destruct (String.eqb text ""); [split; [discriminate|intros [H _]; discriminate]|].
  destruct (depth_and_prefix d post_id parent_id) as [depth path].
  unfold insert_comment.
  destruct (values_fit post_id parent_id); cbn [negb fst];
    [|split; [discriminate|intros [_ [H _]]; discriminate]].
  destruct (foreign_keys_hold d post_id parent_id); cbn [fst];
    [tauto|split; [discriminate|intros [_ [_ H]]; discriminate]].
Qed.
End AddCommentFacts.

(** C4, as stated, fails for a reply to a comment that stores no path,
    as the rows written before the column [path] was added do: the
    handler then starts from the parent's id in the format 06d.  The
    reply 2 to the comment 1 of legacy_parent_db is stored with the path
    000001/000002, which is not the parent's path followed by a slash and
    its own id, whether the missing path is read as no string or as the
    empty one. *)
Lemma C4_counterexample :
  c_path legacy_parent = None
  /\ Comments.add_comment legacy_parent_db "bob" 7 "a reply" (Some 1) 2
     = (Redirect "Comment posted.",
        thread_db [legacy_parent;
                   mkComment 2 7 "a reply" "bob" 2 (Some 1) (Some 1)
                             (Some "000001/000002"%string) (Some "public"%string)]
                  3)
  /\ ~ (exists pp, c_path legacy_parent = Some pp
                   /\ (pp ++ "/" ++ Py.fmt06d 2)%string = "000001/000002"%string)
  /\ ("" ++ "/" ++ Py.fmt06d 2)%string <> "000001/000002"%string.
Proof.
  split; [reflexivity|]. split; [reflexivity|]. split.
  - intros [pp [Hpp _]]. discriminate Hpp.
  - discriminate.
Qed.

(** C4, amended.  Whenever [add_comment] creates a comment: in reply to
    a comment of the same post it gets the parent's depth (0 when the
    parent stores none) plus one and, as path, the parent's path (the
    parent's id in the format 06d when the parent stores none), a slash
    and its own id in the format 06d; without parent it gets depth 0 and
    its own id in the format 06d as path.  The other rows are left as
    they were. *)
Theorem C4_new_comment_depth_and_path :
  forall (d : db) (author : string) (post_id : Z) (text : string)
         (parent_id : option Z) (now : Z),
    comments_keyed d ->
    fst (Comments.add_comment d author post_id text parent_id now)
    = Redirect "Comment posted." ->
    let cid := comments_id_seq d in
    let d' := snd (Comments.add_comment d author post_id text parent_id now) in
    (forall pr,
        parent_id = Some (c_id pr) ->
        In pr (comments d) ->
        c_post_id pr = post_id ->
        comments d'
        = comments d ++
            [mkComment cid post_id text author now parent_id
                       (Some (depth_or_zero pr + 1))
                       (Some (path_or_padded_id pr ++ "/" ++ Py.fmt06d cid)%string)
                       (Some "public"%string)])
    /\ (parent_id = None ->
        comments d'
        = comments d ++
            [mkComment cid post_id text author now None (Some 0)
                       (Some (Py.fmt06d cid)) (Some "public"%string)]).
Proof.
  intros d author post_id text parent_id now Hkey Hposted cid d'.
  apply add_comment_posted in Hposted. destruct Hposted as [Ht [Hfit Hfk]].
  pose proof (add_comment_stores d author post_id text parent_id now
                Hkey Ht Hfit Hfk) as Hadd.
  cbv zeta in Hadd. unfold Comments.depth_and_prefix in Hadd.
  destruct Hkey as [Hnd Hids].
  split.
  - intros pr Hparent Hin Hpost. subst parent_id.
    assert (Htruthy : Py.truthy_int (Some (c_id pr)) = true).
    { simpl. apply negb_true_iff, Z.eqb_neq. specialize (Hids pr Hin). lia. }
    rewrite Htruthy in Hadd. cbn [Py.or_zero] in Hadd.
    rewrite (select_parent_found d pr post_id Hnd Hin Hpost) in Hadd.
    unfold d'. rewrite Hadd. cbn [snd set_comments comments].
    unfold depth_or_zero, path_or_padded_id, Py.or_zero, Py.truthy_str.
    destruct (c_path pr) as [pp|]; [destruct (String.eqb pp ""); cbn [negb]|];
      now rewrite append_assoc.
  - intros ->. cbn [Py.truthy_int] in Hadd.
    unfold d'. rewrite Hadd. reflexivity.
Qed.

(** The thread of the example: root 42, its reply 43, and the reply 50 to
    that reply. *)
Lemma C4_witness :
  comments (snd (Comments.add_comment (thread_db [] 42) "alice" 7 "first" None 1))
  = [root_42]
  /\ comments (snd (Comments.add_comment (thread_db [root_42] 43) "bob" 7 "second"
                                         (Some 42) 2))
     = [root_42; reply_43]
  /\ comments (snd (Comments.add_comment (thread_db [root_42; reply_43] 50) "carol" 7
                                         "third" (Some 43) 3))
     = [root_42; reply_43;
        mkComment 50 7 "third" "carol" 3 (Some 43) (Some 2)
                  (Some "000042/000043/000050"%string) (Some "public"%string)].
Proof.
  split; [|split].
  - apply (proj2 (C4_new_comment_depth_and_path (thread_db [] 42) "alice" 7 "first"
                    None 1
                    (conj (NoDup_nil Z) (fun c (H : In c []) => match H with end))
                    eq_refl)).
    reflexivity.
  - assert (Hkey : comments_keyed (thread_db [root_42] 43)).
    { split; [simpl; nodup_literals|].
      simpl. intros c [<-|[]]. simpl. lia. }
    apply (proj1 (C4_new_comment_depth_and_path (thread_db [root_42] 43) "bob" 7
                    "second" (Some 42) 2 Hkey eq_refl) root_42);
      try reflexivity. now left.
  - assert (Hkey : comments_keyed (thread_db [root_42; reply_43] 50)).
    { split; [simpl; nodup_literals|].
      simpl. intros c [<-|[<-|[]]]; simpl; lia. }
    apply (proj1 (C4_new_comment_depth_and_path (thread_db [root_42; reply_43] 50)
                    "carol" 7 "third" (Some 43) 3 Hkey eq_refl) reply_43);
      try reflexivity. right. now left.
Defined.

(** ** The fallback for a parent that is not on the post *)

(** C8.  A reply on post 2 that names comment 1, which belongs to post 1,
    is stored with depth 0 and the root path of its own id, but its
    [parent_id] column still holds 1: a parent is recorded.  A reply that
    names an id no comment has is not stored at all: the insert breaks the
    foreign key of [parent_id] and the request fails. *)
Theorem C8_fallback_records_parent :
  Comments.add_comment two_posts_db "bob" 2 "hello" (Some 1) 20
  = (Redirect "Comment posted.",
     set_comments two_posts_db
       (comments two_posts_db ++
          [mkComment 2 2 "hello" "bob" 20 (Some 1) (Some 0) (Some "000002"%string)
                     (Some "public"%string)])
       3)
  /\ Comments.add_comment two_posts_db "bob" 2 "hello" (Some 99) 20
     = (ServerError, set_comments two_posts_db (comments two_posts_db) 3).
Proof. split; reflexivity. Qed.

(** ** Threaded comments: what every run of [add_comment] maintains *)

Lemma sorted_app {A : Type} (R : A -> A -> Prop) (l1 l2 : list A) :
  StronglySorted R l1 -> StronglySorted R l2 ->
  (forall x y, In x l1 -> In y l2 -> R x y) ->
  StronglySorted R (l1 ++ l2).
Proof.
  induction l1 as [|a l1 IH]; intros H1 H2 H12; simpl; [assumption|].
  apply StronglySorted_inv in H1. destruct H1 as [H1 Ha].
  constructor.
  - apply IH; [assumption|assumption|]. intros x y Hx Hy. apply H12; [now right|assumption].
  - rewrite Forall_forall in *. intros x Hx. apply in_app_or in Hx.
    destruct Hx as [Hx|Hx]; [now apply Ha|]. apply H12; [now left|assumption].
Qed.

Section SortedFacts.
Context {A : Type}.

Lemma sorted_filter (R : A -> A -> Prop) (f : A -> bool) (l : list A) :
  StronglySorted R l -> StronglySorted R (filter f l).
Proof.
  induction 1 as [|a l Hl IH Ha]; simpl; [constructor|].
  destruct (f a); [|assumption].
  constructor; [assumption|].
  rewrite Forall_forall in *. intros x Hx. apply filter_In in Hx. now apply Ha.
Qed.

(** In a sorted list the order of two members is the order of their places. *)
Lemma sorted_flat_map {B : Type} (Q : A -> A -> Prop) (R : B -> B -> Prop)
      (f : A -> list B) (l : list A) :
  StronglySorted Q l ->
  (forall a, In a l -> StronglySorted R (f a)) ->
  (forall a b x y, In a l -> In b l -> Q a b -> In x (f a) -> In y (f b) -> R x y) ->
  StronglySorted R (flat_map f l).
Proof.
  induction 1 as [|a l Hl IH Ha]; intros Hf HQ; simpl; [constructor|].
  apply sorted_app.
  - apply Hf. now left.
  - apply IH.
    + intros b Hb. apply Hf. now right.
    + intros b c x y Hb Hc. apply HQ; now right.
  - intros x y Hx Hy. apply in_flat_map in Hy. destruct Hy as [b [Hb Hy]].
    rewrite Forall_forall in Ha.
    apply (HQ a b x y); [now left|now right|now apply Ha|assumption|assumption].
Qed.

Lemma sorted_key_injective (key : A -> Z) (l : list A) :
  StronglySorted (fun a b => key a < key b) l ->
  forall a b, In a l -> In b l -> key a = key b -> a = b.
Proof.
  induction 1 as [|x l Hl IH Hx]; intros a b Ha Hb He; [contradiction|].
  rewrite Forall_forall in Hx.
  destruct Ha as [<-|Ha], Hb as [<-|Hb].
  - reflexivity.
  - specialize (Hx b Hb). lia.
  - specialize (Hx a Ha). lia.
  - now apply IH.
Qed.

Lemma sorted_key_NoDup (key : A -> Z) (l : list A) :
  StronglySorted (fun a b => key a < key b) l -> NoDup (map key l).
Proof.
  induction 1 as [|x l Hl IH Hx]; simpl; constructor; [|assumption].
  rewrite Forall_forall in Hx. intros Hin. apply in_map_iff in Hin.
  destruct Hin as [y [He Hy]]. specialize (Hx y Hy). lia.
Qed.

Lemma sorted_snoc (key : A -> Z) (l : list A) (x : A) :
  StronglySorted (fun a b => key a < key b) l ->
  (forall a, In a l -> key a < key x) ->
  StronglySorted (fun a b => key a < key b) (l ++ [x]).
Proof.
  intros Hl Hx. apply sorted_app; [assumption|repeat constructor|].
  intros a b Ha [<-|[]]. now apply Hx.
Qed.
End SortedFacts.

Section InvariantFacts.
Import Comments.

Lemma append_nonempty (a b : string) : b <> EmptyString -> (a ++ b)%string <> EmptyString.
Proof. destruct a; simpl; [auto|discriminate]. Qed.

Lemma linked_path (cs : list comment) (c : comment) :
  linked cs c ->
  Py.truthy_str (c_path c) = true /\ c_path c = Some (coalesce_path c).
Proof.
  unfold coalesce_path.
  intros [[p [_ [_ [_ Hp]]]]|[_ Hp]]; rewrite Hp; (split; [|reflexivity]); simpl;
    apply negb_true_iff, String.eqb_neq.
  - apply append_nonempty. discriminate.
  - apply fmt06d_nonempty.
Qed.

Lemma linked_snoc (cs : list comment) (x c : comment) :
  linked cs c ->
  (forall q, c_parent_id c = Some q -> q <> c_id x) ->
  linked (cs ++ [x]) c.
Proof.
  intros [[p [Hp Hrest]]|[Hroot Hpath]] Hx.
  - left. exists p. split; [apply in_or_app; now left|exact Hrest].
  - right. split; [|exact Hpath].
    intros p Hp Hpost Hpar. apply in_app_or in Hp. destruct Hp as [Hp|[<-|[]]].
    + exact (Hroot p Hp Hpost Hpar).
    + exact (Hx _ Hpar eq_refl).
Qed.

Lemma comments_inv_keyed (d : db) : comments_inv d -> comments_keyed d.
Proof.
  intros Hinv. split; [|apply (inv_ids d Hinv)].
  apply sorted_key_NoDup, (inv_sorted d Hinv).
Qed.

Lemma foreign_key_parent (d : db) (post_id q : Z) :
  comments_inv d ->
  foreign_keys_hold d post_id (Some q) = true ->
  1 <= q < comments_id_seq d.
Proof.
  intros Hinv Hfk. unfold foreign_keys_hold in Hfk.
  apply andb_true_iff in Hfk. destruct Hfk as [_ Hfk].
  apply existsb_exists in Hfk. destruct Hfk as [x [Hx He]].
  apply Z.eqb_eq in He. subst q. now apply (inv_ids d Hinv).
Qed.

(** The row a successful insert appends is linked into its thread. *)
Lemma new_row_linked (d : db) (post_id : Z) (text author : string) (now : Z)
      (parent_id : option Z) (depth : Z) (path : option string) :
  comments_inv d ->
  depth_and_prefix d post_id parent_id = (depth, path) ->
  foreign_keys_hold d post_id parent_id = true ->
  let row :=
    mkComment (comments_id_seq d) post_id text author now parent_id (Some depth)
              (Some (match path with
                     | None => Py.fmt06d (comments_id_seq d)
                     | Some prefix => (prefix ++ Py.fmt06d (comments_id_seq d))%string
                     end))
              (Some "public"%string) in
  linked (comments d ++ [row]) row.
Proof.
  intros Hinv Hdp Hfk row. unfold depth_and_prefix in Hdp.
  destruct (Py.truthy_int parent_id) eqn:Htr.
  - destruct parent_id as [q|]; [|discriminate]. cbn [Py.or_zero] in Hdp.
    destruct (select_parent d q post_id) as [pr|] eqn:Hsel.
    + injection Hdp as <- <-. left. exists pr.
      apply find_some in Hsel. destruct Hsel as [Hin Hb].
      apply andb_true_iff in Hb. destruct Hb as [Hq Hpost].
      apply Z.eqb_eq in Hq, Hpost.
      destruct (linked_path _ _ (inv_linked d Hinv pr Hin)) as [Htruthy Hpath].
      repeat split.
      * apply in_or_app. now left.
      * simpl. now rewrite Hq.
      * exact Hpost.
      * simpl. rewrite Htruthy, Hpath. now rewrite append_assoc.
    + injection Hdp as <- <-. right. split; [|reflexivity].
      intros p Hp Hpost Hpar. simpl in Hpost, Hpar. injection Hpar as Hq.
      apply in_app_or in Hp. destruct Hp as [Hp|[<-|[]]].
      * pose proof (find_none _ _ Hsel p Hp) as Hb. cbn beta in Hb.
        rewrite <- Hq, Hpost, !Z.eqb_refl in Hb. discriminate.
      * pose proof (foreign_key_parent d post_id q Hinv Hfk) as Hr.
        simpl in Hq. lia.
  - injection Hdp as <- <-. right. split; [|reflexivity].
    intros p Hp Hpost Hpar. simpl in Hpar.
    destruct parent_id as [q|]; [|discriminate].
    injection Hpar as Hq. simpl in Htr.
    apply negb_false_iff, Z.eqb_eq in Htr. subst q.
    pose proof (foreign_key_parent d post_id 0 Hinv Hfk). lia.
Qed.

Lemma handle_preserves (d : db) (r : comment_request) :
  comments_inv d -> comments_inv (handle d r).
Proof.
  intros Hinv. unfold handle.
  destruct (String.eqb (rq_text r) "") eqn:Htext.
  { unfold add_comment. now rewrite Htext. }
  destruct (values_fit (rq_post_id r) (rq_parent_id r)) eqn:Hfit.
  2:{ unfold add_comment. rewrite Htext.
      destruct (depth_and_prefix d (rq_post_id r) (rq_parent_id r)) as [depth path].
      unfold insert_comment. now rewrite Hfit. }
  destruct (foreign_keys_hold d (rq_post_id r) (rq_parent_id r)) eqn:Hfk.
  - pose proof (add_comment_stores d (rq_author r) (rq_post_id r) (rq_text r)
                  (rq_parent_id r) (rq_now r) (comments_inv_keyed d Hinv) Htext Hfit Hfk)
      as Hadd.
    cbv zeta in Hadd.
    pose proof (new_row_linked d (rq_post_id r) (rq_text r) (rq_author r) (rq_now r)
                  (rq_parent_id r)) as Hnew.
    destruct (depth_and_prefix d (rq_post_id r) (rq_parent_id r)) as [depth path].
    specialize (Hnew depth path Hinv eq_refl Hfk). cbv zeta in Hnew.
    rewrite Hadd. cbn [snd].
    set (row := mkComment _ _ _ _ _ _ _ _ _) in *.
    pose proof (inv_seq d Hinv) as Hseq.
    pose proof (inv_ids d Hinv) as Hids.
    constructor; cbn [set_comments comments comments_id_seq].
    + lia.
    + apply sorted_snoc; [apply (inv_sorted d Hinv)|].
      intros a Ha. specialize (Hids a Ha). simpl. lia.
    + intros c Hc. apply in_app_or in Hc. destruct Hc as [Hc|[<-|[]]].
      * specialize (Hids c Hc). lia.
      * simpl. lia.
    + intros c Hc. apply in_app_or in Hc. destruct Hc as [Hc|[<-|[]]].
      * now apply (inv_public d Hinv).
      * reflexivity.
    + intros c q Hc Hq. apply in_app_or in Hc. destruct Hc as [Hc|[<-|[]]].
      * now apply (inv_parent d Hinv).
      * simpl in Hq |- *. rewrite Hq in Hfk.
        pose proof (foreign_key_parent d _ q Hinv Hfk). lia.
    + intros c Hc. apply in_app_or in Hc. destruct Hc as [Hc|[<-|[]]].
      * apply linked_snoc; [now apply (inv_linked d Hinv)|].
        intros q Hq. pose proof (inv_parent d Hinv c q Hc Hq).
        specialize (Hids c Hc). simpl. lia.
      * exact Hnew.
  - unfold add_comment. rewrite Htext.
    destruct (depth_and_prefix d (rq_post_id r) (rq_parent_id r)) as [depth path].
    unfold insert_comment. rewrite Hfit, Hfk. cbn [negb snd].
    pose proof (inv_seq d Hinv) as Hseq.
    pose proof (inv_ids d Hinv) as Hids.
    constructor; cbn [set_comments comments comments_id_seq].
    + lia.
    + apply (inv_sorted d Hinv).
    + intros c Hc. specialize (Hids c Hc). lia.
    + apply (inv_public d Hinv).
    + apply (inv_parent d Hinv).
    + apply (inv_linked d Hinv).
Qed.

Lemma handle_seq_grows (d : db) (r : comment_request) :
  comments_id_seq d <= comments_id_seq (handle d r).
Proof.
  unfold handle, add_comment.
  destruct (String.eqb (rq_text r) ""); [simpl; lia|].
  destruct (depth_and_prefix d (rq_post_id r) (rq_parent_id r)) as [depth path].
  unfold insert_comment.
  destruct (values_fit (rq_post_id r) (rq_parent_id r)); cbn [negb]; [|simpl; lia].
  destruct (foreign_keys_hold d (rq_post_id r) (rq_parent_id r)); simpl; lia.
Qed.

Lemma run_preserves (rs : list comment_request) :
  forall d, comments_inv d -> comments_inv (run d rs).
Proof.
  induction rs as [|r rs IH]; intros d Hinv; [exact Hinv|].
  simpl. apply IH. now apply handle_preserves.
Qed.

Lemma empty_table_inv (d : db) :
  comments d = [] -> 1 <= comments_id_seq d -> comments_inv d.
Proof.
  intros He Hseq. constructor; rewrite ?He.
  - exact Hseq.
  - apply SSorted_nil.
  - intros c [].
  - intros c [].
  - intros c q [].
  - intros c [].
Qed.
End InvariantFacts.

(** ** Threaded comments: the order of a thread *)

Section OrderFacts.
Context {A : Type} (R : A -> A -> Prop).
Hypothesis R_irrefl : forall x, ~ R x x.
Hypothesis R_trans : forall x y z, R x y -> R y z -> R x z.

Lemma sorted_comparable (l : list A) :
  StronglySorted R l ->
  forall a b, In a l -> In b l -> a = b \/ R a b \/ R b a.
Proof.
  induction 1 as [|x l Hl IH Hx]; intros a b Ha Hb; [contradiction|].
  rewrite Forall_forall in Hx.
  destruct Ha as [<-|Ha], Hb as [<-|Hb]; auto.
Qed.

Lemma sorted_NoDup (l : list A) : StronglySorted R l -> NoDup l.
Proof.
  induction 1 as [|x l Hl IH Hx]; constructor; [|assumption].
  rewrite Forall_forall in Hx. intros Hin. exact (R_irrefl x (Hx x Hin)).
Qed.

(** A strictly sorted list is determined by its members. *)
Lemma sorted_perm_unique (l1 : list A) :
  forall l2,
    StronglySorted R l1 -> StronglySorted R l2 -> Permutation l1 l2 -> l1 = l2.
Proof.
  induction l1 as [|a l1 IH]; intros l2 H1 H2 Hp.
  - apply Permutation_nil in Hp. now subst.
  - destruct l2 as [|b l2].
    + apply Permutation_sym, Permutation_nil in Hp. discriminate.
    + apply StronglySorted_inv in H1, H2.
      destruct H1 as [H1 Ha], H2 as [H2 Hb]. rewrite Forall_forall in Ha, Hb.
      assert (Hab : a = b).
      { assert (Hin1 : In a (b :: l2)) by (apply (Permutation_in _ Hp); now left).
        assert (Hin2 : In b (a :: l1))
          by (apply (Permutation_in _ (Permutation_sym Hp)); now left).
        destruct Hin1 as [<-|Hin1]; [reflexivity|].
        destruct Hin2 as [<-|Hin2]; [reflexivity|].
        exfalso. apply (R_irrefl a). apply R_trans with b; auto. }
      subst b. f_equal. apply IH; [assumption|assumption|].
      now apply Permutation_cons_inv in Hp.
Qed.
End OrderFacts.

Lemma sorted_strengthen {A : Type} (R S : A -> A -> Prop) (l : list A) :
  StronglySorted R l -> NoDup l ->
  (forall a b, In a l -> In b l -> a <> b -> R a b -> S a b) ->
  StronglySorted S l.
Proof.
  induction 1 as [|x l Hl IH Hx]; intros Hnd HRS; [constructor|].
  inversion Hnd as [|? ? Hnx Hnd']; subst.
  constructor.
  - apply IH; [assumption|]. intros a b Ha Hb. apply HRS; now right.
  - rewrite Forall_forall in *. intros y Hy.
    apply HRS; [now left|now right| |now apply Hx].
    intros ->. contradiction.
Qed.

Lemma filter_length_lt {A : Type} (f g : A -> bool) (l : list A) (p : A) :
  (forall x, f x = true -> g x = true) ->
  In p l -> f p = false -> g p = true ->
  (List.length (filter f l) < List.length (filter g l))%nat.
Proof.
  intros Hfg. induction l as [|a l IH]; intros Hp Hf Hg; [contradiction|].
  assert (Hle : (List.length (filter f l) <= List.length (filter g l))%nat).
  { clear - Hfg. induction l as [|b l IHl]; simpl; [lia|].
    destruct (f b) eqn:Hb.
    - rewrite (Hfg b Hb). simpl. lia.
    - destruct (g b); simpl; lia. }
  simpl. destruct Hp as [->|Hp].
  - rewrite Hf, Hg. simpl. lia.
  - specialize (IH Hp Hf Hg). destruct (f a) eqn:Ha.
    + rewrite (Hfg a Ha). simpl. lia.
    + destruct (g a); simpl; lia.
Qed.

Lemma append_empty (s : string) : (s ++ "")%string = s.
Proof. induction s as [|c s IH]; simpl; [reflexivity|now rewrite IH]. Qed.

Section CommentOrder.
Import Comments.

Lemma comment_leb_total (a b : comment) :
  comment_leb a b = false -> comment_leb b a = true.
Proof.
  unfold comment_leb.
  rewrite (str_compare_flip (coalesce_path a) (coalesce_path b)).
  destruct (String.compare (coalesce_path a) (coalesce_path b)); simpl;
    try discriminate; auto.
  intros H. apply Z.leb_gt in H. apply Z.leb_le. lia.
Qed.

Lemma comment_leb_trans (a b c : comment) :
  comment_leb a b = true -> comment_leb b c = true -> comment_leb a c = true.
Proof.
  unfold comment_leb.
  destruct (String.compare (coalesce_path a) (coalesce_path b)) eqn:Hab;
    try discriminate;
    destruct (String.compare (coalesce_path b) (coalesce_path c)) eqn:Hbc;
    try discriminate; intros H1 H2.
  - apply str_compare_eq in Hab, Hbc. rewrite Hab, Hbc, str_compare_refl.
    apply Z.leb_le in H1, H2. apply Z.leb_le. lia.
  - apply str_compare_eq in Hab. now rewrite Hab, Hbc.
  - apply str_compare_eq in Hbc. now rewrite <- Hbc, Hab.
  - now rewrite (str_lt_trans _ _ _ Hab Hbc).
Qed.
End CommentOrder.

Section ThreadFacts.
Import Comments.
Variable cs : list comment.
Hypothesis Hok : thread_ok cs.

Lemma reply_parent_unique (p q c : comment) :
  In p cs -> In q cs -> is_reply_to p c = true -> is_reply_to q c = true -> p = q.
Proof.
  unfold is_reply_to. intros Hp Hq H1 H2.
  destruct (c_parent_id c) as [pid|]; [|discriminate].
  apply Z.eqb_eq in H1, H2.
  apply (sorted_key_injective c_id cs (th_sorted cs Hok)); [assumption|assumption|lia].
Qed.

Lemma child_key (c x : comment) :
  In c cs -> In x (children cs c) ->
  In x cs /\ c_id c < c_id x
  /\ coalesce_path x = (coalesce_path c ++ "/" ++ Py.fmt06d (c_id x))%string.
Proof.
  intros Hc Hx. apply filter_In in Hx. destruct Hx as [Hx Hrep].
  split; [assumption|].
  destruct (th_linked cs Hok x Hx) as [[p [Hp [Hrep' [Hlt Hkey]]]]|[Hroot _]].
  - assert (p = c) by (eapply reply_parent_unique; eassumption). subst p. now split.
  - exfalso. unfold is_root in Hroot. apply negb_true_iff in Hroot.
    assert (Hex : existsb (fun p => is_reply_to p x) cs = true).
    { apply existsb_exists. now exists c. }
    congruence.
Qed.

Lemma root_key (r : comment) :
  In r (roots cs) -> In r cs /\ coalesce_path r = Py.fmt06d (c_id r).
Proof.
  intros Hr. apply filter_In in Hr. destruct Hr as [Hr Hroot].
  split; [assumption|].
  destruct (th_linked cs Hok r Hr) as [[p [Hp [Hrep _]]]|[_ Hkey]]; [|assumption].
  exfalso. unfold is_root in Hroot. apply negb_true_iff in Hroot.
  assert (Hex : existsb (fun p => is_reply_to p r) cs = true).
  { apply existsb_exists. now exists p. }
  congruence.
Qed.

(** Every member of a subtree is a comment of the thread whose path
    extends the path of the subtree's root. *)
Lemma subtree_members (fuel : nat) :
  forall c x, In c cs -> In x (subtree fuel cs c) ->
              In x cs /\ exists s, coalesce_path x = (coalesce_path c ++ s)%string.
Proof.
  induction fuel as [|fuel IH]; intros c x Hc Hx; [contradiction|].
  simpl in Hx. destruct Hx as [<-|Hx].
  - split; [assumption|]. exists EmptyString. now rewrite append_empty.
  - apply in_flat_map in Hx. destruct Hx as [ch [Hch Hx]].
    destruct (child_key c ch Hc Hch) as [Hin [_ Hkey]].
    destruct (IH ch x Hin Hx) as [Hxin [t Ht]].
    split; [assumption|].
    exists ("/" ++ Py.fmt06d (c_id ch) ++ t)%string.
    rewrite Ht, Hkey. now rewrite !append_assoc.
Qed.

(** Two strings that continue one prefix with the ids of two comments
    are in the order of the ids. *)
Lemma sibling_paths (prefix : string) (a b : comment) (s t : string) :
  In a cs -> In b cs -> c_id a < c_id b ->
  str_lt ((prefix ++ Py.fmt06d (c_id a)) ++ s) ((prefix ++ Py.fmt06d (c_id b)) ++ t).
Proof.
  intros Ha Hb Hlt. unfold str_lt.
  pose proof (th_ids cs Hok a Ha) as Hia. pose proof (th_ids cs Hok b Hb) as Hib.
  rewrite !append_assoc, str_compare_app.
  apply str_lt_same_length.
  - now rewrite !fmt06d_length.
  - apply fmt06d_lt; lia.
Qed.

Lemma subtree_sorted (fuel : nat) :
  forall c, In c cs -> StronglySorted path_lt (subtree fuel cs c).
Proof.
  induction fuel as [|fuel IH]; intros c Hc; simpl; [constructor|].
  constructor.
  - apply sorted_flat_map with (Q := fun a b => c_id a < c_id b).
    + apply sorted_filter, (th_sorted cs Hok).
    + intros ch Hch. apply IH. now apply (child_key c ch Hc).
    + intros a b x y Ha Hb Hab Hx Hy.
      destruct (child_key c a Hc Ha) as [Hain [_ Hka]].
      destruct (child_key c b Hc Hb) as [Hbin [_ Hkb]].
      destruct (subtree_members fuel a x Hain Hx) as [_ [s Hs]].
      destruct (subtree_members fuel b y Hbin Hy) as [_ [t Ht]].
      unfold path_lt. rewrite Hs, Ht, Hka, Hkb.
      rewrite <- !(append_assoc (coalesce_path c) "/").
      now apply sibling_paths.
  - apply Forall_forall. intros x Hx.
    apply in_flat_map in Hx. destruct Hx as [ch [Hch Hx]].
    destruct (child_key c ch Hc Hch) as [Hin [_ Hkey]].
    destruct (subtree_members fuel ch x Hin Hx) as [_ [t Ht]].
    unfold path_lt. rewrite Ht, Hkey, !append_assoc.
    apply str_lt_extension. discriminate.
Qed.

Lemma preorder_sorted : StronglySorted path_lt (preorder cs).
Proof.
  unfold preorder.
  apply sorted_flat_map with (Q := fun a b => c_id a < c_id b).
  - apply sorted_filter, (th_sorted cs Hok).
  - intros r Hr. apply subtree_sorted. now apply root_key.
  - intros a b x y Ha Hb Hab Hx Hy.
    destruct (root_key a Ha) as [Hain Hka]. destruct (root_key b Hb) as [Hbin Hkb].
    destruct (subtree_members _ a x Hain Hx) as [_ [s Hs]].
    destruct (subtree_members _ b y Hbin Hy) as [_ [t Ht]].
    unfold path_lt. rewrite Hs, Ht, Hka, Hkb.
    now apply (sibling_paths EmptyString).
Qed.

Lemma preorder_members (x : comment) : In x (preorder cs) -> In x cs.
Proof.
  unfold preorder. intros Hx. apply in_flat_map in Hx. destruct Hx as [r [Hr Hx]].
  exact (proj1 (subtree_members (List.length cs) r x (proj1 (root_key r Hr)) Hx)).
Qed.

Lemma subtree_fuel_mono (f : nat) :
  forall f' c x, (f <= f')%nat -> In x (subtree f cs c) -> In x (subtree f' cs c).
Proof.
  induction f as [|f IH]; intros f' c x Hle Hx; [contradiction|].
  destruct f' as [|f']; [lia|].
  simpl in Hx |- *. destruct Hx as [Hx|Hx]; [now left|right].
  apply in_flat_map in Hx. destruct Hx as [ch [Hch Hx]].
  apply in_flat_map. exists ch. split; [assumption|]. apply IH with (f' := f'); [lia|assumption].
Qed.

Lemma subtree_reaches_child (f : nat) :
  forall r p c, In p (subtree f cs r) -> In c (children cs p) ->
                In c (subtree (S f) cs r).
Proof.
  induction f as [|f IH]; intros r p c Hp Hc; [contradiction|].
  simpl in Hp. destruct Hp as [<-|Hp].
  - change (In c (r :: flat_map (subtree (S f) cs) (children cs r))).
    right. apply in_flat_map. exists c. split; [assumption|now left].
  - apply in_flat_map in Hp. destruct Hp as [ch [Hch Hp]].
    change (In c (r :: flat_map (subtree (S f) cs) (children cs r))).
    right. apply in_flat_map. exists ch. split; [assumption|].
    now apply (IH ch p c).
Qed.

Lemma earlier_parent (p c : comment) :
  In p cs -> c_id p < c_id c -> (earlier cs p < earlier cs c)%nat.
Proof.
  intros Hp Hlt. unfold earlier. apply filter_length_lt with p.
  - intros x Hx. apply Z.ltb_lt in Hx. apply Z.ltb_lt. lia.
  - assumption.
  - apply Z.ltb_irrefl.
  - now apply Z.ltb_lt.
Qed.

Lemma earlier_bound (c : comment) : In c cs -> (earlier cs c < List.length cs)%nat.
Proof.
  intros Hc. unfold earlier. apply filter_length_some with c; [assumption|].
  apply Z.ltb_irrefl.
Qed.

Lemma covered (n : nat) :
  forall c, In c cs -> (earlier cs c < n)%nat ->
            exists r, In r (roots cs) /\ In c (subtree n cs r).
Proof.
  induction n as [|n IH]; intros c Hc Hn; [lia|].
  destruct (th_linked cs Hok c Hc) as [[p [Hp [Hrep [Hlt _]]]]|[Hroot _]].
  - pose proof (earlier_parent p c Hp Hlt) as He.
    destruct (IH p Hp) as [r [Hr Hpr]]; [lia|].
    exists r. split; [assumption|].
    apply subtree_reaches_child with p; [assumption|].
    apply filter_In. now split.
  - exists c. split; [apply filter_In; now split|now left].
Qed.

Lemma preorder_complete (c : comment) : In c cs -> In c (preorder cs).
Proof.
  intros Hc. destruct (covered (List.length cs) c Hc (earlier_bound c Hc)) as [r [Hr Hin]].
  unfold preorder. apply in_flat_map. now exists r.
Qed.

Lemma path_lt_irrefl (x : comment) : ~ path_lt x x.
Proof. apply str_lt_irrefl. Qed.

Lemma path_lt_trans (x y z : comment) : path_lt x y -> path_lt y z -> path_lt x z.
Proof. apply str_lt_trans. Qed.

Lemma path_injective (a b : comment) :
  In a cs -> In b cs -> coalesce_path a = coalesce_path b -> a = b.
Proof.
  intros Ha Hb He.
  destruct (sorted_comparable path_lt (preorder cs) preorder_sorted a b
              (preorder_complete a Ha) (preorder_complete b Hb)) as [H|[H|H]];
    [assumption| |]; exfalso; unfold path_lt in H; rewrite He in H;
    exact (str_lt_irrefl _ H).
Qed.

Lemma thread_NoDup : NoDup cs.
Proof.
  apply NoDup_map_inv with (f := c_id). apply sorted_key_NoDup, (th_sorted cs Hok).
Qed.

(** Sorting the thread by path (and creation time) is its pre-order
    traversal. *)
Lemma thread_order : order_by comment_leb cs = preorder cs.
Proof.
  apply (sorted_perm_unique path_lt path_lt_irrefl path_lt_trans).
  - apply sorted_strengthen with (R := fun a b => comment_leb a b = true).
    + apply order_by_sorted; [apply comment_leb_total|apply comment_leb_trans].
    + apply (Permutation_NoDup (Permutation_sym (order_by_perm comment_leb cs))).
      apply thread_NoDup.
    + intros a b Ha Hb Hne Hle. apply order_by_in in Ha, Hb.
      unfold path_lt, str_lt. unfold comment_leb in Hle.
      destruct (String.compare (coalesce_path a) (coalesce_path b)) eqn:Hc;
        [|reflexivity|discriminate].
      apply str_compare_eq in Hc. exfalso. apply Hne. now apply path_injective.
  - apply preorder_sorted.
  - apply Permutation_trans with cs; [apply order_by_perm|].
    apply NoDup_Permutation.
    + apply thread_NoDup.
    + apply (sorted_NoDup path_lt path_lt_irrefl), preorder_sorted.
    + intros x. split; [apply preorder_complete|apply preorder_members].
Qed.
End ThreadFacts.

Section ThreadOfTable.
Import Comments.
Variable d : db.
Hypothesis Hinv : comments_inv d.
Hypothesis Hseq : comments_id_seq d <= 1000000.

Lemma thread_In (post_id : Z) (c : comment) :
  In c (thread d post_id) <-> In c (comments d) /\ c_post_id c = post_id.
Proof. unfold thread. now rewrite filter_In, Z.eqb_eq. Qed.

Lemma thread_of_table (post_id : Z) : thread_ok (thread d post_id).
Proof.
  constructor.
  - apply sorted_filter, (inv_sorted d Hinv).
  - intros c Hc. apply thread_In in Hc. destruct Hc as [Hc _].
    pose proof (inv_ids d Hinv c Hc). lia.
  - intros c Hc. apply thread_In in Hc. destruct Hc as [Hc Hpost].
    destruct (inv_linked d Hinv c Hc) as [[p [Hp [Hpar [Hpp Hpath]]]]|[Hroot Hpath]].
    + left. exists p. repeat split.
      * apply thread_In. split; [assumption|congruence].
      * unfold is_reply_to. rewrite Hpar. apply Z.eqb_refl.
      * exact (inv_parent d Hinv c _ Hc Hpar).
      * unfold coalesce_path at 1. now rewrite Hpath.
    + right. split.
      * unfold is_root. apply negb_true_iff, not_true_is_false.
        intros Hex. apply existsb_exists in Hex. destruct Hex as [p [Hp Hrep]].
        apply thread_In in Hp. destruct Hp as [Hp Hpp].
        unfold is_reply_to in Hrep.
        destruct (c_parent_id c) as [pid|] eqn:Hpar; [|discriminate].
        apply Z.eqb_eq in Hrep. subst pid.
        apply (Hroot p Hp); [congruence|reflexivity].
      * unfold coalesce_path. now rewrite Hpath.
Qed.

Lemma post_detail_comments_thread (post_id : Z) (is_mod : bool) :
  post_detail_comments d post_id is_mod = order_by comment_leb (thread d post_id).
Proof.
  unfold post_detail_comments, thread. f_equal.
  apply filter_ext_in. intros c Hc.
  rewrite (inv_public d Hinv c Hc). cbn [is_public].
  rewrite String.eqb_refl, orb_true_r, andb_true_r. reflexivity.
Qed.
End ThreadOfTable.

(** C3, as stated, fails: the id sequence of [comments] is shared by all
    posts and never reuses a value, and once it passes 999999 the format
    06d gives seven digits.  Two root comments of post 7 with the ids
    999999 and 1000000 are listed with the later one first, while the
    pre-order traversal has them in creation order. *)
Lemma C3_counterexample :
  map Comments.coalesce_path (comments seven_digit_db) = ["999999"; "1000000"]%string
  /\ map c_id (Comments.post_detail_comments seven_digit_db 7 true) = [1000000; 999999]
  /\ map c_id (Comments.preorder (Comments.thread seven_digit_db 7)) = [999999; 1000000]
  /\ Comments.post_detail_comments seven_digit_db 7 true
     <> Comments.preorder (Comments.thread seven_digit_db 7).
Proof.
  repeat split; try (vm_compute; reflexivity).
  intros H. apply (f_equal (map c_id)) in H. vm_compute in H. discriminate H.
Qed.

(** C3, amended.  Start from an empty comments table and run any
    sequence of [add_comment] requests.  As long as the id sequence has
    not passed one million, the comment query of the post page (the rows
    of the post ordered by path, then creation time) returns, for every
    post and every viewer, the pre-order traversal of the post's comment
    tree: each comment, followed by the subtrees of its replies in
    creation order. *)
Theorem C3_paths_sort_in_preorder :
  forall (d0 : db) (requests : list Comments.comment_request),
    comments d0 = [] ->
    1 <= comments_id_seq d0 ->
    comments_id_seq (Comments.run d0 requests) <= 1000000 ->
    forall (post_id : Z) (is_mod : bool),
      Comments.post_detail_comments (Comments.run d0 requests) post_id is_mod
      = Comments.preorder (Comments.thread (Comments.run d0 requests) post_id).
Proof.
  intros d0 requests Hempty Hstart Hseq post_id is_mod.
  pose proof (run_preserves requests d0 (empty_table_inv d0 Hempty Hstart)) as Hinv.
  rewrite (post_detail_comments_thread _ Hinv).
  apply thread_order. now apply thread_of_table.
Qed.

(** A thread of five comments: the reply 45 to 43 is listed before the
    later reply 44 to the root. *)
Lemma C3_witness :
  map c_id (Comments.post_detail_comments
              (Comments.run (thread_db [] 42) thread_requests) 7 false)
  = [42; 43; 45; 44; 46].
Proof.
  rewrite (C3_paths_sort_in_preorder (thread_db [] 42) thread_requests).
  - reflexivity.
  - reflexivity.
  - intros H. discriminate H.
  - intros H. vm_compute in H. discriminate H.
Defined.

(** ** Deleting comments: the cascade on [parent_id] *)
Section CascadeFacts.
Import Cascade.

Lemma mem_app (x : Z) (a b : list Z) :
  Filter.mem x (a ++ b) = Filter.mem x a || Filter.mem x b.
Proof. apply existsb_app. Qed.

Lemma cascade_grows (fuel : nat) (rows : list comment) :
  forall doomed x,
    Filter.mem x doomed = true -> Filter.mem x (cascade fuel rows doomed) = true.
Proof.
  induction fuel as [|fuel IH]; intros doomed x Hx; simpl; [assumption|].
  destruct (map c_id _) as [|y next]; [assumption|].
  apply IH. rewrite mem_app, Hx. reflexivity.
Qed.

Lemma refers_to_grows (c : comment) (a b : list Z) :
  (forall x, Filter.mem x a = true -> Filter.mem x b = true) ->
  refers_to a c = true -> refers_to b c = true.
Proof. unfold refers_to. destruct (c_parent_id c); auto. Qed.

Lemma filter_length_bound {A : Type} (f : A -> bool) (l : list A) :
  (List.length (filter f l) <= List.length l)%nat.
Proof.
  induction l as [|a l IH]; simpl; [lia|]. destruct (f a); simpl; lia.
Qed.

(** Once the rounds stop no remaining row refers to a deleted one. *)
Lemma cascade_closed (rows : list comment) :
  forall fuel doomed,
    (List.length (filter (fun c => negb (Filter.mem (c_id c) doomed)) rows) <= fuel)%nat ->
    forall c, In c rows ->
              Filter.mem (c_id c) (cascade fuel rows doomed) = false ->
              refers_to (cascade fuel rows doomed) c = false.
Proof.
  induction fuel as [|fuel IH]; intros doomed Hlen c Hc Hm.
  - exfalso. simpl in Hm.
    assert (Hin : In c (filter (fun c => negb (Filter.mem (c_id c) doomed)) rows)).
    { apply filter_In. split; [assumption|]. now rewrite Hm. }
    destruct (filter _ rows); [contradiction|simpl in Hlen; lia].
  - simpl in *.
    destruct (map c_id (filter (fun c0 => negb (Filter.mem (c_id c0) doomed)
                                          && refers_to doomed c0) rows))
      as [|y next] eqn:Hnext.
    + destruct (refers_to doomed c) eqn:Hr; [|reflexivity].
      exfalso.
      assert (Hin : In (c_id c)
                       (map c_id (filter (fun c0 => negb (Filter.mem (c_id c0) doomed)
                                                    && refers_to doomed c0) rows))).
      { apply in_map, filter_In. split; [assumption|]. now rewrite Hm, Hr. }
      rewrite Hnext in Hin. contradiction.
    + apply IH; [|assumption|assumption].
      assert (Hy : In y (map c_id (filter (fun c0 => negb (Filter.mem (c_id c0) doomed)
                                                     && refers_to doomed c0) rows))).
      { rewrite Hnext. now left. }
      apply in_map_iff in Hy. destruct Hy as [c0 [Hid Hc0]].
      apply filter_In in Hc0. destruct Hc0 as [Hc0 Hb].
      apply andb_true_iff in Hb. destruct Hb as [Hfresh _].
      assert (Hlt : (List.length (filter (fun c1 => negb (Filter.mem (c_id c1)
                                                              (doomed ++ y :: next))) rows)
                     < List.length (filter (fun c1 => negb (Filter.mem (c_id c1) doomed))
                                           rows))%nat).
      { apply filter_length_lt with (p := c0).
        - intros x Hx. rewrite mem_app in Hx.
          destruct (Filter.mem (c_id x) doomed); [discriminate|reflexivity].
        - assumption.
        - rewrite mem_app. apply negb_false_iff, orb_true_iff. right.
          apply mem_In. left. symmetry. exact Hid.
        - exact Hfresh. }
      lia.
Qed.

(** A deleted id was selected or is the id of a row that refers to a
    deleted row. *)
Lemma cascade_sound (rows : list comment) :
  forall fuel doomed x,
    Filter.mem x (cascade fuel rows doomed) = true ->
    Filter.mem x doomed = true
    \/ exists c, In c rows /\ c_id c = x
                 /\ refers_to (cascade fuel rows doomed) c = true.
Proof.
  induction fuel as [|fuel IH]; intros doomed x Hx; simpl in *; [now left|].
  destruct (map c_id (filter (fun c0 => negb (Filter.mem (c_id c0) doomed)
                                        && refers_to doomed c0) rows))
    as [|y next] eqn:Hnext; [now left|].
  destruct (IH _ _ Hx) as [Hm|Hex]; [|now right].
  rewrite mem_app in Hm. apply orb_true_iff in Hm. destruct Hm as [Hm|Hm]; [now left|].
  right. apply mem_In in Hm. rewrite <- Hnext in Hm.
  apply in_map_iff in Hm. destruct Hm as [c [Hid Hc]].
  apply filter_In in Hc. destruct Hc as [Hc Hb].
  apply andb_true_iff in Hb. destruct Hb as [_ Hr].
  exists c. repeat split; [assumption|assumption|].
  apply refers_to_grows with (a := doomed); [|assumption].
  intros z Hz. apply cascade_grows. rewrite mem_app, Hz. reflexivity.
Qed.

(** Every deleted id was selected or is the id of a row. *)
Lemma cascade_ids (rows : list comment) :
  forall fuel doomed x,
    Filter.mem x (cascade fuel rows doomed) = true ->
    Filter.mem x doomed = true \/ In x (map c_id rows).
Proof.
  induction fuel as [|fuel IH]; intros doomed x Hx; simpl in *; [now left|].
  destruct (map c_id (filter (fun c0 => negb (Filter.mem (c_id c0) doomed)
                                        && refers_to doomed c0) rows))
    as [|y next] eqn:Hnext; [now left|].
  destruct (IH _ _ Hx) as [Hm|Hin]; [|now right].
  rewrite mem_app in Hm. apply orb_true_iff in Hm. destruct Hm as [Hm|Hm]; [now left|].
  right. apply mem_In in Hm. rewrite <- Hnext in Hm.
  apply in_map_iff in Hm. destruct Hm as [c [Hid Hc]].
  apply filter_In in Hc. apply in_map_iff. exists c. tauto.
Qed.

Variable sel : comment -> bool.
Variable rows : list comment.

Lemma delete_where_In (c : comment) :
  In c (delete_where sel rows)
  <-> In c rows /\ Filter.mem (c_id c) (deleted_ids sel rows) = false.
Proof. unfold delete_where. rewrite filter_In, negb_true_iff. reflexivity. Qed.

Lemma deleted_selected (c : comment) :
  In c rows -> sel c = true -> Filter.mem (c_id c) (deleted_ids sel rows) = true.
Proof.
  intros Hc Hs. apply cascade_grows, mem_In, in_map, filter_In. now split.
Qed.

Lemma deleted_closed (c : comment) :
  In c rows -> Filter.mem (c_id c) (deleted_ids sel rows) = false ->
  refers_to (deleted_ids sel rows) c = false.
Proof. apply cascade_closed, filter_length_bound. Qed.

Lemma deleted_is_row (x : Z) :
  Filter.mem x (deleted_ids sel rows) = true -> In x (map c_id rows).
Proof.
  intros Hx. destruct (cascade_ids _ _ _ _ Hx) as [Hm|Hin]; [|assumption].
  apply mem_In, in_map_iff in Hm. destruct Hm as [c [Hid Hc]].
  apply filter_In in Hc. apply in_map_iff. exists c. tauto.
Qed.

(** A remaining row keeps its parent. *)
Lemma delete_where_parent (c p : comment) :
  In c (delete_where sel rows) -> In p rows -> c_parent_id c = Some (c_id p) ->
  In p (delete_where sel rows).
Proof.
  intros Hc Hp Hpar. apply delete_where_In in Hc. destruct Hc as [Hc Hm].
  apply delete_where_In. split; [assumption|].
  pose proof (deleted_closed c Hc Hm) as Hr.
  unfold refers_to in Hr. now rewrite Hpar in Hr.
Qed.

(** A row that goes was selected or has a parent that goes. *)
Lemma delete_where_removed (c : comment) :
  NoDup (map c_id rows) ->
  In c rows -> ~ In c (delete_where sel rows) ->
  sel c = true
  \/ exists p, In p rows /\ ~ In p (delete_where sel rows)
               /\ c_parent_id c = Some (c_id p).
Proof.
  intros Hnd Hc Hgone.
  assert (Hm : Filter.mem (c_id c) (deleted_ids sel rows) = true).
  { destruct (Filter.mem (c_id c) (deleted_ids sel rows)) eqn:Hm; [reflexivity|].
    exfalso. apply Hgone. now apply delete_where_In. }
  assert (Hsame : forall c0, In c0 rows -> c_id c0 = c_id c -> c0 = c).
  { clear - Hnd Hc. induction rows as [|a l IH]; [contradiction|].
    simpl in Hnd. inversion Hnd as [|? ? Hna Hnd']; subst.
    intros c0 [H0|H0] Hid; destruct Hc as [H1|H1]; subst.
    - reflexivity.
    - exfalso. apply Hna. rewrite Hid. now apply in_map.
    - exfalso. apply Hna. rewrite <- Hid. now apply in_map.
    - now apply IH. }
  destruct (cascade_sound _ _ _ _ Hm) as [Hs|[c0 [Hc0 [Hid Hr]]]].
  - left. apply mem_In, in_map_iff in Hs. destruct Hs as [c0 [Hid Hc0]].
    apply filter_In in Hc0. destruct Hc0 as [Hc0 Hs].
    now rewrite <- (Hsame c0 Hc0 Hid).
  - right. rewrite (Hsame c0 Hc0 Hid) in Hr. unfold refers_to in Hr.
    destruct (c_parent_id c) as [q|] eqn:Hpar; [|discriminate].
    pose proof (deleted_is_row _ Hr) as Hq.
    apply in_map_iff in Hq. destruct Hq as [p [Hid' Hp]].
    exists p. repeat split; [assumption| |now rewrite Hid'].
    intros Hin. apply delete_where_In in Hin. destruct Hin as [_ Hin].
    unfold deleted_ids in Hin. rewrite Hid', Hr in Hin. discriminate.
Qed.

End CascadeFacts.

Lemma find_by_key {A : Type} (key : A -> Z) (l : list A) (x : A) :
  NoDup (map key l) -> In x l -> find (fun y => key y =? key x) l = Some x.
Proof.
  induction l as [|a l IH]; intros Hnd Hx; [contradiction|].
  simpl in *. inversion Hnd as [|? ? Hna Hnd']; subst.
  destruct Hx as [->|Hx]; [now rewrite Z.eqb_refl|].
  destruct (Z.eqb_spec (key a) (key x)) as [He|_]; [|now apply IH].
  exfalso. apply Hna. rewrite He. now apply in_map.
Qed.

Lemma find_present {A : Type} (f : A -> bool) (l : list A) (x : A) :
  In x l -> f x = true -> exists y, find f l = Some y /\ In y l /\ f y = true.
Proof.
  intros Hx Hf. destruct (find f l) as [y|] eqn:Hfind.
  - exists y. apply find_some in Hfind. tauto.
  - exfalso. pose proof (find_none _ _ Hfind x Hx) as Hn. congruence.
Qed.

(** ** delete_comment *)

(** X1.  [delete_comment], when it deletes, removes the comment and with it
    exactly what hangs on it: every row that stays was there before and
    is not the comment, no row that stays is a reply to a row that went,
    and every row that went is the comment or a reply to a row that went.
    Posts, tags and favorites are untouched and the id sequence does not
    move back. *)
Theorem X1_delete_comment_cascade :
  forall (cfg : config) (d : db) (u : user) (comment_id : Z) (post_id_arg : option Z)
         (d' : db),
    NoDup (map c_id (comments d)) ->
    Posts.delete_comment cfg d u comment_id post_id_arg = (Flash "Comment deleted.", d') ->
    (forall c, In c (comments d') -> In c (comments d) /\ c_id c <> comment_id)
    /\ (forall c p, In c (comments d') -> In p (comments d) ->
                    c_parent_id c = Some (c_id p) -> In p (comments d'))
    /\ (forall c, In c (comments d) -> ~ In c (comments d') ->
                  c_id c = comment_id
                  \/ exists p, In p (comments d) /\ ~ In p (comments d')
                               /\ c_parent_id c = Some (c_id p))
    /\ posts d' = posts d /\ post_tags d' = post_tags d
    /\ favorites d' = favorites d /\ comments_id_seq d' = comments_id_seq d.
Proof.
  intros cfg d u comment_id post_id_arg d' Hnd H.
  unfold Posts.delete_comment in H.
  destruct (find _ (comments d)) as [row|]; [|discriminate].
  destruct (find _ (posts d)) as [pr|]; [|discriminate].
  destruct (negb _); [discriminate|].
  injection H as <-. cbn [set_comments comments posts post_tags favorites comments_id_seq].
  repeat split; try reflexivity.
  - apply delete_where_In in H. tauto.
  - apply delete_where_In in H. destruct H as [Hc Hm]. intros He.
    rewrite (deleted_selected _ _ c Hc) in Hm; [discriminate|now apply Z.eqb_eq].
  - intros c p Hc Hp Hpar. now apply (delete_where_parent _ _ c p).
  - intros c Hc Hgone.
    destruct (delete_where_removed _ _ c Hnd Hc Hgone) as [Hs|Hex]; [|now right].
    left. now apply Z.eqb_eq.
Qed.

(** Comment 43 of the thread has the reply 45: deleting it takes both. *)
Lemma X1_witness :
  let d := Comments.run (thread_db [] 42) thread_requests in
  let d' := snd (Posts.delete_comment sample_config d (mkUser 2 "bob" None) 43 None) in
  map c_id (comments d') = [42; 44; 46]
  /\ forall c, In c (comments d') -> In c (comments d) /\ c_id c <> 43.
Proof.
  intros d d'. split; [vm_compute; reflexivity|].
  assert (Hkey : NoDup (map c_id (comments d))) by (vm_compute; nodup_literals).
  assert (Hrun : Posts.delete_comment sample_config d (mkUser 2 "bob" None) 43 None
                 = (Flash "Comment deleted.", d')) by (vm_compute; reflexivity).
  exact (proj1 (X1_delete_comment_cascade sample_config d (mkUser 2 "bob" None) 43 None d'
                  Hkey Hrun)).
Defined.

(** X2.  [delete_comment] refuses everybody but the author of the comment,
    the author of a post and the admins: a user who is no admin, did not
    write the comment and wrote no post deletes nothing, whatever post
    the request names. *)
Theorem X2_delete_comment_refuses_strangers :
  forall (cfg : config) (d : db) (u : user) (comment_id : Z) (post_id_arg : option Z),
    Auth.is_admin cfg u = false ->
    (forall c, In c (comments d) -> c_id c = comment_id -> c_author c <> u_username u) ->
    (forall p, In p (posts d) -> p_author p <> u_username u) ->
    snd (Posts.delete_comment cfg d u comment_id post_id_arg) = d
    /\ fst (Posts.delete_comment cfg d u comment_id post_id_arg) <> Flash "Comment deleted.".
Proof.
  intros cfg d u comment_id post_id_arg Hadm Hc Hp.
  unfold Posts.delete_comment.
  destruct (find _ (comments d)) as [row|] eqn:Hrow; [|split; [reflexivity|discriminate]].
  destruct (find _ (posts d)) as [pr|] eqn:Hpr; [|split; [reflexivity|discriminate]].
  apply find_some in Hrow. destruct Hrow as [Hrow Hid]. apply Z.eqb_eq in Hid.
  apply find_some in Hpr. destruct Hpr as [Hpr _].
  assert (H1 : String.eqb (u_username u) (c_author row) = false).
  { apply String.eqb_neq. intros He. now apply (Hc row Hrow Hid). }
  assert (H2 : String.eqb (u_username u) (p_author pr) = false).
  { apply String.eqb_neq. intros He. now apply (Hp pr Hpr). }
  rewrite H1, H2, Hadm. split; [reflexivity|discriminate].
Qed.

(** Carol wrote nothing: she cannot delete the comment of post 1. *)
Lemma X2_witness :
  snd (Posts.delete_comment sample_config two_posts_db carol 1 (Some 2)) = two_posts_db
  /\ fst (Posts.delete_comment sample_config two_posts_db carol 1 (Some 2))
     <> Flash "Comment deleted.".
Proof.
  apply X2_delete_comment_refuses_strangers.
  - reflexivity.
  - intros c [<-|[]] _. discriminate.
  - intros p [<-|[<-|[]]]; discriminate.
Defined.

(** X3.  [delete_comment] looks up the author of the post that the query
    argument [post_id] names, not of the post the comment is on: a user
    who wrote some post deletes any comment of any post by naming that
    post. *)
Theorem X3_delete_comment_trusts_post_id_argument :
  forall (cfg : config) (d : db) (u : user) (c : comment) (p : post),
    posts_keyed d ->
    In c (comments d) ->
    In p (posts d) ->
    p_author p = u_username u ->
    p_id p <> 0 ->
    exists d',
      Posts.delete_comment cfg d u (c_id c) (Some (p_id p)) = (Flash "Comment deleted.", d')
      /\ ~ In c (comments d').
Proof.
  intros cfg d u c p Hkey Hc Hp Hauthor Hid.
  unfold Posts.delete_comment.
  destruct (find_present (fun x => c_id x =? c_id c) (comments d) c Hc (Z.eqb_refl _))
    as [row [-> _]].
  cbn [Py.truthy_int Py.or_zero].
  assert (Hnz : negb (p_id p =? 0) = true).
  { apply negb_true_iff, Z.eqb_neq. exact Hid. }
  rewrite Hnz, (find_by_key p_id (posts d) p Hkey Hp), Hauthor, String.eqb_refl.
  rewrite orb_true_r. cbn [orb negb].
  eexists. split; [reflexivity|].
  cbn [set_comments comments]. intros Hin.
  apply delete_where_In in Hin. destruct Hin as [_ Hm].
  rewrite (deleted_selected _ _ c Hc (Z.eqb_refl _)) in Hm. discriminate.
Qed.

(** The comment of two_posts_db is alice's, on post 1.  With bob as the
    author of post 2, bob deletes it through [post_id=2]. *)
Lemma X3_witness :
  let d := mkDb [] [sample_post 1 "public" "first post";
                    mkPost 2 None "title" "second post" None "bob" None None None 2 None
                           (Some "public"%string)]
                [] [] 1 (comments two_posts_db) 2 [] in
  exists d',
    Posts.delete_comment sample_config d (mkUser 2 "bob" None) 1 (Some 2)
    = (Flash "Comment deleted.", d')
    /\ ~ In (mkComment 1 1 "on the first post" "alice" 10 None (Some 0)
                       (Some "000001"%string) (Some "public"%string))
            (comments d').
Proof.
  intros d.
  apply (X3_delete_comment_trusts_post_id_argument sample_config d (mkUser 2 "bob" None)
           (mkComment 1 1 "on the first post" "alice" 10 None (Some 0)
                      (Some "000001"%string) (Some "public"%string))
           (mkPost 2 None "title" "second post" None "bob" None None None 2 None
                   (Some "public"%string))).
  - unfold posts_keyed. simpl. nodup_literals.
  - now left.
  - right. now left.
  - reflexivity.
  - discriminate.
Defined.

(** ** delete_post *)

(** X4.  [delete_post] on an existing post: the author of the post and the
    admins delete it, everybody else (a moderator too) gets the page 403
    and nothing changes.  The deletion takes the post, its tag links and
    its comments with everything that hangs on them, and nothing else:
    every comment that stays was there before and is on another post, no
    comment that stays is a reply to one that went, and, the ids of the
    comments being distinct, every comment that went is on the post or
    is a reply to one that went.  The favorites of the post stay in the
    table. *)
Theorem X4_delete_post_cascade :
  forall (cfg : config) (d : db) (u : user) (row : post),
    posts_keyed d ->
    In row (posts d) ->
    let answer := fst (Posts.delete_post cfg d u (p_id row)) in
    let d' := snd (Posts.delete_post cfg d u (p_id row)) in
    if String.eqb (p_author row) (u_username u) || Auth.is_admin cfg u
    then answer = Flash "Post deleted."
         /\ (forall p, In p (posts d') <-> In p (posts d) /\ p_id p <> p_id row)
         /\ (forall pt, In pt (post_tags d') <-> In pt (post_tags d) /\ fst pt <> p_id row)
         /\ (forall c, In c (comments d') -> In c (comments d) /\ c_post_id c <> p_id row)
         /\ (forall c p, In c (comments d') -> In p (comments d) ->
                         c_parent_id c = Some (c_id p) -> In p (comments d'))
         /\ (NoDup (map c_id (comments d)) ->
             forall c, In c (comments d) -> ~ In c (comments d') ->
                       c_post_id c = p_id row
                       \/ exists p, In p (comments d) /\ ~ In p (comments d')
                                    /\ c_parent_id c = Some (c_id p))
         /\ favorites d' = favorites d
         /\ users d' = users d
    else answer = Forbidden /\ d' = d.
Proof.
  intros cfg d u row Hkey Hrow. unfold Posts.delete_post.
  rewrite (find_by_key p_id (posts d) row Hkey Hrow).
  destruct (String.eqb (p_author row) (u_username u)); cbn [negb andb orb];
    [|destruct (Auth.is_admin cfg u); cbn [negb fst snd]; [|split; reflexivity]];
    cbn [fst snd posts post_tags comments favorites users];
    (split; [reflexivity|]);
    (split; [intros p; rewrite filter_In, negb_true_iff, Z.eqb_neq; reflexivity|]);
    (split; [intros pt; rewrite filter_In, negb_true_iff, Z.eqb_neq; reflexivity|]);
    (split; [|split; [|split; [|split; reflexivity]]]).
  all: try (intros c Hc; apply delete_where_In in Hc; destruct Hc as [Hc Hm];
            split; [assumption|]; intros He;
            rewrite (deleted_selected _ _ c Hc) in Hm;
            [discriminate|now apply Z.eqb_eq]).
  all: try (intros c p Hc Hp Hpar; now apply (delete_where_parent _ _ c p)).
  all: intros Hnd c Hc Hgone;
    destruct (delete_where_removed _ _ c Hnd Hc Hgone) as [Hs|Hex];
    [left; now apply Z.eqb_eq|now right].
Qed.

(** Alice deletes her post 7 with its thread; the comment on post 8 and
    bob's favorite of post 7 stay behind. *)
Lemma X4_witness :
  let d := mkDb [] [post_seven; sample_post 8 "public" "another post"] [(7, 1); (8, 1)]
                [mkFavorite 1 2 7 5] 2
                [root_42; reply_43;
                 mkComment 44 8 "elsewhere" "bob" 3 None (Some 0) (Some "000044"%string)
                           (Some "public"%string)]
                45 [] in
  let d' := snd (Posts.delete_post sample_config d (mkUser 1 "alice" None) 7) in
  (map p_id (posts d'), post_tags d', map c_id (comments d'), favorites d')
  = ([8], [(8, 1)], [44], [mkFavorite 1 2 7 5])
  /\ favorites d' = favorites d.
Proof.
  intros d d'. split; [vm_compute; reflexivity|].
  assert (Hkey : posts_keyed d) by (unfold posts_keyed; simpl; nodup_literals).
  assert (Hrow : In post_seven (posts d)) by (now left).
  pose proof (X4_delete_post_cascade sample_config d (mkUser 1 "alice" None) post_seven
                Hkey Hrow) as H.
  exact (proj1 (proj2 (proj2 (proj2 (proj2 (proj2 (proj2 H))))))).
Defined.

(** ** Threads under deletions *)
Section DeletionInvariant.
Import Comments.

Lemma delete_where_preserves (d d' : db) (sel : comment -> bool) :
  comments d' = Cascade.delete_where sel (comments d) ->
  comments_id_seq d' = comments_id_seq d ->
  comments_inv d -> comments_inv d'.
Proof.
  intros Hrows Hseq Hinv.
  assert (Hsub : forall c, In c (comments d') -> In c (comments d)).
  { intros c Hc. rewrite Hrows in Hc. apply delete_where_In in Hc. tauto. }
  constructor.
  - rewrite Hseq. apply (inv_seq d Hinv).
  - rewrite Hrows. apply sorted_filter, (inv_sorted d Hinv).
  - intros c Hc. rewrite Hseq. apply (inv_ids d Hinv), Hsub, Hc.
  - intros c Hc. apply (inv_public d Hinv), Hsub, Hc.
  - intros c q Hc. apply (inv_parent d Hinv), Hsub, Hc.
  - intros c Hc.
    destruct (inv_linked d Hinv c (Hsub c Hc)) as [[p [Hp [Hpar [Hpost Hpath]]]]|[Hroot Hpath]].
    + left. exists p. repeat split; try assumption.
      rewrite Hrows in *. now apply (delete_where_parent sel (comments d) c p).
    + right. split; [|assumption]. intros p Hp. apply Hroot, Hsub, Hp.
Qed.

Lemma apply_event_preserves (cfg : config) (s : db * Admin.admin_tables)
      (e : comment_event) :
  comments_inv (fst s) -> comments_inv (fst (apply_event cfg s e)).
Proof.
  intros Hinv. destruct s as [d a]. cbn [fst snd] in *.
  destruct e as [r|u comment_id post_id_arg|u post_id|u comment_id now];
    cbn [apply_event fst snd].
  - now apply handle_preserves.
  - unfold Posts.delete_comment.
    destruct (find _ (comments d)) as [row|]; [|exact Hinv].
    destruct (find _ (posts d)) as [pr|]; [|exact Hinv].
    destruct (negb _); [exact Hinv|].
    cbn [snd]. now apply (delete_where_preserves d _ (fun c => c_id c =? comment_id)).
  - unfold Posts.delete_post.
    destruct (find _ (posts d)) as [row|]; [|exact Hinv].
    destruct (_ && _); [exact Hinv|].
    cbn [snd]. now apply (delete_where_preserves d _ (fun c => c_post_id c =? post_id)).
  - unfold Admin.moderate_comment.
    destruct (negb (Auth.is_staff cfg u)); [exact Hinv|].
    change (String.eqb "delete" "delete") with true. cbv iota.
    destruct (Admin.log_action _ _ _ _ _ _ _) as [[|] a']; [|exact Hinv].
    cbn [fst]. now apply (delete_where_preserves d _ (fun c => c_id c =? comment_id)).
Qed.

Lemma run_events_preserves (cfg : config) (es : list comment_event) :
  forall s, comments_inv (fst s) -> comments_inv (fst (run_events cfg s es)).
Proof.
  induction es as [|e es IH]; intros s Hinv; [exact Hinv|].
  simpl. apply IH. now apply apply_event_preserves.
Qed.

End DeletionInvariant.

(** X5.  The order of a thread survives deletions.  Start from an empty
    comments table and run any sequence of [add_comment],
    [delete_comment], [delete_post] and [moderate_comment] delete
    requests, allowed or refused.  As long as the id sequence has not
    passed one million, the comment query of the post page still returns,
    for every post and every viewer, the pre-order traversal of what is
    left of the post's comment tree. *)
Theorem X5_thread_order_survives_deletions :
  forall (cfg : config) (d0 : db) (a0 : Admin.admin_tables) (events : list comment_event),
    comments d0 = [] ->
    1 <= comments_id_seq d0 ->
    comments_id_seq (fst (run_events cfg (d0, a0) events)) <= 1000000 ->
    forall (post_id : Z) (is_mod : bool),
      Comments.post_detail_comments (fst (run_events cfg (d0, a0) events)) post_id is_mod
      = Comments.preorder (Comments.thread (fst (run_events cfg (d0, a0) events)) post_id).
Proof.
  intros cfg d0 a0 events Hempty Hstart Hseq post_id is_mod.
  pose proof (run_events_preserves cfg events (d0, a0)
                (empty_table_inv d0 Hempty Hstart)) as Hinv.
  rewrite (post_detail_comments_thread _ Hinv).
  apply thread_order. now apply thread_of_table.
Qed.

(** Bob deletes his reply 43 and takes the reply 45 to it along; the
    root added afterwards gets the id 46 and comes last. *)
Lemma X5_witness :
  map c_id (Comments.post_detail_comments
              (fst (run_events sample_config (thread_db [] 42, empty_admin_tables)
                               thread_events)) 7 false)
  = [42; 44; 46].
Proof.
  rewrite (X5_thread_order_survives_deletions sample_config (thread_db [] 42)
             empty_admin_tables thread_events).
  - vm_compute. reflexivity.
  - reflexivity.
  - intros H. discriminate H.
  - intros H. vm_compute in H. discriminate H.
Defined.

(** ** Moderation *)
Section ModerationFacts.
Import Admin.

Lemma update_post_status_target (d : db) (post_id : Z) (status : string) (now : Z)
      (p : post) :
  In p (posts (update_post_status d post_id status now)) -> p_id p = post_id ->
  p_status p = Some status /\ p_updated_at p = Some now.
Proof.
  unfold update_post_status. cbn [posts]. intros Hp Hid.
  apply in_map_iff in Hp. destruct Hp as [p0 [He Hp0]].
  destruct (Z.eqb_spec (p_id p0) post_id) as [H0|H0]; subst p; [split; reflexivity|].
  contradiction.
Qed.

Lemma update_post_status_others (d : db) (post_id : Z) (status : string) (now : Z)
      (p : post) :
  p_id p <> post_id ->
  In p (posts (update_post_status d post_id status now)) <-> In p (posts d).
Proof.
  unfold update_post_status. cbn [posts]. intros Hid. rewrite in_map_iff. split.
  - intros [p0 [He Hp0]].
    destruct (Z.eqb_spec (p_id p0) post_id) as [H0|H0]; subst p; [|assumption].
    contradiction.
  - intros Hp. exists p. split; [|assumption].
    destruct (Z.eqb_spec (p_id p) post_id); [contradiction|reflexivity].
Qed.

Lemma update_post_status_ids (d : db) (post_id : Z) (status : string) (now : Z) :
  map p_id (posts (update_post_status d post_id status now)) = map p_id (posts d).
Proof.
  unfold update_post_status. cbn [posts]. rewrite map_map. apply map_ext.
  intros p. destruct (p_id p =? post_id); reflexivity.
Qed.

Lemma moderate_post_applied (cfg : config) (d : db) (a : admin_tables) (u : user)
      (post_id : Z) (action status : string) (now : Z) :
  Auth.is_staff cfg u = true ->
  existsb (fun x => u_id x =? u_id u) (users d) = true ->
  fits_integer post_id = true ->
  new_status action = Some status ->
  moderate_post cfg d a u post_id action now
  = (Flash "Post moderation applied.",
     update_post_status d post_id status now,
     mkAdmin (reports a) (reports_id_seq a)
             (moderation_actions a
              ++ [mkAction (moderation_actions_id_seq a) (u_id u) action "post" post_id now])
             (moderation_actions_id_seq a + 1)).
Proof.
  intros Hstaff Hu Hfit Hns. unfold moderate_post, log_action.
  rewrite Hstaff, Hns, Hfit, Hu. reflexivity.
Qed.

End ModerationFacts.

(** X6.  [moderate_post] by a member of staff with an action hide, unhide or
    delete: every post with that id gets the status hidden, public or
    deleted and the time of the action as [updated_at], every other post
    stays as it is, and one row is added to [moderation_actions].  The
    action delete is a status too: no post is removed, and the comments,
    the tag links and the favorites stay as they are. *)
Theorem X6_moderate_post_sets_status :
  forall (cfg : config) (d : db) (a : Admin.admin_tables) (u : user)
         (post_id : Z) (action status : string) (now : Z),
    Auth.is_staff cfg u = true ->
    existsb (fun x => u_id x =? u_id u) (users d) = true ->
    Admin.fits_integer post_id = true ->
    Admin.new_status action = Some status ->
    exists d' a',
      Admin.moderate_post cfg d a u post_id action now
      = (Flash "Post moderation applied.", d', a')
      /\ (forall p, In p (posts d') -> p_id p = post_id ->
                    p_status p = Some status /\ p_updated_at p = Some now)
      /\ (forall p, p_id p <> post_id -> (In p (posts d') <-> In p (posts d)))
      /\ map p_id (posts d') = map p_id (posts d)
      /\ comments d' = comments d
      /\ post_tags d' = post_tags d
      /\ favorites d' = favorites d
      /\ Admin.moderation_actions a'
         = Admin.moderation_actions a
           ++ [Admin.mkAction (Admin.moderation_actions_id_seq a) (u_id u) action "post"
                              post_id now].
Proof.
  intros cfg d a u post_id action status now Hstaff Hu Hfit Hns.
  eexists. eexists.
  split; [exact (moderate_post_applied cfg d a u post_id action status now
                   Hstaff Hu Hfit Hns)|].
  split; [intros p; apply update_post_status_target|].
  split; [intros p; apply update_post_status_others|].
  split; [apply update_post_status_ids|].
  repeat split; reflexivity.
Qed.

(** The moderator deletes the public post 8: the row stays, with the
    status deleted. *)
Lemma X6_witness :
  exists d' a',
    Admin.moderate_post sample_config favorites_db empty_admin_tables moderator_mod
                        8 "delete" 30
    = (Flash "Post moderation applied.", d', a')
    /\ map p_id (posts d') = [7; 8]
    /\ map p_status (posts d') = [Some "hidden"%string; Some "deleted"%string]
    /\ favorites d' = favorites favorites_db.
Proof.
  destruct (X6_moderate_post_sets_status sample_config favorites_db empty_admin_tables
              moderator_mod 8 "delete" "deleted" 30 eq_refl eq_refl eq_refl eq_refl)
    as [d' [a' [Hrun [_ [_ [Hids [_ [_ [Hfav _]]]]]]]]].
  exists d', a'. split; [exact Hrun|]. split; [exact Hids|]. split; [|exact Hfav].
  vm_compute in Hrun. injection Hrun as <- _. reflexivity.
Defined.

(** ** Windows of sorted lists *)
Section WindowFacts.
Context {A : Type} (R : A -> A -> Prop).

Lemma sorted_skipn (n : nat) :
  forall l, StronglySorted R l -> StronglySorted R (skipn n l).
Proof.
  induction n as [|n IH]; intros l Hs; [exact Hs|].
  destruct l as [|x l]; [exact Hs|].
  simpl. apply IH. now inversion Hs.
Qed.

Lemma sorted_firstn (n : nat) :
  forall l, StronglySorted R l -> StronglySorted R (firstn n l).
Proof.
  induction n as [|n IH]; intros l Hs; [constructor|].
  destruct l as [|x l]; [constructor|].
  simpl. inversion Hs as [|? ? Hl Hx]; subst.
  constructor; [now apply IH|].
  rewrite Forall_forall in *. intros y Hy. apply Hx. eapply firstn_in, Hy.
Qed.

Lemma sorted_map {B : Type} (f : B -> A) (l : list B) :
  StronglySorted (fun a b => R (f a) (f b)) l -> StronglySorted R (map f l).
Proof.
  induction 1 as [|x l Hl IH Hx]; simpl; constructor; [assumption|].
  rewrite Forall_forall in *. intros y Hy.
  apply in_map_iff in Hy. destruct Hy as [z [<- Hz]]. now apply Hx.
Qed.

End WindowFacts.

Lemma sorted_weaken {A : Type} (R S : A -> A -> Prop) (l : list A) :
  (forall a b, R a b -> S a b) -> StronglySorted R l -> StronglySorted S l.
Proof.
  intros HRS. induction 1 as [|x l Hl IH Hx]; constructor; [assumption|].
  rewrite Forall_forall in *. intros y Hy. apply HRS, Hx, Hy.
Qed.

Lemma window_length {A : Type} (l : list A) (limit offset : Z) :
  0 <= limit -> 0 <= offset ->
  Z.of_nat (List.length (firstn (Z.to_nat limit) (skipn (Z.to_nat offset) l)))
  = Z.min limit (Z.max 0 (Z.of_nat (List.length l) - offset)).
Proof.
  intros Hl Ho. rewrite length_firstn, length_skipn. lia.
Qed.

(** ** The JSON API *)
Section ApiFacts.
Import Api.
Variable E : fts_engine.
Variable cfg : config.
Variable d : db.

Lemma api_posts_rows (limit_arg offset_arg : option Z) (q : string)
      (rows : list api_post) (r : api_post) :
  api_posts E cfg d limit_arg offset_arg q = Some rows -> In r rows ->
  In (ap_post r) (posts d)
  /\ p_status (ap_post r) = Some "public"%string
  /\ (q <> EmptyString -> fts_match E q (ap_post r) = true)
  /\ ap_image_thumb_url r = cdnize cfg (p_image_thumb_url (ap_post r)).
Proof.
  unfold api_posts. intros H Hr.
  destruct (bigint_max <? _); [discriminate|].
  destruct (negb (String.eqb q "") && Limits.has_nul q); [discriminate|].
  injection H as <-.
  apply in_map_iff in Hr. destruct Hr as [p [<- Hp]]. cbn [record_of ap_post ap_image_thumb_url].
  apply firstn_in, skipn_in, order_by_in in Hp.
  destruct (String.eqb_spec q "") as [Hq|Hq]; cbn [negb] in Hp;
    apply filter_In in Hp; destruct Hp as [Hp Hb].
  - repeat split; [assumption|now apply is_public_eq|contradiction].
  - apply andb_true_iff in Hb. destruct Hb as [Hpub Hm].
    repeat split; [assumption|now apply is_public_eq|auto].
Qed.

Lemma newest_first_total (a b : post) :
  newest_first a b = false -> newest_first b a = true.
Proof. unfold newest_first. lia. Qed.

Lemma newest_first_trans (a b c : post) :
  newest_first a b = true -> newest_first b c = true -> newest_first a c = true.
Proof. unfold newest_first. lia. Qed.

End ApiFacts.

(** X7.  [api_posts] fails exactly when the offset is no bigint of the
    server or the search string contains the character NUL, which the
    driver refuses.  Otherwise it returns at most 100 records, at most
    [limit] of them when a limit of at least 1 is given and at most 20
    when none is; every record is a public post of the table, matches
    [q] when [q] is not empty, and carries its thumbnail through the CDN
    rewrite; the records are in the order of [created_at], latest
    first. *)
Theorem X7_api_posts_public_and_bounded :
  forall (E : fts_engine) (cfg : config) (d : db) (limit_arg offset_arg : option Z)
         (q : string),
    (Api.api_posts E cfg d limit_arg offset_arg q = None
     <-> (exists n, offset_arg = Some n /\ Api.bigint_max < n)
         \/ Limits.has_nul q = true)
    /\ forall rows,
        Api.api_posts E cfg d limit_arg offset_arg q = Some rows ->
        (List.length rows <= 100)%nat
        /\ (forall n, limit_arg = Some n -> 1 <= n -> Z.of_nat (List.length rows) <= n)
        /\ (limit_arg = None -> (List.length rows <= 20)%nat)
        /\ (forall r, In r rows ->
                      In (Api.ap_post r) (posts d)
                      /\ p_status (Api.ap_post r) = Some "public"%string
                      /\ (q <> EmptyString -> fts_match E q (Api.ap_post r) = true)
                      /\ Api.ap_image_thumb_url r
                         = cdnize cfg (p_image_thumb_url (Api.ap_post r)))
        /\ StronglySorted (fun a b => p_created_at (Api.ap_post b)
                                      <= p_created_at (Api.ap_post a)) rows.
Proof.
  intros E cfg d limit_arg offset_arg q. split.
  - unfold Api.api_posts.
    destruct (Z.ltb_spec Api.bigint_max
                (Z.max 0 (match offset_arg with Some n => n | None => 0 end)))
      as [Hbig|Hok].
    + split; [intros _|reflexivity]. left.
      unfold Api.bigint_max, Limits.bigint_max in *.
      destruct offset_arg as [n|]; [|lia]. exists n. split; [reflexivity|lia].
    + destruct (negb (String.eqb q "") && Limits.has_nul q) eqn:Hnul.
      * split; [intros _|reflexivity]. right.
        apply andb_true_iff in Hnul. tauto.
      * split; [discriminate|]. intros [[n [-> Hn]]|Hq]; exfalso.
        -- unfold Api.bigint_max, Limits.bigint_max in *. lia.
        -- rewrite Hq, andb_true_r in Hnul.
           apply negb_false_iff, String.eqb_eq in Hnul. subst q. discriminate Hq.
  - intros rows Hrun.
    assert (Hlen : Z.of_nat (List.length rows)
                   <= Z.max 1 (Z.min 100 (match limit_arg with Some n => n | None => 20 end))).
    { unfold Api.api_posts in Hrun.
      destruct (Api.bigint_max <? _); [discriminate|].
      destruct (negb (String.eqb q "") && Limits.has_nul q); [discriminate|].
      injection Hrun as <-.
      rewrite length_map, length_firstn. lia. }
    split; [lia|]. split; [intros n -> Hn; lia|]. split; [intros ->; lia|].
    split; [intros r; now apply (api_posts_rows E cfg d limit_arg offset_arg q rows)|].
    unfold Api.api_posts in Hrun.
    destruct (Api.bigint_max <? _); [discriminate|].
    destruct (negb (String.eqb q "") && Limits.has_nul q); [discriminate|].
    injection Hrun as <-.
    apply sorted_map with (R := fun a b => p_created_at (Api.ap_post b)
                                           <= p_created_at (Api.ap_post a)).
    apply sorted_firstn, sorted_skipn.
    eapply sorted_weaken;
      [|apply (order_by_sorted newest_first newest_first_total newest_first_trans)].
    intros a b Hab. unfold newest_first in Hab. cbn [Api.record_of Api.ap_post]. lia.
Qed.

(** The public posts 1 and 3 of listing_db, the later one first; a limit
    of 1000 is cut to 100; a search string with the character NUL
    fails. *)
Lemma X7_witness :
  option_map (map (fun r => p_id (Api.ap_post r)))
             (Api.api_posts sample_fts sample_config listing_db (Some 1000) (Some 0) "")
  = Some [3; 1]
  /\ (exists rows,
        Api.api_posts sample_fts sample_config listing_db (Some 1000) (Some 0) "" = Some rows
        /\ (List.length rows <= 100)%nat)
  /\ Api.api_posts sample_fts sample_config listing_db None None
                   (String "a" (String "000" EmptyString))
     = None.
Proof.
  split; [reflexivity|]. split.
  - eexists. split; [reflexivity|].
    refine (proj1 (proj2 (X7_api_posts_public_and_bounded sample_fts sample_config listing_db
                            (Some 1000) (Some 0) ""%string) _ eq_refl)).
  - apply (proj1 (X7_api_posts_public_and_bounded sample_fts sample_config listing_db
                    None None (String "a" (String "000" EmptyString)))).
    right. reflexivity.
Defined.

(** ** What a visitor who is not staff can see *)
Section PublicSurfaces.
Import Sql Filter Listing.
Variable E : fts_engine.
Variable cfg : config.
Variable d : db.

Lemma non_staff_filter_public (keyword : string) (genre : option string)
      (tag_ids : list Z) (args : list param) (bs : list bound) (rest : list param)
      (p : post) :
  bind_where (where_ (build_posts_filter_sql keyword genre tag_ids false)) args
  = Some (bs, rest) ->
  satisfies E d bs p = true ->
  p_status p = Some "public"%string.
Proof.
  intros Hb Hs. eapply satisfies_status; [|exact Hs].
  eapply bind_where_status; [exact Hb|apply build_where_public].
Qed.

Lemma show_posts_rows_public (viewer : option user) (sort keyword : string)
      (genre : option string) (tag_ids : list Z) (page : Z) (view : page_view) (c : card) :
  Auth.is_mod cfg viewer = false ->
  show_posts E cfg d viewer sort keyword genre tag_ids page = Some view ->
  In c (pv_posts view) ->
  In (r_post (cd_row c)) (posts d)
  /\ p_status (r_post (cd_row c)) = Some "public"%string.
Proof.
  intros Hmod Hshow Hc.
  unfold show_posts in Hshow. rewrite Hmod in Hshow.
  destruct (execute_count E d _) as [total|]; [|discriminate].
  destruct (execute _ _ _ _) as [rows|] eqn:Hex; [|discriminate].
  injection Hshow as <-. simpl in Hc.
  apply in_map_iff in Hc. destruct Hc as [r [<- Hr]]. simpl.
  apply execute_sound in Hex. destruct Hex as [args1 [bs [rest [Hb Hrows]]]].
  simpl in Hb. destruct (Hrows r Hr) as [Hin Hs].
  split; [assumption|]. eapply non_staff_filter_public; eassumption.
Qed.

Lemma export_rows_public (viewer : option user) (sort keyword : string)
      (genre : option string) (tag_ids : list Z) (rows : list row) (r : row) :
  Auth.is_mod cfg viewer = false ->
  export_posts_csv E cfg d viewer sort keyword genre tag_ids = Some rows
  \/ export_posts_json E cfg d viewer sort keyword genre tag_ids = Some rows ->
  In r rows ->
  In (r_post r) (posts d) /\ p_status (r_post r) = Some "public"%string.
Proof.
  intros Hmod Hex Hr.
  assert (Hex' : exists s args,
             s_where s = where_ (build_posts_filter_sql keyword genre tag_ids false)
             /\ execute E d s args = Some rows).
  { destruct Hex as [Hex|Hex];
      [unfold export_posts_csv in Hex|unfold export_posts_json in Hex];
      rewrite Hmod in Hex;
      destruct (Py.truthy_str (rank_sql (build_posts_filter_sql keyword genre tag_ids false)));
      (eexists; eexists; split; [|exact Hex]; reflexivity). }
  destruct Hex' as [s [args [Hw Hex']]].
  apply execute_sound in Hex'. destruct Hex' as [args1 [bs [rest [Hb Hrows]]]].
  rewrite Hw in Hb. destruct (Hrows r Hr) as [Hin Hs].
  split; [assumption|]. eapply non_staff_filter_public; eassumption.
Qed.

Lemma my_favorites_rows (u : user) (p : post) :
  In p (Posts.fv_posts (Posts.my_favorites cfg d u))
  <-> In p (posts d)
      /\ (exists f, In f (favorites d) /\ f_user_id f = u_id u /\ f_post_id f = p_id p)
      /\ (Auth.is_staff cfg u = true \/ p_status p = Some "public"%string).
Proof.
  unfold Posts.my_favorites. cbn [Posts.fv_posts].
  rewrite in_map_iff. split.
  - intros [[f p0] [He Hin]]. cbn [snd] in He. subst p0.
    apply order_by_in, filter_In in Hin. destruct Hin as [Hin Hb]. cbn [fst snd] in Hb.
    apply in_flat_map in Hin. destruct Hin as [f0 [Hf0 Hin]].
    apply in_map_iff in Hin. destruct Hin as [p0 [He Hp0]]. injection He as -> ->.
    apply filter_In in Hp0. destruct Hp0 as [Hp0 Hid]. apply Z.eqb_eq in Hid.
    apply andb_true_iff in Hb. destruct Hb as [Hu Hvis]. apply Z.eqb_eq in Hu.
    split; [assumption|]. split; [exists f; auto|].
    apply orb_true_iff in Hvis. destruct Hvis as [Hvis|Hvis]; [now left|right].
    now apply is_public_eq.
  - intros [Hp [[f [Hf [Hu Hid]]] Hvis]]. exists (f, p). split; [reflexivity|].
    apply order_by_in, filter_In. split.
    + apply in_flat_map. exists f. split; [assumption|].
      apply in_map, filter_In. split; [assumption|]. now apply Z.eqb_eq.
    + cbn [fst snd]. apply andb_true_iff. split; [now apply Z.eqb_eq|].
      apply orb_true_iff. destruct Hvis as [Hvis|Hvis]; [now left|right].
      now apply is_public_eq.
Qed.

End PublicSurfaces.

(** X8.  After staff has hidden or deleted a post, the nine handlers that
    read posts for a visitor do not give it to a viewer who is not staff:
    [post_detail], [export_post_pdf] and [api_post_detail] answer 404
    for it, and no answer of [api_posts], [show_posts],
    [export_posts_csv], [export_posts_json], [my_favorites] or
    [user_profile] contains it, whatever they are asked for.  This is a
    statement about these nine handlers only; [edit_post], which checks
    the author and no status, is not among them. *)
Theorem X8_moderated_post_leaves_public_surfaces :
  forall (E : fts_engine) (cfg : config) (d : db) (a : Admin.admin_tables) (u : user)
         (post_id : Z) (action : string) (now : Z),
    Auth.is_staff cfg u = true ->
    existsb (fun x => u_id x =? u_id u) (users d) = true ->
    Admin.fits_integer post_id = true ->
    action = "hide"%string \/ action = "delete"%string ->
    let d' := snd (fst (Admin.moderate_post cfg d a u post_id action now)) in
    (forall viewer, Auth.is_mod cfg viewer = false ->
                    Posts.post_detail cfg d' viewer post_id = None)
    /\ Api.api_post_detail cfg d' post_id = None
    /\ (forall limit_arg offset_arg q rows r,
           Api.api_posts E cfg d' limit_arg offset_arg q = Some rows ->
           In r rows -> p_id (Api.ap_post r) <> post_id)
    /\ (forall viewer sort keyword genre tag_ids page view c,
           Auth.is_mod cfg viewer = false ->
           Listing.show_posts E cfg d' viewer sort keyword genre tag_ids page = Some view ->
           In c (Listing.pv_posts view) ->
           p_id (Listing.r_post (Listing.cd_row c)) <> post_id)
    /\ (forall viewer sort keyword genre tag_ids rows r,
           Auth.is_mod cfg viewer = false ->
           Listing.export_posts_csv E cfg d' viewer sort keyword genre tag_ids = Some rows
           \/ Listing.export_posts_json E cfg d' viewer sort keyword genre tag_ids
              = Some rows ->
           In r rows -> p_id (Listing.r_post r) <> post_id)
    /\ (forall v p, Auth.is_staff cfg v = false ->
                    In p (Posts.fv_posts (Posts.my_favorites cfg d' v)) ->
                    p_id p <> post_id)
    /\ (forall viewer, Auth.is_mod cfg viewer = false ->
                       Posts.export_post_pdf cfg d' viewer post_id = None)
    /\ (forall viewer username p,
           Auth.is_mod cfg viewer = false ->
           In p (Posts.user_profile cfg d' viewer username) -> p_id p <> post_id).
Proof.
  intros E cfg d a u post_id action now Hstaff Hu Hfit Haction d'.
  assert (Hgone : forall p, In p (posts d') -> p_status p = Some "public"%string ->
                            p_id p <> post_id).
  { assert (Hst : exists status,
               Admin.new_status action = Some status /\ status <> "public"%string).
    { destruct Haction as [->| ->]; eexists; (split; [reflexivity|discriminate]). }
    destruct Hst as [status [Hns Hnp]].
    intros p Hp Hpub Hid. unfold d' in Hp.
    rewrite (moderate_post_applied cfg d a u post_id action status now Hstaff Hu Hfit Hns)
      in Hp.
    cbn [fst snd] in Hp.
    destruct (update_post_status_target d post_id status now p Hp Hid) as [Hs _].
    congruence. }
  assert (Hfind : forall r, find (fun p => p_id p =? post_id) (posts d') = Some r ->
                            is_public (p_status r) = false).
  { intros r Hr. apply find_some in Hr. destruct Hr as [Hr Hid]. apply Z.eqb_eq in Hid.
    destruct (is_public (p_status r)) eqn:Hpub; [|reflexivity].
    apply is_public_eq in Hpub. exfalso. exact (Hgone r Hr Hpub Hid). }
  repeat split.
  - intros viewer Hmod. unfold Posts.post_detail.
    destruct (find _ (posts d')) as [r|] eqn:Hr; [|reflexivity].
    now rewrite Hmod, (Hfind r eq_refl).
  - unfold Api.api_post_detail.
    destruct (find _ (posts d')) as [r|] eqn:Hr; [|reflexivity].
    now rewrite (Hfind r eq_refl).
  - intros limit_arg offset_arg q rows r Hrun Hr.
    destruct (api_posts_rows E cfg d' limit_arg offset_arg q rows r Hrun Hr)
      as [Hin [Hpub _]].
    now apply Hgone.
  - intros viewer sort keyword genre tag_ids page view c Hmod Hshow Hc.
    destruct (show_posts_rows_public E cfg d' viewer sort keyword genre tag_ids page
                view c Hmod Hshow Hc) as [Hin Hpub].
    now apply Hgone.
  - intros viewer sort keyword genre tag_ids rows r Hmod Hex Hr.
    destruct (export_rows_public E cfg d' viewer sort keyword genre tag_ids rows r
                Hmod Hex Hr) as [Hin Hpub].
    now apply Hgone.
  - intros v p Hv Hp. apply my_favorites_rows in Hp.
    destruct Hp as [Hin [_ [Hs|Hpub]]]; [congruence|]. now apply Hgone.
  - intros viewer Hmod. unfold Posts.export_post_pdf. rewrite Hmod.
    destruct (find (fun p => (p_id p =? post_id) && is_public (p_status p)) (posts d'))
      as [r|] eqn:Hr; [|reflexivity].
    exfalso.
    apply find_some in Hr. destruct Hr as [Hr Hb].
    apply andb_true_iff in Hb. destruct Hb as [Hid Hpub].
    apply Z.eqb_eq in Hid. apply is_public_eq in Hpub. exact (Hgone r Hr Hpub Hid).
  - intros viewer username p Hmod Hp. unfold Posts.user_profile in Hp.
    apply order_by_in, filter_In in Hp. destruct Hp as [Hin Hb].
    rewrite Hmod in Hb. apply andb_true_iff in Hb. destruct Hb as [_ Hpub].
    apply is_public_eq in Hpub. now apply Hgone.
Qed.

(** After the moderator hides post 8 the anonymous visitor gets 404 on
    its page and an empty API list. *)
Lemma X8_witness :
  let d' := snd (fst (Admin.moderate_post sample_config favorites_db empty_admin_tables
                                          moderator_mod 8 "hide" 30)) in
  Posts.post_detail sample_config d' None 8 = None
  /\ Api.api_post_detail sample_config d' 8 = None
  /\ Api.api_posts sample_fts sample_config d' None None "" = Some [].
Proof.
  intros d'.
  pose proof (X8_moderated_post_leaves_public_surfaces sample_fts sample_config favorites_db
                empty_admin_tables moderator_mod 8 "hide" 30 eq_refl eq_refl eq_refl
                (or_introl eq_refl)) as H.
  cbv zeta in H. fold d' in H. destruct H as [Hpage [Hapi _]].
  split; [apply Hpage; reflexivity|]. split; [exact Hapi|]. vm_compute. reflexivity.
Defined.

(** ** The post page *)

(** X9.  What [post_detail] shows when it shows the post: the post with the
    requested id; to a viewer who is not staff only a public post and
    only its public comments, to staff every comment of the post; the
    number of favorites the listing shows for the post; whether the
    viewer has a favorite on it; and the edit link only for the author
    of the post and the admins (a moderator who is neither gets none). *)
Theorem X9_post_detail_shows :
  forall (cfg : config) (d : db) (viewer : option user) (post_id : Z)
         (v : Posts.detail_view),
    Posts.post_detail cfg d viewer post_id = Some v ->
    In (Posts.dv_post v) (posts d)
    /\ p_id (Posts.dv_post v) = post_id
    /\ (Auth.is_mod cfg viewer = false ->
        p_status (Posts.dv_post v) = Some "public"%string)
    /\ (forall c, In c (Posts.dv_comments v)
                  <-> In c (comments d) /\ c_post_id c = post_id
                      /\ (Auth.is_mod cfg viewer = true
                          \/ c_status c = Some "public"%string))
    /\ Posts.dv_favorite_count v = Listing.favorite_count d (Posts.dv_post v)
    /\ (Posts.dv_is_favorited v = true
        <-> exists u f, viewer = Some u /\ In f (favorites d)
                        /\ f_user_id f = u_id u /\ f_post_id f = post_id)
    /\ (Posts.dv_can_edit v = true
        <-> exists u, viewer = Some u
                      /\ (u_username u = p_author (Posts.dv_post v)
                          \/ Auth.is_admin cfg u = true)).
Proof.
  intros cfg d viewer post_id v H. unfold Posts.post_detail in H.
  destruct (find _ (posts d)) as [post|] eqn:Hfind; [|discriminate].
  apply find_some in Hfind. destruct Hfind as [Hin Hid]. apply Z.eqb_eq in Hid.
  destruct (negb (Auth.is_mod cfg viewer) && negb (is_public (p_status post))) eqn:Hvis;
    [discriminate|].
  injection H as <-.
  cbn [Posts.dv_post Posts.dv_comments Posts.dv_favorite_count Posts.dv_is_favorited
       Posts.dv_can_edit].
  split; [assumption|]. split; [assumption|].
  split.
  { intros Hmod. rewrite Hmod in Hvis. cbn [negb andb] in Hvis.
    apply negb_false_iff in Hvis. now apply is_public_eq. }
  split.
  { intros c. unfold Comments.post_detail_comments.
    rewrite order_by_in, filter_In, andb_true_iff, orb_true_iff, Z.eqb_eq, is_public_eq.
    reflexivity. }
  split.
  { unfold Listing.favorite_count. now rewrite Hid. }
  split.
  - destruct viewer as [u|].
    + rewrite existsb_exists. split.
      * intros [f [Hf Hb]]. unfold Favorites.is_favorite_of in Hb.
        apply andb_true_iff in Hb. destruct Hb as [Hu Hp].
        apply Z.eqb_eq in Hu. apply Z.eqb_eq in Hp. exists u, f. auto.
      * intros [u0 [f [He [Hf [Hu Hp]]]]]. injection He as <-. exists f.
        split; [assumption|]. unfold Favorites.is_favorite_of.
        apply andb_true_iff. split; now apply Z.eqb_eq.
    + split; [discriminate|]. intros [u [f [He _]]]. discriminate.
  - destruct viewer as [u|].
    + rewrite orb_true_iff, String.eqb_eq. split.
      * intros Hc. exists u. auto.
      * intros [u0 [He Hc]]. now injection He as <-.
    + split; [discriminate|]. intros [u [He _]]. discriminate.
Qed.

(** The moderator opens the hidden post 7 of favorites_db: the page is
    shown, without an edit link. *)
Lemma X9_witness :
  exists v,
    Posts.post_detail sample_config favorites_db (Some moderator_mod) 7 = Some v
    /\ p_id (Posts.dv_post v) = 7
    /\ Posts.dv_can_edit v = false
    /\ Posts.dv_favorite_count v = Listing.favorite_count favorites_db (Posts.dv_post v).
Proof.
  eexists. split; [reflexivity|].
  destruct (X9_post_detail_shows sample_config favorites_db (Some moderator_mod) 7 _ eq_refl)
    as [_ [Hid [_ [_ [Hcount _]]]]].
  split; [exact Hid|]. split; [reflexivity|exact Hcount].
Defined.

(** ** Favorites: counts, round trips, the favorites page *)
Section FavoriteCounts.
Import Favorites.

Lemma filter_none {A : Type} (f : A -> bool) (l : list A) :
  (forall x, In x l -> f x = false) -> filter f l = [].
Proof.
  induction l as [|a l IH]; intros H; simpl; [reflexivity|].
  rewrite (H a (or_introl eq_refl)). apply IH. intros x Hx. apply H. now right.
Qed.

Lemma filter_all {A : Type} (f : A -> bool) (l : list A) :
  (forall x, In x l -> f x = true) -> filter f l = l.
Proof.
  induction l as [|a l IH]; intros H; simpl; [reflexivity|].
  rewrite (H a (or_introl eq_refl)). f_equal. apply IH. intros x Hx. apply H. now right.
Qed.

(** Removing the one row of (user, post) takes one favorite off the post. *)
Lemma remove_one_favorite (fs : list favorite) (uid post_id : Z) :
  NoDup (map (fun f => (f_user_id f, f_post_id f)) fs) ->
  existsb (is_favorite_of uid post_id) fs = true ->
  S (List.length (filter (fun f => f_post_id f =? post_id)
                         (filter (fun f => negb (is_favorite_of uid post_id f)) fs)))
  = List.length (filter (fun f => f_post_id f =? post_id) fs).
Proof.
  induction fs as [|a fs IH]; intros Hnd Hex; [discriminate|].
  simpl in Hnd. inversion Hnd as [|? ? Hna Hnd']; subst.
  cbn [existsb filter] in *.
  destruct (is_favorite_of uid post_id a) eqn:Ha.
  - cbn [negb]. unfold is_favorite_of in Ha. apply andb_true_iff in Ha.
    destruct Ha as [Hu Hp]. rewrite Hp. cbn [List.length].
    rewrite (filter_all (fun f => negb (is_favorite_of uid post_id f)) fs); [lia|].
    intros x Hx. apply negb_true_iff, not_true_is_false. intros Hb.
    unfold is_favorite_of in Hb. apply andb_true_iff in Hb. destruct Hb as [Hu' Hp'].
    apply Z.eqb_eq in Hu, Hp, Hu', Hp'. apply Hna.
    apply in_map_iff. exists x. split; [|assumption]. congruence.
  - cbn [negb orb] in *. cbn [filter].
    destruct (f_post_id a =? post_id); cbn [List.length]; rewrite <- (IH Hnd' Hex); lia.
Qed.

Lemma other_post_count (fs : list favorite) (uid post_id other : Z) :
  other <> post_id ->
  filter (fun f => f_post_id f =? other)
         (filter (fun f => negb (is_favorite_of uid post_id f)) fs)
  = filter (fun f => f_post_id f =? other) fs.
Proof.
  intros Hne. induction fs as [|a fs IH]; simpl; [reflexivity|].
  destruct (is_favorite_of uid post_id a) eqn:Ha; cbn [negb filter].
  - unfold is_favorite_of in Ha. apply andb_true_iff in Ha. destruct Ha as [_ Hp].
    apply Z.eqb_eq in Hp.
    destruct (Z.eqb_spec (f_post_id a) other) as [He|_]; [congruence|exact IH].
  - now rewrite IH.
Qed.

Lemma toggle_with_row (cfg : config) (d : db) (u : user) (post_id now : Z) :
  existsb (is_favorite_of (u_id u) post_id) (favorites d) = true ->
  toggle_favorite cfg d u post_id now
  = (Redirect "Removed from favorites.",
     set_favorites d (filter (fun f => negb (is_favorite_of (u_id u) post_id f))
                             (favorites d))
                   (favorites_id_seq d)).
Proof. intros H. unfold toggle_favorite. now rewrite H. Qed.

Lemma toggle_without_row (cfg : config) (d : db) (u : user) (post_id now : Z) :
  existsb (is_favorite_of (u_id u) post_id) (favorites d) = false ->
  toggle_favorite cfg d u post_id now
  = if refused_favorite cfg d u post_id
    then (Redirect "You cannot favorite this post right now.", d)
    else if negb (Limits.fits_integer post_id) then (ServerError, d)
    else (Redirect "Added to favorites.",
          set_favorites d
            (favorites d ++ [mkFavorite (favorites_id_seq d) (u_id u) post_id now])
            (favorites_id_seq d + 1)).
Proof. intros H. unfold toggle_favorite, refused_favorite. now rewrite H. Qed.

End FavoriteCounts.

(** X10.  [toggle_favorite] keeps the favorites table within UNIQUE (user_id,
    post_id) and moves the number of favorites of the post by exactly
    one: up by one when it answers added, down by one when it answers
    removed; a refusal changes nothing, and the count of no other post
    ever changes. *)
Theorem X10_toggle_favorite_moves_count_by_one :
  forall (cfg : config) (d : db) (u : user) (post_id now : Z),
    favorites_unique d ->
    let answer := fst (Favorites.toggle_favorite cfg d u post_id now) in
    let d' := snd (Favorites.toggle_favorite cfg d u post_id now) in
    favorites_unique d'
    /\ (forall p, p_id p <> post_id ->
                  Listing.favorite_count d' p = Listing.favorite_count d p)
    /\ (forall p, p_id p = post_id ->
                  Listing.favorite_count d' p
                  = Listing.favorite_count d p
                    + (if existsb (Favorites.is_favorite_of (u_id u) post_id) (favorites d)
                       then -1
                       else match answer with
                            | Redirect "Added to favorites." => 1
                            | _ => 0
                            end))
    /\ (answer = Redirect "Removed from favorites."
        <-> existsb (Favorites.is_favorite_of (u_id u) post_id) (favorites d) = true)
    /\ (answer = Redirect "You cannot favorite this post right now." -> d' = d).
Proof.
  intros cfg d u post_id now Huniq answer d'.
  unfold answer, d', Favorites.toggle_favorite, Listing.favorite_count, favorites_unique.
  destruct (existsb (Favorites.is_favorite_of (u_id u) post_id) (favorites d)) eqn:Hex.
  - cbn [fst snd set_favorites favorites].
    split.
    { clear Hex. unfold favorites_unique in Huniq.
      induction (favorites d) as [|a fs IH]; simpl; [constructor|].
      simpl in Huniq. inversion Huniq as [|? ? Hna Hnd]; subst.
      destruct (negb _); [|now apply IH]. simpl. constructor; [|now apply IH].
      intros Hin. apply Hna. apply in_map_iff in Hin. destruct Hin as [x [He Hx]].
      apply filter_In in Hx. apply in_map_iff. exists x. tauto. }
    split; [intros p Hp; now rewrite other_post_count|].
    split.
    { intros p Hp. rewrite Hp.
      pose proof (remove_one_favorite (favorites d) (u_id u) post_id Huniq Hex). lia. }
    split; [split; reflexivity|discriminate].
  - destruct (if negb (Auth.is_staff cfg u)
              then match Favorites.select_status d post_id with
                   | Some st => negb (is_public st)
                   | None => true
                   end
              else false).
    + cbn [fst snd]. split; [exact Huniq|]. split; [reflexivity|].
      split; [intros; lia|]. split; [split; discriminate|reflexivity].
    + destruct (negb (Limits.fits_integer post_id)).
      { cbn [fst snd]. split; [exact Huniq|]. split; [reflexivity|].
        split; [intros; lia|]. split; [split; discriminate|discriminate]. }
      cbn [fst snd set_favorites favorites].
      split.
      { unfold favorites_unique in Huniq. rewrite map_app. cbn [map].
        apply NoDup_app; [assumption|constructor; [intros []|constructor]|].
        intros x Hx [<-|[]]. apply in_map_iff in Hx. destruct Hx as [f [He Hf]].
        injection He as Hu Hp.
        assert (Hb : existsb (Favorites.is_favorite_of (u_id u) post_id) (favorites d) = true).
        { apply existsb_exists. exists f. split; [assumption|].
          unfold Favorites.is_favorite_of. now rewrite Hu, Hp, !Z.eqb_refl. }
        congruence. }
      split.
      { intros p Hp. rewrite filter_app. cbn [filter f_post_id].
        destruct (Z.eqb_spec post_id (p_id p)) as [He|_]; [congruence|].
        now rewrite app_nil_r. }
      split.
      { intros p Hp. rewrite filter_app, length_app. cbn [filter f_post_id].
        rewrite Hp, Z.eqb_refl. cbn [List.length]. lia. }
      split; [split; discriminate|discriminate].
Qed.

(** Alice drops her favorite of post 8, the only one the post has. *)
Lemma X10_witness :
  let d' := snd (Favorites.toggle_favorite sample_config favorites_db
                                           (mkUser 1 "alice" None) 8 9) in
  Listing.favorite_count favorites_db (sample_post 8 "public" "a public post") = 1
  /\ Listing.favorite_count d' (sample_post 8 "public" "a public post") = 1 + -1
  /\ favorites_unique d'.
Proof.
  intros d'. split; [reflexivity|].
  assert (Huniq : favorites_unique favorites_db)
    by (unfold favorites_unique; simpl; nodup_literals).
  pose proof (X10_toggle_favorite_moves_count_by_one sample_config favorites_db
                (mkUser 1 "alice" None) 8 9 Huniq) as H.
  cbv zeta in H. destruct H as [Hu [_ [Hcount _]]].
  split; [exact (Hcount (sample_post 8 "public" "a public post") eq_refl)|exact Hu].
Defined.

(** X11.  Toggling twice gives back the rows of [favorites]: when the user
    has no favorite on the post, two requests in a row (added and then
    removed, or refused twice) leave the table with the rows it had. *)
Theorem X11_toggle_favorite_twice :
  forall (cfg : config) (d : db) (u : user) (post_id now1 now2 : Z),
    existsb (Favorites.is_favorite_of (u_id u) post_id) (favorites d) = false ->
    let d1 := snd (Favorites.toggle_favorite cfg d u post_id now1) in
    let d2 := snd (Favorites.toggle_favorite cfg d1 u post_id now2) in
    favorites d2 = favorites d
    /\ (fst (Favorites.toggle_favorite cfg d u post_id now1) = Redirect "Added to favorites."
        -> fst (Favorites.toggle_favorite cfg d1 u post_id now2)
           = Redirect "Removed from favorites.").
Proof.
  intros cfg d u post_id now1 now2 Hno d1 d2. subst d2 d1.
  rewrite (toggle_without_row cfg d u post_id now1 Hno).
  destruct (refused_favorite cfg d u post_id) eqn:Hrefused; cbn [fst snd].
  - rewrite (toggle_without_row cfg d u post_id now2 Hno), Hrefused.
    split; [reflexivity|discriminate].
  - destruct (negb (Limits.fits_integer post_id)) eqn:Hfit; cbn [fst snd].
    { rewrite (toggle_without_row cfg d u post_id now2 Hno), Hrefused, Hfit.
      split; [reflexivity|discriminate]. }
    assert (Hnow : existsb (Favorites.is_favorite_of (u_id u) post_id)
                     (favorites (set_favorites d
                        (favorites d ++ [mkFavorite (favorites_id_seq d) (u_id u) post_id now1])
                        (favorites_id_seq d + 1)))
                   = true).
    { cbn [set_favorites favorites]. rewrite existsb_app. cbn [existsb].
      unfold Favorites.is_favorite_of at 2.
      cbn [f_user_id f_post_id]. rewrite !Z.eqb_refl. apply orb_true_r. }
    rewrite (toggle_with_row cfg _ u post_id now2 Hnow). cbn [fst snd set_favorites favorites].
    split; [|reflexivity].
    rewrite filter_app. cbn [filter]. unfold Favorites.is_favorite_of at 2.
    cbn [f_user_id f_post_id]. rewrite !Z.eqb_refl. cbn [andb negb].
    rewrite app_nil_r. apply filter_all.
    intros f Hf. apply negb_true_iff.
    destruct (Favorites.is_favorite_of (u_id u) post_id f) eqn:Hb; [|reflexivity].
    assert (existsb (Favorites.is_favorite_of (u_id u) post_id) (favorites d) = true).
    { apply existsb_exists. now exists f. }
    congruence.
Qed.

(** The moderator favorites the hidden post 7 and takes it back. *)
Lemma X11_witness :
  let d1 := snd (Favorites.toggle_favorite sample_config favorites_db moderator_mod 7 9) in
  let d2 := snd (Favorites.toggle_favorite sample_config d1 moderator_mod 7 10) in
  favorites d1 = [mkFavorite 1 1 8 5; mkFavorite 2 2 7 9]
  /\ favorites d2 = favorites favorites_db.
Proof.
  intros d1 d2. split; [reflexivity|].
  exact (proj1 (X11_toggle_favorite_twice sample_config favorites_db moderator_mod 7 9 10
                  eq_refl)).
Defined.

(** X12.  The favorites page follows [toggle_favorite]: it lists the posts of
    the table the user has a favorite on (for a user who is not staff
    the public ones), so a post is on the page right after the answer
    added, off the page right after the answer removed, and no other
    post comes or goes. *)
Theorem X12_my_favorites_follows_toggle :
  forall (cfg : config) (d : db) (u : user) (p : post) (now : Z),
    posts_keyed d ->
    In p (posts d) ->
    let answer := fst (Favorites.toggle_favorite cfg d u (p_id p) now) in
    let d' := snd (Favorites.toggle_favorite cfg d u (p_id p) now) in
    (answer = Redirect "Added to favorites."
     -> In p (Posts.fv_posts (Posts.my_favorites cfg d' u)))
    /\ (answer = Redirect "Removed from favorites."
        -> ~ In p (Posts.fv_posts (Posts.my_favorites cfg d' u)))
    /\ (forall q, p_id q <> p_id p ->
                  (In q (Posts.fv_posts (Posts.my_favorites cfg d' u))
                   <-> In q (Posts.fv_posts (Posts.my_favorites cfg d u)))).
Proof.
  intros cfg d u p now Hkey Hp answer d'. subst answer d'.
  destruct (existsb (Favorites.is_favorite_of (u_id u) (p_id p)) (favorites d)) eqn:Hex.
  - rewrite (toggle_with_row cfg d u (p_id p) now Hex). cbn [fst snd].
    split; [discriminate|]. split.
    + intros _ Hin. apply my_favorites_rows in Hin.
      destruct Hin as [_ [[f [Hf [Hu Hid]]] _]].
      cbn [set_favorites favorites] in Hf. apply filter_In in Hf. destruct Hf as [_ Hb].
      unfold Favorites.is_favorite_of in Hb. rewrite Hu, Hid, !Z.eqb_refl in Hb.
      discriminate.
    + intros q Hq. rewrite !my_favorites_rows.
      cbn [set_favorites favorites posts].
      split; intros [Hin [[f [Hf [Hu Hid]]] Hvis]]; (split; [assumption|]);
        (split; [|assumption]); exists f; (split; [|auto]).
      * apply filter_In in Hf. tauto.
      * apply filter_In. split; [assumption|]. apply negb_true_iff.
        unfold Favorites.is_favorite_of. apply andb_false_iff. right.
        apply Z.eqb_neq. congruence.
  - rewrite (toggle_without_row cfg d u (p_id p) now Hex).
    destruct (refused_favorite cfg d u (p_id p)) eqn:Hrefused; cbn [fst snd].
    + split; [discriminate|]. split; [discriminate|]. intros q _. reflexivity.
    + destruct (negb (Limits.fits_integer (p_id p))); cbn [fst snd];
        [split; [discriminate|]; split; [discriminate|]; intros q _; reflexivity|].
      split; [|split; [discriminate|]].
      * intros _. apply my_favorites_rows. cbn [set_favorites favorites posts].
        split; [assumption|]. split.
        { eexists. split; [apply in_or_app; right; left; reflexivity|]. split; reflexivity. }
        unfold refused_favorite, Favorites.select_status in Hrefused.
        rewrite (find_by_key p_id (posts d) p Hkey Hp) in Hrefused.
        destruct (Auth.is_staff cfg u); [now left|right].
        cbn [negb] in Hrefused. apply negb_false_iff in Hrefused. now apply is_public_eq.
      * intros q Hq. rewrite !my_favorites_rows.
        cbn [set_favorites favorites posts].
        split; intros [Hin [[f [Hf [Hu Hid]]] Hvis]]; (split; [assumption|]);
          (split; [|assumption]); exists f; (split; [|auto]).
        -- apply in_app_or in Hf. destruct Hf as [Hf|[<-|[]]]; [assumption|].
           cbn [f_post_id] in Hid. congruence.
        -- apply in_or_app. now left.
Qed.

(** Alice has a favorite on post 8 of favorites_db: the post is on her
    favorites page, and off it once she toggles. *)
Lemma X12_witness :
  let p := sample_post 8 "public" "a public post" in
  let d' := snd (Favorites.toggle_favorite sample_config favorites_db
                                           (mkUser 1 "alice" None) 8 9) in
  map p_id (Posts.fv_posts (Posts.my_favorites sample_config favorites_db
                                               (mkUser 1 "alice" None))) = [8]
  /\ ~ In p (Posts.fv_posts (Posts.my_favorites sample_config d' (mkUser 1 "alice" None))).
Proof.
  intros p d'. split; [reflexivity|].
  assert (Hkey : posts_keyed favorites_db) by (unfold posts_keyed; simpl; nodup_literals).
  assert (Hp : In p (posts favorites_db)) by (right; now left).
  pose proof (X12_my_favorites_follows_toggle sample_config favorites_db
                (mkUser 1 "alice" None) p 9 Hkey Hp) as H.
  cbv zeta in H. destruct H as [_ [Hoff _]]. apply Hoff. reflexivity.
Defined.

(** ** get_favorite_counts *)
Section DictFacts.
Context {V : Type}.

Lemma dict_get_store (k k' : Z) (v : V) (items : list (Z * V)) :
  Dict.get k (Dict.store k' v items)
  = if k' =? k then Some v else Dict.get k items.
Proof.
  unfold Dict.get, Dict.store. cbn [find fst snd].
  destruct (Z.eqb_spec k' k) as [He|Hne]; [reflexivity|].
  induction items as [|[k0 v0] items IH]; simpl; [reflexivity|].
  destruct (Z.eqb_spec k0 k') as [H0|H0]; simpl.
  - subst k0. destruct (Z.eqb_spec k' k); [contradiction|exact IH].
  - destruct (k0 =? k); [reflexivity|exact IH].
Qed.

(** A dict built from rows whose value is a function of the key. *)
Lemma dict_of_keys (f : Z -> V) (keys : list Z) (k : Z) :
  Dict.get k (Dict.of_rows (map (fun x => (x, f x)) keys))
  = if Filter.mem k keys then Some (f k) else None.
Proof.
  unfold Dict.of_rows.
  assert (H : forall items,
             Dict.get k (fold_left (fun items row => Dict.store (fst row) (snd row) items)
                                   (map (fun x => (x, f x)) keys) items)
             = if Filter.mem k keys then Some (f k) else Dict.get k items).
  { induction keys as [|x keys IH]; intros items; [reflexivity|].
    cbn [map fold_left fst snd]. rewrite IH, dict_get_store.
    unfold Filter.mem. cbn [existsb]. fold (Filter.mem k keys).
    rewrite (Z.eqb_sym k x).
    destruct (Filter.mem k keys); [now rewrite orb_true_r|].
    rewrite orb_false_r. destruct (Z.eqb_spec x k) as [->|_]; reflexivity. }
  rewrite H. reflexivity.
Qed.

End DictFacts.

(** X13.  The dict of [get_favorite_counts] agrees with the favorite count of
    the listing: [fav_counts.get(id, 0)] is the number of favorites of
    the post, and a post has a key exactly when it has a favorite. *)
Theorem X13_get_favorite_counts_agrees :
  forall (d : db) (p : post),
    Dict.get_default (p_id p) 0 (get_favorite_counts d) = Listing.favorite_count d p
    /\ (Dict.get (p_id p) (get_favorite_counts d) = None
        <-> Listing.favorite_count d p = 0).
Proof.
  intros d p. unfold Dict.get_default, get_favorite_counts, Listing.favorite_count.
  rewrite (dict_of_keys
             (fun post_id => Z.of_nat (List.length
                (filter (fun f => f_post_id f =? post_id) (favorites d))))).
  destruct (Filter.mem (p_id p) (Filter.distinct (map f_post_id (favorites d)))) eqn:Hm.
  - split; [reflexivity|]. split; [discriminate|].
    intros Hz. exfalso.
    apply mem_In, distinct_In, in_map_iff in Hm. destruct Hm as [f [Hid Hf]].
    assert (Hin : In f (filter (fun f => f_post_id f =? p_id p) (favorites d))).
    { apply filter_In. split; [assumption|]. now apply Z.eqb_eq. }
    destruct (filter _ (favorites d)); [contradiction|simpl in Hz; lia].
  - assert (Hnone : filter (fun f => f_post_id f =? p_id p) (favorites d) = []).
    { apply filter_none. intros f Hf. apply Z.eqb_neq. intros Hid.
      assert (Ht : Filter.mem (p_id p) (Filter.distinct (map f_post_id (favorites d))) = true).
      { apply mem_In, distinct_In, in_map_iff. now exists f. }
      congruence. }
    rewrite Hnone. repeat split; reflexivity.
Qed.

(** ** Marking notifications read *)
Section MarkReadFacts.
Import Notify NotifyRead.

Lemma find_map_same_key (g : user_reads_row -> user_reads_row) (k : Z)
      (rows : list user_reads_row) :
  (forall r, ur_user_id (g r) = ur_user_id r) ->
  find (fun r => ur_user_id r =? k) (map g rows)
  = option_map g (find (fun r => ur_user_id r =? k) rows).
Proof.
  intros Hg. induction rows as [|r rows IH]; simpl; [reflexivity|].
  rewrite Hg. destruct (ur_user_id r =? k); [reflexivity|exact IH].
Qed.

Lemma mark_keeps_user (typ : option string) (now : Z) (r : user_reads_row) :
  ur_user_id (mark typ now r) = ur_user_id r.
Proof.
  unfold mark. destruct typ as [t|]; [|reflexivity].
  repeat (match goal with |- context [if ?b then _ else _] => destruct b end;
          try reflexivity).
Qed.

Lemma find_ensure_row (rows : list user_reads_row) (user_id k : Z) :
  find (fun r => ur_user_id r =? k) (ensure_row rows user_id)
  = match find (fun r => ur_user_id r =? k) rows with
    | Some r => Some r
    | None => if user_id =? k then Some (mkUserReads user_id None None None) else None
    end.
Proof.
  unfold ensure_row.
  destruct (existsb (fun r => ur_user_id r =? user_id) rows) eqn:Hex.
  - destruct (find (fun r => ur_user_id r =? k) rows) as [r|] eqn:Hfind; [reflexivity|].
    destruct (Z.eqb_spec user_id k) as [->|_]; [|reflexivity].
    exfalso. apply existsb_exists in Hex. destruct Hex as [r [Hr Hk]].
    pose proof (find_none _ _ Hfind r Hr) as Hn. cbv beta in Hn. congruence.
  - induction rows as [|r rows IH]; simpl.
    + destruct (user_id =? k); reflexivity.
    + simpl in Hex. apply orb_false_iff in Hex. destruct Hex as [_ Hex].
      destruct (ur_user_id r =? k); [reflexivity|now apply IH].
Qed.

(** The watermarks a user has after [notify_mark_read]. *)
Lemma last_reads_after_mark (d : db) (user_id : Z) (typ : option string) (now k : Z) :
  get_notify_last_reads (notify_mark_read d user_id typ now) k
  = if k =? user_id
    then let before := get_notify_last_reads d user_id in
         let r := mark typ now (mkUserReads user_id (lr_comments_on_my_posts before)
                                            (lr_replies_to_me before)
                                            (lr_favorites_on_my_posts before)) in
         mkLastReads (ur_comments_on_my_posts r) (ur_replies_to_me r)
                     (ur_favorites_on_my_posts r)
    else get_notify_last_reads d k.
Proof.
  unfold get_notify_last_reads, notify_mark_read. cbn [set_user_reads user_reads].
  rewrite (find_map_same_key
             (fun r => if ur_user_id r =? user_id then mark typ now r else r)).
  2:{ intros r. destruct (ur_user_id r =? user_id); [apply mark_keeps_user|reflexivity]. }
  rewrite find_ensure_row.
  destruct (Z.eqb_spec k user_id) as [->|Hne].
  - destruct (find (fun r => ur_user_id r =? user_id) (user_reads d)) as [r|] eqn:Hfind;
      cbn [option_map].
    + apply find_some in Hfind. destruct Hfind as [_ Hk]. rewrite Hk.
      apply Z.eqb_eq in Hk. cbv zeta.
      cbn [lr_comments_on_my_posts lr_replies_to_me lr_favorites_on_my_posts].
      unfold mark. destruct typ as [t|]; [|reflexivity].
      repeat (match goal with |- context [if ?b then _ else _] => destruct b end;
              try reflexivity).
    + rewrite !Z.eqb_refl. cbn [option_map ur_user_id]. rewrite Z.eqb_refl. reflexivity.
  - destruct (find (fun r => ur_user_id r =? k) (user_reads d)) as [r|] eqn:Hfind;
      cbn [option_map].
    + apply find_some in Hfind. destruct Hfind as [_ Hk]. apply Z.eqb_eq in Hk.
      destruct (Z.eqb_spec (ur_user_id r) user_id); [congruence|reflexivity].
    + destruct (Z.eqb_spec user_id k); [congruence|reflexivity].
Qed.

End MarkReadFacts.

(** X14.  What [notify_mark_read] stores is what [get_notify_last_reads] reads
    back: with the type all the three watermarks of the user are the
    time of the request, with the name of one counter that watermark is
    and the other two are as before, and with any other type (or none)
    all three are as before.  The watermarks of every other user and the
    other tables are untouched. *)
Theorem X14_notify_mark_read_round_trip :
  forall (d : db) (user_id : Z) (typ : option string) (now : Z),
    let before := Notify.get_notify_last_reads d user_id in
    let d' := NotifyRead.notify_mark_read d user_id typ now in
    let after := Notify.get_notify_last_reads d' user_id in
    (typ = Some "all"%string ->
     after = Notify.mkLastReads (Some now) (Some now) (Some now))
    /\ (typ = Some "comments_on_my_posts"%string ->
        after = Notify.mkLastReads (Some now) (Notify.lr_replies_to_me before)
                                   (Notify.lr_favorites_on_my_posts before))
    /\ (typ = Some "replies_to_me"%string ->
        after = Notify.mkLastReads (Notify.lr_comments_on_my_posts before) (Some now)
                                   (Notify.lr_favorites_on_my_posts before))
    /\ (typ = Some "favorites_on_my_posts"%string ->
        after = Notify.mkLastReads (Notify.lr_comments_on_my_posts before)
                                   (Notify.lr_replies_to_me before) (Some now))
    /\ (~ In typ [Some "all"; Some "comments_on_my_posts"; Some "replies_to_me";
                  Some "favorites_on_my_posts"]%string ->
        after = before)
    /\ (forall other, other <> user_id ->
                      Notify.get_notify_last_reads d' other
                      = Notify.get_notify_last_reads d other)
    /\ posts d' = posts d /\ comments d' = comments d /\ favorites d' = favorites d
    /\ users d' = users d.
Proof.
  intros d user_id typ now before d' after. subst after d'.
  repeat split; try reflexivity.
  1-4: intros ->; rewrite last_reads_after_mark, Z.eqb_refl; reflexivity.
  - intros Hnot. rewrite last_reads_after_mark, Z.eqb_refl. cbv zeta.
    fold before. unfold NotifyRead.mark.
    destruct typ as [t|]; [|now destruct before].
    destruct (String.eqb_spec t "all") as [->|_]; [exfalso; apply Hnot; simpl; auto|].
    destruct (String.eqb_spec t "comments_on_my_posts") as [->|_];
      [exfalso; apply Hnot; simpl; auto|].
    destruct (String.eqb_spec t "replies_to_me") as [->|_];
      [exfalso; apply Hnot; simpl; auto|].
    destruct (String.eqb_spec t "favorites_on_my_posts") as [->|_];
      [exfalso; apply Hnot; simpl; auto|].
    now destruct before.
  - intros other Hne. rewrite last_reads_after_mark.
    destruct (Z.eqb_spec other user_id); [contradiction|reflexivity].
Qed.

(** X15.  After [notify_mark_read] with the type all, the three counters of
    the user count the events by others that are later than the request,
    and all three are zero when no comment and no favorite is later. *)
Theorem X15_notify_mark_all_resets_counts :
  forall (d : db) (user_id : Z) (username : string) (now : Z),
    NoDup (map p_id (posts d)) ->
    NoDup (map u_id (users d)) ->
    let d' := NotifyRead.notify_mark_read d user_id (Some "all"%string) now in
    Notify.get_notify_counts_for_user d' user_id username
    = Some (Notify.mkCounts
        (Z.of_nat (List.length
           (filter (fun c => is_post_of d username (c_post_id c)
                             && by_someone_else username (c_author c)
                             && (now <? c_created_at c))
                   (comments d))))
        (Z.of_nat (List.length
           (filter (fun c => is_comment_of d username (c_parent_id c)
                             && by_someone_else username (c_author c)
                             && (now <? c_created_at c))
                   (comments d))))
        (Z.of_nat (List.length
           (filter (fun f => is_post_of d username (f_post_id f)
                             && is_other_user d username (f_user_id f)
                             && (now <? f_created_at f))
                   (favorites d)))))
    /\ ((forall c, In c (comments d) -> c_created_at c <= now) ->
        (forall f, In f (favorites d) -> f_created_at f <= now) ->
        Notify.get_notify_counts_for_user d' user_id username
        = Some (Notify.mkCounts 0 0 0)).
Proof.
  intros d user_id username now Hp Hu d'.
  assert (Hcounts : Notify.get_notify_counts_for_user d' user_id username
                    = Some (Notify.mkCounts
        (Z.of_nat (List.length
           (filter (fun c => is_post_of d username (c_post_id c)
                             && by_someone_else username (c_author c)
                             && (now <? c_created_at c))
                   (comments d))))
        (Z.of_nat (List.length
           (filter (fun c => is_comment_of d username (c_parent_id c)
                             && by_someone_else username (c_author c)
                             && (now <? c_created_at c))
                   (comments d))))
        (Z.of_nat (List.length
           (filter (fun f => is_post_of d username (f_post_id f)
                             && is_other_user d username (f_user_id f)
                             && (now <? f_created_at f))
                   (favorites d)))))).
  { unfold Notify.get_notify_counts_for_user. unfold d'.
    rewrite last_reads_after_mark, Z.eqb_refl.
    cbv zeta. cbn [NotifyRead.mark String.eqb Ascii.eqb Bool.eqb
                   ur_comments_on_my_posts ur_replies_to_me ur_favorites_on_my_posts
                   Notify.lr_comments_on_my_posts Notify.lr_replies_to_me
                   Notify.lr_favorites_on_my_posts].
    fold d'.
    rewrite (count_comments_on_posts_spec d' Hp), (count_replies_spec d'),
      (count_favorites_on_posts_spec d' Hp Hu).
    reflexivity. }
  split; [exact Hcounts|].
  intros Hc Hf. rewrite Hcounts.
  rewrite !filter_none; [reflexivity| | |].
  - intros f Hin. specialize (Hf f Hin).
    rewrite (proj2 (Z.ltb_ge now (f_created_at f)) Hf). apply andb_false_r.
  - intros c Hin. specialize (Hc c Hin).
    rewrite (proj2 (Z.ltb_ge now (c_created_at c)) Hc). apply andb_false_r.
  - intros c Hin. specialize (Hc c Hin).
    rewrite (proj2 (Z.ltb_ge now (c_created_at c)) Hc). apply andb_false_r.
Qed.

(** Alice marks everything read at time 12: only Bob's reply and his
    second favorite, both of time 15, still count. *)
Lemma X15_witness :
  Notify.get_notify_counts_for_user
    (NotifyRead.notify_mark_read notify_db 1 (Some "all"%string) 12) 1 "alice"
  = Some (Notify.mkCounts 1 1 1)
  /\ Notify.get_notify_counts_for_user
       (NotifyRead.notify_mark_read notify_db 1 (Some "all"%string) 15) 1 "alice"
     = Some (Notify.mkCounts 0 0 0).
Proof.
  assert (Hp : NoDup (map p_id (posts notify_db))) by (simpl; nodup_literals).
  assert (Hu : NoDup (map u_id (users notify_db))) by (simpl; nodup_literals).
  split.
  - rewrite (proj1 (X15_notify_mark_all_resets_counts notify_db 1 "alice" 12 Hp Hu)).
    reflexivity.
  - apply (proj2 (X15_notify_mark_all_resets_counts notify_db 1 "alice" 15 Hp Hu)).
    + intros c Hc. simpl in Hc. destruct Hc as [<-|[<-|[<-|[]]]]; simpl; lia.
    + intros f Hf. simpl in Hf. destruct Hf as [<-|[<-|[<-|[]]]]; simpl; lia.
Defined.

(** ** The listing without a keyword *)

(** Evaluates [merge_args] on a statement whose text is closed. *)
Ltac merge_sql_text :=
  match goal with
  | |- context [Sql.merge_args ?sql ?args] =>
      let H := fresh "Hmerge" in
      assert (H : Sql.merge_args sql args = Some args) by (vm_compute; reflexivity);
      rewrite H; clear H
  end.

Section ListingWithoutKeyword.
Import Sql Filter Listing.
Variable E : fts_engine.
Variable cfg : config.
Variable d : db.

Lemma sorted_rows_length (bs : list bound) (o : ordering) :
  List.length (sorted_rows E d bs o) = List.length (filter (satisfies E d bs) (posts d)).
Proof.
  unfold sorted_rows.
  rewrite (Permutation_length (order_by_perm _ _)). apply length_map.
Qed.

Lemma statements_without_keyword (genre : option string) (tags : list Z) (is_mod : bool)
      (o : ordering) (per off : Z) :
  o <> OrdRelevance -> 0 <= per <= Limits.bigint_max -> 0 <= off <= Limits.bigint_max ->
  let f := build_posts_filter_sql "" genre tags is_mod in
  exists bs,
    bind_where (where_ f) (params f) = Some (bs, [])
    /\ rank_sql f = None
    /\ execute E d
         (mkSelect (listing_sql listing_select_cols (where_sql f) (ordering_sql o))
                   false (where_ f) o true)
         (params f ++ [PInt per; PInt off])
       = Some (firstn (Z.to_nat per) (skipn (Z.to_nat off) (sorted_rows E d bs o)))
    /\ execute E d
         (mkSelect (export_sql "p.*, COALESCE(fc.cnt,0) AS favorite_count"
                               (where_sql f) (ordering_sql o))
                   false (where_ f) o false)
         (params f)
       = Some (sorted_rows E d bs o).
Proof.
  intros Ho Hper Hoff f.
  assert (Hwin : (0 <=? per) && (0 <=? off) && (per <=? Limits.bigint_max)
                 && (off <=? Limits.bigint_max) = true).
  { rewrite !andb_true_iff, !Z.leb_le. lia. }
  unfold f, build_posts_filter_sql, execute, sorted_rows.
  destruct is_mod, (Py.truthy_str genre), tags, o; try contradiction;
    cbn [negb String.eqb rank_sql params where_ s_sql s_rank s_where s_order s_paged app
         bind_where];
    eexists; (split; [reflexivity|]); (split; [reflexivity|]);
    (split; [merge_sql_text; cbn [bind_where]; rewrite Hwin; reflexivity
            |merge_sql_text; reflexivity]).
Qed.

Lemma show_posts_without_keyword (viewer : option user) (sort : string)
      (genre : option string) (tags : list Z) (page : Z) :
  order_by_of sort <> OrdRelevance -> 0 <= PER_PAGE cfg ->
  Z.max 1 page * PER_PAGE cfg <= Limits.bigint_max ->
  exists all,
    export_posts_csv E cfg d viewer sort "" genre tags = Some all
    /\ export_posts_json E cfg d viewer sort "" genre tags = Some all
    /\ show_posts E cfg d viewer sort "" genre tags page
       = Some (mkPage
                 (map (fun r => mkCard r (card_image_url cfg (r_post r)))
                      (firstn (Z.to_nat (PER_PAGE cfg))
                              (skipn (Z.to_nat ((Z.max 1 page - 1) * PER_PAGE cfg)) all)))
                 (Z.of_nat (List.length all))
                 (Z.max 1 page)
                 (1 <? Z.max 1 page)
                 ((Z.max 1 page - 1) * PER_PAGE cfg + PER_PAGE cfg
                  <? Z.of_nat (List.length all))).
Proof.
  intros Ho Hper Hbig.
  assert (Hoff : 0 <= (Z.max 1 page - 1) * PER_PAGE cfg <= Limits.bigint_max) by nia.
  assert (Hper' : 0 <= PER_PAGE cfg <= Limits.bigint_max) by nia.
  destruct (statements_without_keyword genre tags (Auth.is_mod cfg viewer)
              (order_by_of sort) (PER_PAGE cfg) ((Z.max 1 page - 1) * PER_PAGE cfg)
              Ho Hper' Hoff) as [bs [Hb [Hrank [Hlist Hexp]]]].
  exists (sorted_rows E d bs (order_by_of sort)).
  assert (Hcsv : export_posts_csv E cfg d viewer sort "" genre tags
                 = Some (sorted_rows E d bs (order_by_of sort))).
  { unfold export_posts_csv. rewrite Hrank. cbn [Py.truthy_str app]. exact Hexp. }
  split; [exact Hcsv|]. split; [exact Hcsv|].
  unfold show_posts.
  rewrite (execute_count_bound E d "" genre tags (Auth.is_mod cfg viewer) bs Hb).
  rewrite Hrank. cbn [Py.truthy_str]. rewrite Hlist, sorted_rows_length. reflexivity.
Qed.

End ListingWithoutKeyword.

(** X16.  Without a keyword the listing and the exports agree, from the
    parsed tag ids on.  Take [show_posts], [export_posts_csv] and
    [export_posts_json] on the same keyword-free request, after the tag
    arguments are parsed to one list of ids (the parsing of [tags], and
    of [tag], which only [show_posts] reads, is not part of the
    statement).  Let the sort key be other than relevance, the genre
    free of the character NUL, PER_PAGE not negative, the end of the
    page a bigint of the server, and no two posts of the same
    [created_at], so that the order of the rows is fixed.  Then the
    three handlers run, the CSV and the JSON export return the same
    rows, the total of the listing is their number, and page k of the
    listing is the rows from (k-1) * PER_PAGE up to k * PER_PAGE of the
    export, in that order, each with its card image. *)
Theorem X16_listing_is_window_of_export :
  forall (E : fts_engine) (cfg : config) (d : db) (viewer : option user) (sort : string)
         (genre : option string) (tag_ids : list Z) (page : Z),
    Listing.order_by_of sort <> Listing.OrdRelevance ->
    (forall g, genre = Some g -> Limits.has_nul g = false) ->
    NoDup (map p_created_at (posts d)) ->
    0 <= PER_PAGE cfg ->
    Z.max 1 page * PER_PAGE cfg <= Limits.bigint_max ->
    exists all view,
      Listing.export_posts_csv E cfg d viewer sort "" genre tag_ids = Some all
      /\ Listing.export_posts_json E cfg d viewer sort "" genre tag_ids = Some all
      /\ Listing.show_posts E cfg d viewer sort "" genre tag_ids page = Some view
      /\ map Listing.cd_row (Listing.pv_posts view)
         = firstn (Z.to_nat (PER_PAGE cfg))
                  (skipn (Z.to_nat ((Z.max 1 page - 1) * PER_PAGE cfg)) all)
      /\ Listing.pv_total view = Z.of_nat (List.length all)
      /\ (forall c, In c (Listing.pv_posts view) ->
                    Listing.cd_image_url c
                    = Listing.card_image_url cfg (Listing.r_post (Listing.cd_row c))).
Proof.
  intros E cfg d viewer sort genre tag_ids page Ho _ _ Hper Hbig.
  destruct (show_posts_without_keyword E cfg d viewer sort genre tag_ids page Ho Hper Hbig)
    as [all [Hcsv [Hjson Hshow]]].
  eexists. eexists. split; [exact Hcsv|]. split; [exact Hjson|]. split; [exact Hshow|].
  cbn [Listing.pv_posts Listing.pv_total]. split; [|split; [reflexivity|]].
  - rewrite map_map. cbn [Listing.cd_row]. apply map_id.
  - intros c Hc. apply in_map_iff in Hc. destruct Hc as [r [<- _]]. reflexivity.
Qed.

(** The two public posts of listing_db, the later one first, and page 2
    of a listing with one post per page. *)
Lemma X16_witness :
  option_map (map (fun r => p_id (Listing.r_post r)))
             (Listing.export_posts_csv sample_fts (mkConfig 1 [] None None None)
                                       listing_db None "new" "" None [])
  = Some [3; 1]
  /\ exists all view,
       Listing.export_posts_csv sample_fts (mkConfig 1 [] None None None)
                                listing_db None "new" "" None [] = Some all
       /\ Listing.show_posts sample_fts (mkConfig 1 [] None None None)
                             listing_db None "new" "" None [] 2 = Some view
       /\ map Listing.cd_row (Listing.pv_posts view) = firstn 1 (skipn 1 all).
Proof.
  split; [vm_compute; reflexivity|].
  destruct (X16_listing_is_window_of_export sample_fts (mkConfig 1 [] None None None)
              listing_db None "new" None [] 2)
    as [all [view [Hcsv [_ [Hshow [Hrows _]]]]]].
  - discriminate.
  - discriminate.
  - simpl. nodup_literals.
  - simpl. lia.
  - vm_compute. discriminate.
  - exists all, view. split; [exact Hcsv|]. split; [exact Hshow|exact Hrows].
Defined.

(** X17.  The page arithmetic of the listing, from the parsed tag ids on
    (the parsing of the arguments [tags] and [tag] is not part of the
    statement), for a request without keyword, a sort key other than
    relevance, a genre free of the character NUL, a positive PER_PAGE
    and a page whose next page still ends within the bigints of the
    server: [show_posts] runs for the page and for the next one; a page
    argument below 1 shows page 1; no page has more than PER_PAGE cards;
    there is a previous page exactly from page 2 on; and there is a next
    page exactly when the next page has a card, in which case this page
    is full. *)
Theorem X17_listing_pagination :
  forall (E : fts_engine) (cfg : config) (d : db) (viewer : option user) (sort : string)
         (genre : option string) (tag_ids : list Z) (page : Z),
    Listing.order_by_of sort <> Listing.OrdRelevance ->
    (forall g, genre = Some g -> Limits.has_nul g = false) ->
    0 < PER_PAGE cfg ->
    (Z.max 1 page + 1) * PER_PAGE cfg <= Limits.bigint_max ->
    exists view next,
      Listing.show_posts E cfg d viewer sort "" genre tag_ids page = Some view
      /\ Listing.show_posts E cfg d viewer sort "" genre tag_ids (Listing.pv_page view + 1)
         = Some next
      /\ Listing.pv_page view = Z.max 1 page
      /\ Z.of_nat (List.length (Listing.pv_posts view)) <= PER_PAGE cfg
      /\ (Listing.pv_has_prev view = true <-> 1 < Listing.pv_page view)
      /\ (Listing.pv_has_next view = true <-> Listing.pv_posts next <> [])
      /\ (Listing.pv_has_next view = true ->
          Z.of_nat (List.length (Listing.pv_posts view)) = PER_PAGE cfg)
      /\ Listing.pv_total next = Listing.pv_total view.
Proof.
  intros E cfg d viewer sort genre tag_ids page Ho _ Hper Hbig.
  assert (Hper' : 0 <= PER_PAGE cfg) by lia.
  assert (Hbig1 : Z.max 1 page * PER_PAGE cfg <= Limits.bigint_max) by nia.
  assert (Hbig2 : Z.max 1 (Z.max 1 page + 1) * PER_PAGE cfg <= Limits.bigint_max).
  { replace (Z.max 1 (Z.max 1 page + 1)) with (Z.max 1 page + 1) by lia. exact Hbig. }
  destruct (show_posts_without_keyword E cfg d viewer sort genre tag_ids page Ho Hper' Hbig1)
    as [all [Hcsv [_ Hshow]]].
  destruct (show_posts_without_keyword E cfg d viewer sort genre tag_ids
              (Z.max 1 page + 1) Ho Hper' Hbig2) as [all' [Hcsv' [_ Hnext]]].
  assert (all' = all) by congruence. subst all'.
  eexists. eexists. split; [exact Hshow|].
  cbn [Listing.pv_page Listing.pv_posts Listing.pv_has_prev Listing.pv_has_next
       Listing.pv_total].
  split; [exact Hnext|].
  cbn [Listing.pv_page Listing.pv_posts Listing.pv_has_prev Listing.pv_has_next
       Listing.pv_total].
  split; [reflexivity|].
  set (per := PER_PAGE cfg) in *. set (p := Z.max 1 page) in *.
  set (total := Z.of_nat (List.length all)).
  assert (Hp : 1 <= p) by (unfold p; lia).
  assert (Hlen : forall k, 1 <= k ->
             Z.of_nat (List.length
               (map (fun r => Listing.mkCard r (Listing.card_image_url cfg (Listing.r_post r)))
                    (firstn (Z.to_nat per) (skipn (Z.to_nat ((k - 1) * per)) all))))
             = Z.min per (Z.max 0 (total - (k - 1) * per))).
  { intros k Hk. rewrite length_map. apply window_length; nia. }
  replace (Z.max 1 (p + 1)) with (p + 1) by lia.
  split; [rewrite (Hlen p Hp); lia|].
  split; [apply Z.ltb_lt|].
  split.
  { rewrite Z.ltb_lt. pose proof (Hlen (p + 1) ltac:(lia)) as Hl.
    replace ((p + 1 - 1) * per) with ((p - 1) * per + per) in * by ring.
    split.
    - intros Hlt Hnil. rewrite Hnil in Hl. cbn [List.length] in Hl. lia.
    - intros Hne.
      destruct (Z.ltb_spec ((p - 1) * per + per) total) as [Hlt|Hge]; [exact Hlt|].
      exfalso. apply Hne, length_zero_iff_nil. lia. }
  split; [|reflexivity].
  rewrite Z.ltb_lt. intros Hlt. rewrite (Hlen p Hp). lia.
Qed.

(** listing_db has two public posts: with one post per page, page 1 has
    a next page and page 2 has none. *)
Lemma X17_witness :
  exists view next,
    Listing.show_posts sample_fts (mkConfig 1 [] None None None) listing_db None "new" ""
                       None [] 1 = Some view
    /\ Listing.show_posts sample_fts (mkConfig 1 [] None None None) listing_db None "new" ""
                          None [] 2 = Some next
    /\ Listing.pv_has_next view = true
    /\ Listing.pv_has_next next = false
    /\ Listing.pv_posts next <> [].
Proof.
  destruct (X17_listing_pagination sample_fts (mkConfig 1 [] None None None) listing_db None
              "new" None [] 1)
    as [view [next [Hview [Hnext [Hpage [_ [_ [Hiff _]]]]]]]].
  - discriminate.
  - discriminate.
  - reflexivity.
  - vm_compute. discriminate.
  - rewrite Hpage in Hnext. exists view, next.
    split; [exact Hview|]. split; [exact Hnext|].
    assert (Hn : Listing.pv_has_next view = true).
    { vm_compute in Hview. injection Hview as <-. reflexivity. }
    split; [exact Hn|]. split; [|now apply Hiff].
    vm_compute in Hnext. injection Hnext as <-. reflexivity.
Defined.

(** ** The CDN rewrite *)
Section ReplaceFacts.

Lemma prefix_app (p s : string) : String.prefix p (p ++ s) = true.
Proof.
  induction p as [|c p IH]; simpl; [now destruct s|].
  destruct (ascii_dec c c); [exact IH|contradiction].
Qed.

Lemma replace_from_skip (old new a s : string) :
  Py.replace_from (String.length a) old new (a ++ s) = Py.replace_from O old new s.
Proof. induction a as [|c a IH]; simpl; [reflexivity|exact IH]. Qed.

Lemma replace_at_prefix (c : ascii) (old' new s : string) :
  Py.replace_from O (String c old') new (String c old' ++ s)
  = (new ++ Py.replace_from O (String c old') new s)%string.
Proof.
  change (String c old' ++ s)%string with (String c (old' ++ s)).
  cbn [Py.replace_from].
  change (String c (old' ++ s)) with (String c old' ++ s)%string.
  rewrite prefix_app.
  replace (String.length (String c old') - 1)%nat with (String.length old')
    by (cbn [String.length]; lia).
  now rewrite replace_from_skip.
Qed.

Lemma replace_absent (old new s : string) :
  occurs_in old s = false -> Py.replace_from O old new s = s.
Proof.
  induction s as [|c s IH]; intros H; [reflexivity|].
  cbn [occurs_in] in H. apply orb_false_iff in H. destruct H as [Hp Ho].
  cbn [Py.replace_from]. rewrite Hp. f_equal. now apply IH.
Qed.

End ReplaceFacts.

(** X18.  [cdnize] with CDN_DOMAIN, S3_BUCKET_NAME and S3_REGION set: a URL of
    the bucket, https://BUCKET.s3.REGION.amazonaws.com/KEY, becomes
    https://CDN_DOMAIN/KEY with the same key (a key that does not itself
    contain the bucket prefix), and a URL that does not start with the
    bucket prefix is returned as it is. *)
Theorem X18_cdnize_keeps_the_key :
  forall (cfg : config) (cdn bucket region key : string),
    CDN_DOMAIN cfg = Some cdn -> S3_BUCKET_NAME cfg = Some bucket ->
    S3_REGION cfg = Some region ->
    cdn <> EmptyString -> bucket <> EmptyString -> region <> EmptyString ->
    let s3_prefix := ("https://" ++ bucket ++ ".s3." ++ region ++ ".amazonaws.com/")%string in
    occurs_in s3_prefix key = false ->
    cdnize cfg (Some (s3_prefix ++ key)%string)
    = Some ("https://" ++ cdn ++ "/" ++ key)%string
    /\ (forall url, Py.startswith url s3_prefix = false ->
                    cdnize cfg (Some url) = Some url).
Proof.
  intros cfg cdn bucket region key Hcdn Hbucket Hregion Hc Hb Hr s3_prefix Hkey.
  assert (Henv : Py.truthy_str (CDN_DOMAIN cfg) && Py.truthy_str (S3_BUCKET_NAME cfg)
                 && Py.truthy_str (S3_REGION cfg) = true).
  { rewrite Hcdn, Hbucket, Hregion. cbn [Py.truthy_str].
    apply String.eqb_neq in Hc, Hb, Hr. now rewrite Hc, Hb, Hr. }
  split.
  - unfold cdnize. rewrite Henv, Hcdn, Hbucket, Hregion. cbn [unwrap negb].
    fold s3_prefix. unfold Py.startswith. rewrite prefix_app.
    assert (Hurl : Py.truthy_str (Some (s3_prefix ++ key)%string) = true) by reflexivity.
    rewrite Hurl. cbn [negb]. f_equal. unfold Py.replace.
    unfold s3_prefix at 1 2.
    change ("https://" ++ bucket ++ ".s3." ++ region ++ ".amazonaws.com/")%string
      with (String "h" ("ttps://" ++ bucket ++ ".s3." ++ region ++ ".amazonaws.com/"))%string.
    rewrite replace_at_prefix.
    change (String "h" ("ttps://" ++ bucket ++ ".s3." ++ region ++ ".amazonaws.com/"))%string
      with s3_prefix.
    rewrite (replace_absent _ _ _ Hkey).
    cbn [append]. now rewrite append_assoc.
  - intros url Hstart. unfold cdnize. rewrite Henv, Hbucket, Hregion. cbn [unwrap negb].
    fold s3_prefix. rewrite Hstart. now destruct (negb (Py.truthy_str (Some url))).
Qed.

(** An original upload of the bucket, and a URL of another host. *)
Lemma X18_witness :
  cdnize cdn_config (Some "https://bucket.s3.eu.amazonaws.com/orig/7/photo.jpg"%string)
  = Some "https://cdn.example/orig/7/photo.jpg"%string
  /\ cdnize cdn_config (Some "https://img.example/legacy.png"%string)
     = Some "https://img.example/legacy.png"%string.
Proof.
  destruct (X18_cdnize_keeps_the_key cdn_config "cdn.example" "bucket" "eu" "orig/7/photo.jpg"
              eq_refl eq_refl eq_refl) as [Hkey Hother]; try discriminate.
  - reflexivity.
  - split; [exact Hkey|]. apply Hother. reflexivity.
Defined.

(** ** Depth and path *)
Section DepthFacts.
Import Comments.

Lemma count_slashes_app (a b : string) :
  count_slashes (a ++ b) = count_slashes a + count_slashes b.
Proof. induction a as [|c a IH]; simpl; [reflexivity|rewrite IH; lia]. Qed.

Lemma digit_char_no_slash (n : Z) : (Py.digit_char (n mod 10) =? "/")%char = false.
Proof.
  assert (H : 0 <= n mod 10 < 10) by (apply Z.mod_pos_bound; lia).
  assert (Hd : n mod 10 = 0 \/ n mod 10 = 1 \/ n mod 10 = 2 \/ n mod 10 = 3
               \/ n mod 10 = 4 \/ n mod 10 = 5 \/ n mod 10 = 6 \/ n mod 10 = 7
               \/ n mod 10 = 8 \/ n mod 10 = 9) by lia.
  repeat (destruct Hd as [Hd|Hd]; [rewrite Hd; reflexivity|]).
  rewrite Hd. reflexivity.
Qed.

Lemma decimal_digits_no_slash (fuel : nat) :
  forall n acc, count_slashes (Py.decimal_digits fuel n acc) = count_slashes acc.
Proof.
  induction fuel as [|fuel IH]; intros n acc; [reflexivity|].
  cbn [Py.decimal_digits].
  destruct (n / 10 =? 0); [|rewrite IH]; cbn [count_slashes];
    now rewrite digit_char_no_slash.
Qed.

Lemma zeros_no_slash (k : nat) : count_slashes (Py.zeros k) = 0.
Proof. induction k as [|k IH]; simpl; [reflexivity|exact IH]. Qed.

Lemma fmt06d_no_slash (n : Z) : 0 <= n -> count_slashes (Py.fmt06d n) = 0.
Proof.
  intros Hn. unfold Py.fmt06d.
  destruct (Z.ltb_spec n 0); [lia|].
  unfold Py.zfill, Py.str_of_nat.
  now rewrite count_slashes_app, zeros_no_slash, decimal_digits_no_slash.
Qed.

Lemma handle_keeps_depth (d : db) (r : comment_request) :
  comments_inv d -> depth_counts_segments d -> depth_counts_segments (handle d r).
Proof.
  intros Hinv Hdepth. unfold handle.
  destruct (String.eqb (rq_text r) "") eqn:Htext.
  { unfold add_comment. now rewrite Htext. }
  destruct (values_fit (rq_post_id r) (rq_parent_id r)) eqn:Hfit.
  2:{ unfold add_comment. rewrite Htext.
      destruct (depth_and_prefix d (rq_post_id r) (rq_parent_id r)) as [depth path].
      unfold insert_comment. now rewrite Hfit. }
  destruct (foreign_keys_hold d (rq_post_id r) (rq_parent_id r)) eqn:Hfk.
  - pose proof (add_comment_stores d (rq_author r) (rq_post_id r) (rq_text r)
                  (rq_parent_id r) (rq_now r) (comments_inv_keyed d Hinv) Htext Hfit Hfk)
      as Hadd.
    cbv zeta in Hadd.
    pose proof (inv_seq d Hinv) as Hseq.
    assert (Hnew : let '(depth, path) :=
                     depth_and_prefix d (rq_post_id r) (rq_parent_id r) in
                   depth = count_slashes
                             match path with
                             | None => Py.fmt06d (comments_id_seq d)
                             | Some prefix => (prefix ++ Py.fmt06d (comments_id_seq d))%string
                             end).
    { unfold depth_and_prefix.
      destruct (Py.truthy_int (rq_parent_id r)); [|now rewrite fmt06d_no_slash by lia].
      destruct (select_parent d _ _) as [pr|] eqn:Hpr;
        [|now rewrite fmt06d_no_slash by lia].
      unfold select_parent in Hpr. apply find_some in Hpr. destruct Hpr as [Hpr _].
      destruct (linked_path _ _ (inv_linked d Hinv pr Hpr)) as [Htruthy Hpath].
      rewrite Htruthy, (Hdepth pr Hpr), Hpath. cbn [Py.or_zero].
      rewrite !count_slashes_app, fmt06d_no_slash by lia.
      change (count_slashes "/") with 1. lia. }
    destruct (depth_and_prefix d (rq_post_id r) (rq_parent_id r)) as [depth path].
    rewrite Hadd. cbn [snd set_comments comments].
    intros c Hc. apply in_app_or in Hc. destruct Hc as [Hc|[<-|[]]]; [now apply Hdepth|].
    cbn [c_depth coalesce_path c_path]. now rewrite Hnew.
  - unfold add_comment. rewrite Htext.
    destruct (depth_and_prefix d (rq_post_id r) (rq_parent_id r)) as [depth path].
    unfold insert_comment. rewrite Hfit, Hfk. exact Hdepth.
Qed.

Lemma apply_event_keeps_depth (cfg : config) (s : db * Admin.admin_tables)
      (e : comment_event) :
  comments_inv (fst s) -> depth_counts_segments (fst s) ->
  depth_counts_segments (fst (apply_event cfg s e)).
Proof.
  intros Hinv Hdepth. destruct s as [d a]. cbn [fst snd] in *.
  assert (Hsub : forall sel c, In c (Cascade.delete_where sel (comments d)) ->
                               c_depth c = Some (count_slashes (coalesce_path c))).
  { intros sel c Hc. apply delete_where_In in Hc. now apply Hdepth. }
  destruct e as [r|u comment_id post_id_arg|u post_id|u comment_id now];
    cbn [apply_event fst snd].
  - now apply handle_keeps_depth.
  - unfold Posts.delete_comment.
    destruct (find _ (comments d)) as [row|]; [|exact Hdepth].
    destruct (find _ (posts d)) as [pr|]; [|exact Hdepth].
    destruct (negb _); [exact Hdepth|]. exact (Hsub _).
  - unfold Posts.delete_post.
    destruct (find _ (posts d)) as [row|]; [|exact Hdepth].
    destruct (_ && _); [exact Hdepth|]. exact (Hsub _).
  - unfold Admin.moderate_comment.
    destruct (negb (Auth.is_staff cfg u)); [exact Hdepth|].
    change (String.eqb "delete" "delete") with true. cbv iota.
    destruct (Admin.log_action _ _ _ _ _ _ _) as [[|] a']; [|exact Hdepth].
    exact (Hsub _).
Qed.

Lemma run_events_keeps_depth (cfg : config) (es : list comment_event) :
  forall s, comments_inv (fst s) -> depth_counts_segments (fst s) ->
            depth_counts_segments (fst (run_events cfg s es)).
Proof.
  induction es as [|e es IH]; intros s Hinv Hdepth; [exact Hdepth|].
  simpl. apply IH; [now apply apply_event_preserves|now apply apply_event_keeps_depth].
Qed.

End DepthFacts.

(** X19.  The depth of a comment is the number of its ancestors on the path.
    Start from an empty comments table and run any sequence of
    [add_comment], [delete_comment], [delete_post] and
    [moderate_comment] delete requests: every comment in the table has a
    path, and its column [depth] is the number of slashes of that path,
    that is the number of path segments less one. *)
Theorem X19_depth_is_number_of_ancestors :
  forall (cfg : config) (d0 : db) (a0 : Admin.admin_tables) (events : list comment_event),
    comments d0 = [] ->
    1 <= comments_id_seq d0 ->
    forall c, In c (comments (fst (run_events cfg (d0, a0) events))) ->
              exists path,
                c_path c = Some path /\ path <> EmptyString
                /\ c_depth c = Some (count_slashes path).
Proof.
  intros cfg d0 a0 events Hempty Hstart c Hc.
  pose proof (run_events_preserves cfg events (d0, a0)
                (empty_table_inv d0 Hempty Hstart)) as Hinv.
  assert (Hd0 : depth_counts_segments (fst (d0, a0))).
  { intros x Hx. cbn [fst] in Hx. rewrite Hempty in Hx. contradiction. }
  pose proof (run_events_keeps_depth cfg events (d0, a0)
                (empty_table_inv d0 Hempty Hstart) Hd0 c Hc) as Hdepth.
  destruct (linked_path _ _ (inv_linked _ Hinv c Hc)) as [Htruthy Hpath].
  exists (Comments.coalesce_path c). split; [exact Hpath|]. split; [|exact Hdepth].
  rewrite Hpath in Htruthy. cbn [Py.truthy_str] in Htruthy.
  apply negb_true_iff in Htruthy. now apply String.eqb_neq.
Qed.

(** The thread of thread_events: the reply 44 to the root 42 has depth 1
    and the path 000042/000044. *)
Lemma X19_witness :
  map (fun c => (c_id c, c_depth c, c_path c))
      (comments (fst (run_events sample_config (thread_db [] 42, empty_admin_tables)
                                 thread_events)))
  = [(42, Some 0, Some "000042"%string); (44, Some 1, Some "000042/000044"%string);
     (46, Some 0, Some "000046"%string)]
  /\ forall c, In c (comments (fst (run_events sample_config
                                               (thread_db [] 42, empty_admin_tables)
                                               thread_events))) ->
               exists path, c_path c = Some path /\ path <> EmptyString
                            /\ c_depth c = Some (count_slashes path).
Proof.
  split; [vm_compute; reflexivity|].
  apply (X19_depth_is_number_of_ancestors sample_config (thread_db [] 42) empty_admin_tables
           thread_events); [reflexivity|discriminate].
Defined.

(** ** Hiding a comment *)
Section CommentModeration.
Import Admin.

Lemma moderate_comment_status (cfg : config) (d : db) (a : admin_tables) (u : user)
      (comment_id : Z) (action status : string) (now : Z) :
  Auth.is_staff cfg u = true ->
  existsb (fun x => u_id x =? u_id u) (users d) = true ->
  fits_integer comment_id = true ->
  (action = "hide"%string /\ status = "hidden"%string)
  \/ (action = "unhide"%string /\ status = "public"%string) ->
  snd (fst (moderate_comment cfg d a u comment_id action now))
  = update_comment_status d comment_id status.
Proof.
  intros Hstaff Hu Hfit Haction. unfold moderate_comment, log_action.
  rewrite Hstaff, Hfit, Hu.
  destruct Haction as [[-> ->]|[-> ->]]; reflexivity.
Qed.

Lemma update_comment_status_rows (d : db) (comment_id : Z) (status : string) (x : comment) :
  In x (comments (update_comment_status d comment_id status))
  <-> (In x (comments d) /\ c_id x <> comment_id)
      \/ exists c, In c (comments d) /\ c_id c = comment_id
                   /\ x = mkComment (c_id c) (c_post_id c) (c_comment c) (c_author c)
                                    (c_created_at c) (c_parent_id c) (c_depth c) (c_path c)
                                    (Some status).
Proof.
  unfold update_comment_status. cbn [set_comments comments]. rewrite in_map_iff. split.
  - intros [c [He Hc]]. destruct (Z.eqb_spec (c_id c) comment_id) as [Hid|Hid].
    + right. exists c. auto.
    + left. subst x. auto.
  - intros [[Hx Hid]|[c [Hc [Hid ->]]]].
    + exists x. split; [|assumption].
      destruct (Z.eqb_spec (c_id x) comment_id); [contradiction|reflexivity].
    + exists c. split; [|assumption]. apply Z.eqb_eq in Hid. now rewrite Hid.
Qed.

End CommentModeration.

(** X20.  [moderate_comment] with the action hide takes one comment off the
    post page of everybody who is not staff and nothing else: the
    replies to the hidden comment stay on the page.  No row is removed,
    so staff still sees every comment, and when the comment was public
    the action unhide brings the table back to what it was. *)
Theorem X20_hidden_comment_keeps_its_replies :
  forall (cfg : config) (d : db) (a : Admin.admin_tables) (u : user)
         (comment_id now : Z),
    Auth.is_staff cfg u = true ->
    existsb (fun x => u_id x =? u_id u) (users d) = true ->
    Admin.fits_integer comment_id = true ->
    let d' := snd (fst (Admin.moderate_comment cfg d a u comment_id "hide" now)) in
    (forall post_id x,
        In x (Comments.post_detail_comments d' post_id false)
        <-> In x (Comments.post_detail_comments d post_id false) /\ c_id x <> comment_id)
    /\ map (fun c => (c_id c, c_post_id c, c_parent_id c, c_path c)) (comments d')
       = map (fun c => (c_id c, c_post_id c, c_parent_id c, c_path c)) (comments d)
    /\ ((forall c, In c (comments d) -> c_id c = comment_id ->
                   c_status c = Some "public"%string) ->
        forall a' now',
          comments (snd (fst (Admin.moderate_comment cfg d' a' u comment_id "unhide" now')))
          = comments d).
Proof.
  intros cfg d a u comment_id now Hstaff Hu Hfit d'.
  assert (Hd' : d' = Admin.update_comment_status d comment_id "hidden").
  { apply moderate_comment_status; auto. }
  rewrite Hd'. split; [|split].
  - intros post_id x. unfold Comments.post_detail_comments.
    rewrite !order_by_in, !filter_In, update_comment_status_rows.
    cbn [orb]. split.
    + intros [[[Hx Hid]|[c [Hc [Hid ->]]]] Hb].
      * tauto.
      * cbn [c_status c_post_id is_public String.eqb Ascii.eqb Bool.eqb] in Hb.
        rewrite andb_false_r in Hb. discriminate.
    + intros [[Hx Hb] Hid]. tauto.
  - unfold Admin.update_comment_status. cbn [set_comments comments].
    rewrite map_map. apply map_ext. intros c. now destruct (c_id c =? comment_id).
  - intros Hpub a' now'.
    rewrite moderate_comment_status with (status := "public"%string); auto.
    unfold Admin.update_comment_status. cbn [set_comments comments].
    rewrite map_map. rewrite <- (map_id (comments d)) at 2.
    apply map_ext_in. intros c Hc.
    destruct (Z.eqb_spec (c_id c) comment_id) as [Hid|Hid]; cbn [c_id].
    + apply Z.eqb_eq in Hid as Hb. rewrite Hb. cbn.
      rewrite <- (Hpub c Hc Hid). now destruct c.
    + apply Z.eqb_neq in Hid. now rewrite Hid.
Qed.

(** The moderator hides comment 1 of moderation_db: the anonymous
    visitor still gets the reply 2. *)
Lemma X20_witness :
  let d' := snd (fst (Admin.moderate_comment sample_config moderation_db
                                             empty_admin_tables moderator_mod 1 "hide" 30)) in
  map c_id (Comments.post_detail_comments d' 8 false) = [2]
  /\ map c_id (Comments.post_detail_comments d' 8 true) = [1; 2]
  /\ forall x, In x (Comments.post_detail_comments d' 8 false)
               <-> In x (Comments.post_detail_comments moderation_db 8 false)
                   /\ c_id x <> 1.
Proof.
  intros d'. split; [vm_compute; reflexivity|]. split; [vm_compute; reflexivity|].
  pose proof (X20_hidden_comment_keeps_its_replies sample_config moderation_db
                empty_admin_tables moderator_mod 1 30 eq_refl eq_refl eq_refl) as H.
  cbv zeta in H. exact (proj1 H 8).
Defined.

(** ** Reports *)
Section ReportFacts.
Import Admin.

Lemma create_report_rows (d : db) (a : admin_tables) (u : user)
      (target_type : option string) (target_id : option Z) (reason : string) (now : Z) :
  reports (snd (create_report d a u target_type target_id reason now))
  = if report_is_stored d a u target_type target_id
    then reports a
         ++ [mkReport (reports_id_seq a) (unwrap target_type) (Py.or_zero target_id)
                      (u_id u) reason "open" now]
    else reports a.
Proof.
  unfold create_report, report_is_stored, reported.
  destruct target_type as [t|]; [|reflexivity].
  destruct target_id as [id|];
    [|now destruct (String.eqb t "post" || String.eqb t "comment")].
  cbn [Py.truthy_int Py.or_zero unwrap].
  destruct (String.eqb t "post" || String.eqb t "comment"); [|reflexivity].
  destruct (id =? 0); [reflexivity|].
  destruct (fits_integer id); [|reflexivity].
  cbn [negb orb andb].
  destruct (existsb _ (reports a)); [reflexivity|].
  destruct (existsb _ (users d)); reflexivity.
Qed.

Lemma report_is_stored_rows (d : db) (a a' : admin_tables) (u : user)
      (target_type : option string) (target_id : option Z) :
  reports a' = reports a ->
  report_is_stored d a' u target_type target_id
  = report_is_stored d a u target_type target_id.
Proof. intros H. unfold report_is_stored, reported. now rewrite H. Qed.

End ReportFacts.

(** X21.  [create_report] keeps [reports] within UNIQUE (target_type,
    target_id, reporter_id).  A request stores one row, an open report
    by the user on the target, when the target type is post or comment,
    the target id is a non-zero integer, the user has not reported the
    target before and is a row of [users]; otherwise it stores nothing.
    The same request sent again stores nothing. *)
Theorem X21_create_report_reports_once :
  forall (d : db) (a : Admin.admin_tables) (u : user) (target_type : option string)
         (target_id : option Z) (reason reason' : string) (now now' : Z),
    reports_unique a ->
    let a1 := snd (Admin.create_report d a u target_type target_id reason now) in
    let a2 := snd (Admin.create_report d a1 u target_type target_id reason' now') in
    reports_unique a1
    /\ Admin.reports a1
       = (if report_is_stored d a u target_type target_id
          then Admin.reports a
               ++ [Admin.mkReport (Admin.reports_id_seq a) (unwrap target_type)
                                  (Py.or_zero target_id) (u_id u) reason "open" now]
          else Admin.reports a)
    /\ Admin.reports a2 = Admin.reports a1.
Proof.
  intros d a u target_type target_id reason reason' now now' Huniq a1 a2.
  assert (H1 := create_report_rows d a u target_type target_id reason now).
  assert (H2 := create_report_rows d a1 u target_type target_id reason' now').
  fold a1 in H1. fold a2 in H2.
  destruct (report_is_stored d a u target_type target_id) eqn:Hstored.
  - assert (Hparts : exists t id,
               target_type = Some t /\ target_id = Some id
               /\ reported a t id (u_id u) = false).
    { unfold report_is_stored in Hstored.
      destruct target_type as [t|]; [|discriminate].
      destruct target_id as [id|]; [|discriminate].
      exists t, id. repeat split.
      destruct (reported a t id (u_id u)); [|reflexivity].
      now rewrite !andb_false_r in Hstored. }
    destruct Hparts as [t [id [-> [-> Hnew]]]]. cbn [unwrap Py.or_zero] in *.
    assert (Hagain : report_is_stored d a1 u (Some t) (Some id) = false).
    { unfold report_is_stored, reported. rewrite H1, existsb_app.
      cbn [existsb Admin.rp_target_type Admin.rp_target_id Admin.rp_reporter_id].
      rewrite String.eqb_refl, !Z.eqb_refl. cbn [andb orb].
      rewrite orb_true_r. cbn [negb]. now rewrite andb_false_r. }
    rewrite Hagain in H2.
    split; [|split; [exact H1|exact H2]].
    unfold reports_unique in *. rewrite H1, map_app. cbn [map].
    apply NoDup_app; [assumption|constructor; [intros []|constructor]|].
    intros x Hx [<-|[]]. apply in_map_iff in Hx. destruct Hx as [r [He Hr]].
    cbn [Admin.rp_target_type Admin.rp_target_id Admin.rp_reporter_id] in He.
    injection He as Ht Hi Hu.
    assert (Hb : reported a t id (u_id u) = true).
    { apply existsb_exists. exists r. split; [assumption|].
      now rewrite Ht, Hi, Hu, String.eqb_refl, !Z.eqb_refl. }
    congruence.
  - rewrite (report_is_stored_rows d a a1 u target_type target_id H1), Hstored in H2.
    split; [|split; [exact H1|exact H2]].
    unfold reports_unique in *. now rewrite H1.
Qed.

(** Alice reports post 8 twice: one row. *)
Lemma X21_witness :
  let a1 := snd (Admin.create_report favorites_db empty_admin_tables
                                     (mkUser 1 "alice" None) (Some "post"%string) (Some 8)
                                     "spam" 20) in
  let a2 := snd (Admin.create_report favorites_db a1 (mkUser 1 "alice" None)
                                     (Some "post"%string) (Some 8) "spam again" 21) in
  Admin.reports a1 = [Admin.mkReport 1 "post" 8 1 "spam" "open" 20]
  /\ Admin.reports a2 = Admin.reports a1.
Proof.
  intros a1 a2. split; [reflexivity|].
  assert (Huniq : reports_unique empty_admin_tables) by constructor.
  exact (proj2 (proj2 (X21_create_report_reports_once favorites_db empty_admin_tables
                         (mkUser 1 "alice" None) (Some "post"%string) (Some 8)
                         "spam" "spam again" 20 21 Huniq))).
Defined.

(** ** What the filter accepts *)
Section FilterSemantics.
Import Sql Filter.

Lemma genre_holds (p : post) (g : string) :
  match p_genre p with
  | Some g' => String.eqb g' g
  | None => false
  end = true <-> p_genre p = Some g.
Proof.
  destruct (p_genre p) as [g'|].
  - rewrite String.eqb_eq. split; congruence.
  - split; discriminate.
Qed.

End FilterSemantics.

(** X22.  What [build_posts_filter_sql] stands for.  For every keyword, genre,
    tag list and viewer the WHERE text has as many placeholders as the
    builder returns parameters, the parameters bind, and the bound
    clause accepts a post exactly when the post is public (unless
    non-public posts are included), has the selected genre (when one is
    selected), matches the keyword (when there is one) and carries every
    requested tag (when tags are requested). *)
Theorem X22_filter_accepts_exactly :
  forall (E : fts_engine) (d : db) (keyword : string) (genre : option string)
         (tag_ids : list Z) (include_non_public : bool),
    let f := Filter.build_posts_filter_sql keyword genre tag_ids include_non_public in
    Sql.count_placeholders (Filter.where_sql f) = List.length (Filter.params f)
    /\ exists bs,
         Filter.bind_where (Filter.where_ f) (Filter.params f) = Some (bs, [])
         /\ forall p,
              Filter.satisfies E d bs p = true
              <-> (include_non_public = true \/ p_status p = Some "public"%string)
                  /\ (Py.truthy_str genre = true -> p_genre p = genre)
                  /\ (keyword <> EmptyString -> fts_match E keyword p = true)
                  /\ (tag_ids <> [] ->
                      requested_tags_attached d tag_ids p
                      = List.length tag_ids).
Proof.
  intros E d keyword genre tag_ids inp f. split.
  { unfold f, Filter.build_posts_filter_sql.
    destruct inp, (Py.truthy_str genre), (negb (String.eqb keyword "")), tag_ids;
      vm_compute; reflexivity. }
  unfold f, Filter.build_posts_filter_sql.
  destruct genre as [g|]; cbn [Py.truthy_str];
    [destruct (String.eqb_spec g "") as [Hg|Hg]; cbn [negb]|];
    (destruct (String.eqb_spec keyword "") as [Hk|Hk]; cbn [negb]);
    destruct inp, tag_ids as [|t ts];
    cbn [negb app Filter.where_ Filter.params Filter.bind_where];
    (eexists; split; [reflexivity|]); intros p;
    unfold Filter.satisfies; cbn [forallb Filter.holds];
    rewrite ?andb_true_r, ?andb_true_iff, ?is_public_eq, ?genre_holds,
      ?(tagged_with_all_spec d (t :: ts) p) by discriminate;
    rewrite ?Nat.eqb_eq.
  all: try (split; [intros; repeat split; auto; intros; try contradiction;
                    try discriminate; try congruence; tauto
                   |intros [H1 [H2 [H3 H4]]]]).
  all: repeat split;
    first [ reflexivity
          | destruct H1 as [H1|H1]; [discriminate H1|exact H1]
          | apply H2; reflexivity
          | apply H3; assumption
          | apply H4; discriminate ].
Qed.

(** The public posts of tagged_posts_db that match robot and carry the
    tags 2 and 5: post 1. *)
Lemma X22_witness :
  exists bs,
    Filter.bind_where
      (Filter.where_ (Filter.build_posts_filter_sql "robot" None [2; 5] false))
      (Filter.params (Filter.build_posts_filter_sql "robot" None [2; 5] false))
    = Some (bs, [])
    /\ map p_id (filter (Filter.satisfies sample_fts tagged_posts_db bs)
                        (posts tagged_posts_db)) = [1].
Proof.
  destruct (X22_filter_accepts_exactly sample_fts tagged_posts_db "robot" None [2; 5] false)
    as [_ [bs [Hb _]]].
  exists bs. split; [exact Hb|].
  vm_compute in Hb. injection Hb as <-. vm_compute. reflexivity.
Defined.


(** ** Notifications follow the events *)
Section NotifyEvents.
Import Notify.

Lemma filter_snoc_length {A : Type} (f : A -> bool) (l : list A) (x : A) :
  Z.of_nat (List.length (filter f (l ++ [x])))
  = Z.of_nat (List.length (filter f l)) + (if f x then 1 else 0).
Proof.
  rewrite filter_app, length_app. cbn [filter]. destruct (f x); cbn [List.length]; lia.
Qed.

Lemma counts_of (d : db) (user_id : Z) (username : string) :
  NoDup (map p_id (posts d)) ->
  NoDup (map u_id (users d)) ->
  get_notify_counts_for_user d user_id username
  = Some (mkCounts
      (Z.of_nat (List.length
         (filter (fun c => is_post_of d username (c_post_id c)
                           && by_someone_else username (c_author c)
                           && unread (lr_comments_on_my_posts
                                        (get_notify_last_reads d user_id))
                                     (c_created_at c))
                 (comments d))))
      (Z.of_nat (List.length
         (filter (fun c => is_comment_of d username (c_parent_id c)
                           && by_someone_else username (c_author c)
                           && unread (lr_replies_to_me (get_notify_last_reads d user_id))
                                     (c_created_at c))
                 (comments d))))
      (Z.of_nat (List.length
         (filter (fun f => is_post_of d username (f_post_id f)
                           && is_other_user d username (f_user_id f)
                           && unread (lr_favorites_on_my_posts
                                        (get_notify_last_reads d user_id))
                                     (f_created_at f))
                 (favorites d))))).
Proof.
  intros Hp Hu. unfold get_notify_counts_for_user.
  rewrite (count_comments_on_posts_spec d Hp), (count_replies_spec d),
    (count_favorites_on_posts_spec d Hp Hu).
  reflexivity.
Qed.

End NotifyEvents.

(** X23.  A new favorite shows up in the notifications of the post's author,
    and only there: when [toggle_favorite] answers added, the counter
    favorites_on_my_posts of a user goes up by one if the post is that
    user's, the favorite is somebody else's and the request is later
    than the user's watermark, and stays as it is otherwise; the two
    comment counters do not move. *)
Theorem X23_notifications_follow_favorite :
  forall (cfg : config) (d : db) (u : user) (post_id now : Z)
         (owner_id : Z) (owner : string),
    NoDup (map p_id (posts d)) ->
    NoDup (map u_id (users d)) ->
    fst (Favorites.toggle_favorite cfg d u post_id now) = Redirect "Added to favorites." ->
    let d' := snd (Favorites.toggle_favorite cfg d u post_id now) in
    exists before,
      Notify.get_notify_counts_for_user d owner_id owner = Some before
      /\ Notify.get_notify_counts_for_user d' owner_id owner
         = Some (Notify.mkCounts
                   (Notify.comments_on_my_posts before)
                   (Notify.replies_to_me before)
                   (Notify.favorites_on_my_posts before
                    + (if is_post_of d owner post_id
                          && is_other_user d owner (u_id u)
                          && unread (Notify.lr_favorites_on_my_posts
                                       (Notify.get_notify_last_reads d owner_id)) now
                       then 1 else 0))).
Proof.
  intros cfg d u post_id now owner_id owner Hp Hu Hadded d'.
  assert (Hd' : d' = set_favorites d
                       (favorites d ++ [mkFavorite (favorites_id_seq d) (u_id u) post_id now])
                       (favorites_id_seq d + 1)).
  { unfold d'.
    destruct (existsb (Favorites.is_favorite_of (u_id u) post_id) (favorites d)) eqn:Hex.
    - rewrite (toggle_with_row cfg d u post_id now Hex) in Hadded. discriminate.
    - rewrite (toggle_without_row cfg d u post_id now Hex) in Hadded |- *.
      destruct (refused_favorite cfg d u post_id); [discriminate|].
      destruct (negb (Limits.fits_integer post_id)); [discriminate|reflexivity]. }
  eexists. split; [apply (counts_of d owner_id owner Hp Hu)|].
  rewrite Hd'.
  rewrite (counts_of (set_favorites d _ _) owner_id owner Hp Hu).
  cbn [Notify.comments_on_my_posts Notify.replies_to_me Notify.favorites_on_my_posts
       set_favorites favorites comments].
  rewrite filter_snoc_length. reflexivity.
Qed.

(** Bob favorites Alice's post 8: one more for Alice. *)
Lemma X23_witness :
  let d := mkDb [mkUser 1 "alice" None; mkUser 2 "bob" None] (posts favorites_db) []
                [] 1 [] 1 [] in
  let d' := snd (Favorites.toggle_favorite sample_config d (mkUser 2 "bob" None) 8 9) in
  Notify.get_notify_counts_for_user d 1 "alice" = Some (Notify.mkCounts 0 0 0)
  /\ Notify.get_notify_counts_for_user d' 1 "alice" = Some (Notify.mkCounts 0 0 1).
Proof.
  intros d d'.
  assert (Hp : NoDup (map p_id (posts d))) by (simpl; nodup_literals).
  assert (Hu : NoDup (map u_id (users d))) by (simpl; nodup_literals).
  destruct (X23_notifications_follow_favorite sample_config d (mkUser 2 "bob" None) 8 9
              1 "alice" Hp Hu eq_refl) as [before [Hbefore Hafter]].
  assert (Hb : before = Notify.mkCounts 0 0 0).
  { vm_compute in Hbefore. now injection Hbefore as <-. }
  split; [now rewrite Hbefore, Hb|].
  fold d' in Hafter. rewrite Hafter, Hb. reflexivity.
Defined.

(** X24.  A new comment shows up in the notifications of the author of the
    post and of the author of the comment it replies to: when
    [add_comment] stores a comment, the counter comments_on_my_posts of
    a user goes up by one if the post is that user's, and the counter
    replies_to_me goes up by one if the parent comment is that user's,
    in both cases only for a comment by somebody else that is later than
    the user's watermark; otherwise the counters stay as they are. *)
Theorem X24_notifications_follow_comment :
  forall (d : db) (author : string) (post_id : Z) (text : string) (parent_id : option Z)
         (now : Z) (owner_id : Z) (owner : string),
    NoDup (map p_id (posts d)) ->
    NoDup (map u_id (users d)) ->
    comments_keyed d ->
    (forall c q, In c (comments d) -> c_parent_id c = Some q -> q < comments_id_seq d) ->
    fst (Comments.add_comment d author post_id text parent_id now)
    = Redirect "Comment posted." ->
    let d' := snd (Comments.add_comment d author post_id text parent_id now) in
    let last := Notify.get_notify_last_reads d owner_id in
    exists before,
      Notify.get_notify_counts_for_user d owner_id owner = Some before
      /\ Notify.get_notify_counts_for_user d' owner_id owner
         = Some (Notify.mkCounts
                   (Notify.comments_on_my_posts before
                    + (if is_post_of d owner post_id
                          && by_someone_else owner author
                          && unread (Notify.lr_comments_on_my_posts last) now
                       then 1 else 0))
                   (Notify.replies_to_me before
                    + (if is_comment_of d owner parent_id
                          && by_someone_else owner author
                          && unread (Notify.lr_replies_to_me last) now
                       then 1 else 0))
                   (Notify.favorites_on_my_posts before)).
Proof.
  intros d author post_id text parent_id now owner_id owner Hp Hu Hkey Hpar Hposted d' last.
  apply add_comment_posted in Hposted. destruct Hposted as [Htext [Hfit Hfk]].
  pose proof (add_comment_stores d author post_id text parent_id now Hkey Htext Hfit Hfk)
    as Hadd.
  cbv zeta in Hadd.
  destruct (Comments.depth_and_prefix d post_id parent_id) as [depth path].
  unfold d'. rewrite Hadd. cbn [snd].
  set (row := mkComment _ _ _ _ _ _ _ _ _).
  eexists. split; [apply (counts_of d owner_id owner Hp Hu)|].
  rewrite (counts_of (set_comments d _ _) owner_id owner Hp Hu).
  cbn [Notify.comments_on_my_posts Notify.replies_to_me Notify.favorites_on_my_posts
       set_comments favorites comments].
  fold last.
  assert (Hown : forall q, q < comments_id_seq d ->
             is_comment_of (set_comments d (comments d ++ [row]) (comments_id_seq d + 1))
                           owner (Some q)
             = is_comment_of d owner (Some q)).
  { intros q Hq. unfold is_comment_of. cbn [set_comments comments].
    rewrite existsb_app. cbn [existsb]. unfold row at 1. cbn [c_id].
    destruct (Z.eqb_spec (comments_id_seq d) q) as [He|_]; [lia|].
    cbn [andb orb]. now rewrite orb_false_r. }
  assert (Hold : filter (fun c => is_comment_of
                                    (set_comments d (comments d ++ [row])
                                                  (comments_id_seq d + 1))
                                    owner (c_parent_id c)
                                  && by_someone_else owner (c_author c)
                                  && unread (Notify.lr_replies_to_me last) (c_created_at c))
                        (comments d)
                 = filter (fun c => is_comment_of d owner (c_parent_id c)
                                    && by_someone_else owner (c_author c)
                                    && unread (Notify.lr_replies_to_me last) (c_created_at c))
                          (comments d)).
  { apply filter_ext_in. intros c Hc.
    destruct (c_parent_id c) as [q|] eqn:Hq; [|reflexivity].
    now rewrite (Hown q (Hpar c q Hc Hq)). }
  assert (Hnew : is_comment_of (set_comments d (comments d ++ [row]) (comments_id_seq d + 1))
                               owner parent_id
                 = is_comment_of d owner parent_id).
  { destruct parent_id as [q|]; [|reflexivity]. apply Hown.
    unfold Comments.foreign_keys_hold in Hfk. apply andb_true_iff in Hfk.
    destruct Hfk as [_ Hfk]. apply existsb_exists in Hfk. destruct Hfk as [x [Hx He]].
    apply Z.eqb_eq in He. subst q. destruct Hkey as [_ Hids]. specialize (Hids x Hx). lia. }
  rewrite !filter_snoc_length.
  change (Notify.get_notify_last_reads
            (set_comments d (comments d ++ [row]) (comments_id_seq d + 1)) owner_id)
    with last.
  rewrite Hold.
  change (c_parent_id row) with parent_id. change (c_post_id row) with post_id.
  change (c_author row) with author. change (c_created_at row) with now.
  rewrite Hnew. reflexivity.
Qed.

(** Bob comments on Alice's post 7 at time 20, after her watermark 10. *)
Lemma X24_witness :
  let d' := snd (Comments.add_comment notify_db "bob" 7 "third" None 20) in
  Notify.get_notify_counts_for_user notify_db 1 "alice" = Some (Notify.mkCounts 1 1 1)
  /\ Notify.get_notify_counts_for_user d' 1 "alice" = Some (Notify.mkCounts 2 1 1).
Proof.
  intros d'.
  assert (Hp : NoDup (map p_id (posts notify_db))) by (simpl; nodup_literals).
  assert (Hu : NoDup (map u_id (users notify_db))) by (simpl; nodup_literals).
  assert (Hkey : comments_keyed notify_db).
  { split; [simpl; nodup_literals|].
    intros c Hc. simpl in Hc. destruct Hc as [<-|[<-|[<-|[]]]]; simpl; lia. }
  assert (Hpar : forall c q, In c (comments notify_db) -> c_parent_id c = Some q ->
                             q < comments_id_seq notify_db).
  { intros c q Hc. simpl in Hc. destruct Hc as [<-|[<-|[<-|[]]]]; simpl; intros Hq;
      try discriminate. injection Hq as <-. lia. }
  destruct (X24_notifications_follow_comment notify_db "bob" 7 "third" None 20 1 "alice"
              Hp Hu Hkey Hpar eq_refl) as [before [Hbefore Hafter]].
  assert (Hb : before = Notify.mkCounts 1 1 1).
  { vm_compute in Hbefore. now injection Hbefore as <-. }
  split; [now rewrite Hbefore, Hb|].
  fold d' in Hafter. rewrite Hafter, Hb. reflexivity.
Defined.

(** ** Who may moderate *)

(** X25.  Moderation is for staff only.  A user whose role is neither admin
    nor moderator (no role and the empty role count as user) and whose
    name is not in ADMIN_USERNAMES gets the page 403 from
    [moderate_post] and from [moderate_comment], for every target and
    every action, and no table changes. *)
Theorem X25_moderation_requires_staff :
  forall (cfg : config) (d : db) (a : Admin.admin_tables) (u : user) (target : Z)
         (action : string) (now : Z),
    u_role u <> Some "admin"%string ->
    u_role u <> Some "moderator"%string ->
    ~ In (u_username u) (ADMIN_USERNAMES cfg) ->
    Admin.moderate_post cfg d a u target action now = (Forbidden, d, a)
    /\ Admin.moderate_comment cfg d a u target action now = (Forbidden, d, a).
Proof.
  intros cfg d a u target action now Hadmin Hmod Hlist.
  assert (Hstaff : Auth.is_staff cfg u = false).
  { unfold Auth.is_staff, Auth.is_moderator, Auth.is_admin.
    assert (Hnames : existsb (String.eqb (u_username u)) (ADMIN_USERNAMES cfg) = false).
    { apply not_true_is_false. intros Hex. apply existsb_exists in Hex.
      destruct Hex as [x [Hx He]]. apply String.eqb_eq in He. subst x. contradiction. }
    rewrite Hnames. unfold Auth.role, Py.or_str, Py.truthy_str.
    destruct (u_role u) as [r|]; [|reflexivity].
    destruct (String.eqb_spec r "") as [->|Hr]; cbn [negb]; [reflexivity|].
    destruct (String.eqb_spec r "admin") as [->|_]; [contradiction|].
    destruct (String.eqb_spec r "moderator") as [->|_]; [contradiction|reflexivity]. }
  unfold Admin.moderate_post, Admin.moderate_comment. rewrite Hstaff. split; reflexivity.
Qed.

(** Alice, a plain user, tries to unhide the hidden post 7. *)
Lemma X25_witness :
  Admin.moderate_post sample_config favorites_db empty_admin_tables (mkUser 1 "alice" None)
                      7 "unhide" 30
  = (Forbidden, favorites_db, empty_admin_tables).
Proof.
  apply (X25_moderation_requires_staff sample_config favorites_db empty_admin_tables
           (mkUser 1 "alice" None) 7 "unhide" 30); [discriminate|discriminate|].
  intros [].
Defined.

(** ** Unhiding a post *)
Section UnhideFacts.
Import Admin.

Lemma find_update_post_status (d : db) (post_id : Z) (status : string) (now : Z) :
  find (fun p => p_id p =? post_id) (posts (update_post_status d post_id status now))
  = option_map (fun p => mkPost (p_id p) (p_genre p) (p_title p) (p_content p)
                                (p_ai_name p) (p_author p) (p_image_url p)
                                (p_image_orig_url p) (p_image_thumb_url p)
                                (p_created_at p) (Some now) (Some status))
               (find (fun p => p_id p =? post_id) (posts d)).
Proof.
  unfold update_post_status. cbn [posts].
  induction (posts d) as [|p ps IH]; [reflexivity|].
  cbn [map find]. destruct (p_id p =? post_id) eqn:Hid.
  - cbn [p_id]. now rewrite Hid.
  - now rewrite Hid.
Qed.

End UnhideFacts.

(** X26.  The action unhide of [moderate_post] publishes the post
    whatever its status was, also after the action delete: for a post of
    the table, after a member of staff unhides it the API and the post
    page answer every visitor with that post, now public, with the
    author, title and content it had. *)
Theorem X26_unhide_republishes :
  forall (cfg : config) (d : db) (a : Admin.admin_tables) (u : user) (p : post) (now : Z),
    Auth.is_staff cfg u = true ->
    existsb (fun x => u_id x =? u_id u) (users d) = true ->
    Admin.fits_integer (p_id p) = true ->
    In p (posts d) ->
    let d' := snd (fst (Admin.moderate_post cfg d a u (p_id p) "unhide" now)) in
    exists r v,
      Api.api_post_detail cfg d' (p_id p) = Some r
      /\ Posts.post_detail cfg d' None (p_id p) = Some v
      /\ Api.ap_post r = Posts.dv_post v
      /\ p_id (Api.ap_post r) = p_id p
      /\ p_status (Api.ap_post r) = Some "public"%string
      /\ exists p0, In p0 (posts d) /\ p_id p0 = p_id p
                    /\ p_author (Api.ap_post r) = p_author p0
                    /\ p_title (Api.ap_post r) = p_title p0
                    /\ p_content (Api.ap_post r) = p_content p0.
Proof.
  intros cfg d a u p now Hstaff Hu Hfit Hp d'.
  assert (Hd' : d' = Admin.update_post_status d (p_id p) "public" now).
  { unfold d'.
    now rewrite (moderate_post_applied cfg d a u (p_id p) "unhide" "public" now
                   Hstaff Hu Hfit eq_refl). }
  destruct (find_present (fun x => p_id x =? p_id p) (posts d) p Hp (Z.eqb_refl _))
    as [p0 [Hfind [Hin Hid]]].
  apply Z.eqb_eq in Hid.
  unfold Api.api_post_detail, Posts.post_detail.
  rewrite Hd', find_update_post_status, Hfind. cbn [option_map p_status is_public].
  change (String.eqb "public" "public") with true. cbv iota.
  cbn [negb andb].
  eexists. eexists. split; [reflexivity|]. split; [reflexivity|].
  cbn [Api.record_of Api.ap_post Posts.dv_post p_id p_status p_author p_title p_content].
  repeat split; try assumption.
  exists p0. repeat split; assumption.
Qed.

(** The moderator unhides the hidden post 7 of favorites_db. *)
Lemma X26_witness :
  let d' := snd (fst (Admin.moderate_post sample_config favorites_db empty_admin_tables
                                          moderator_mod 7 "unhide" 30)) in
  Api.api_post_detail sample_config favorites_db 7 = None
  /\ exists r, Api.api_post_detail sample_config d' 7 = Some r
               /\ p_status (Api.ap_post r) = Some "public"%string.
Proof.
  intros d'. split; [reflexivity|].
  destruct (X26_unhide_republishes sample_config favorites_db empty_admin_tables
              moderator_mod (sample_post 7 "hidden" "a hidden post") 30
              eq_refl eq_refl eq_refl (or_introl eq_refl))
    as [r [v [Hapi [_ [_ [_ [Hpub _]]]]]]].
  exists r. split; [exact Hapi|exact Hpub].
Defined.
